(** * Rolevate live interview agent (room-LangGraph/v3): session orchestration

    A shallow embedding of the session orchestration and persistence layer of
    the v3 interview agent:

    - [agent.py]: room-name resolution, recording setup, linkage, the
      transcript handler and the teardown callback;
    - [graphql_client.py]: the GraphQL client of the backend of record;
    - [recording_manager.py]: capture start and the backend wrappers;
    - [nodes/assistant_node.py], [utils/session_utils.py],
      [state/assistant_state.py]: the LangGraph node and its state.

    Python strings are modelled by [string]; a character is one [ascii], so a
    text outside ASCII is represented by its UTF-8 bytes.  Concatenation,
    comparison with ASCII literals, [startswith], [endswith], [split] on an
    ASCII separator and [join] are exact on that representation; [strip],
    [lstrip], [rstrip] and [split()] go by the white space of Python, ASCII
    or not, in its UTF-8 bytes; [lower], [title] and slicing are exact on
    ASCII text. *)

From Stdlib Require Import ZArith Lia Bool Ascii String List.
From Stdlib Require Import Numbers.DecimalString.
From Stdlib Require QArith.QArith_base.
From stdpp Require Import base option list strings gmap sorting.

Set Warnings "-register-all".

Open Scope string_scope.
Open Scope list_scope.

(** ** Python string primitives *)

Module Py.

(** [s[n:]] *)
Fixpoint str_drop (n : nat) (s : string) : string :=
  match n, s with
  | O, _ => s
  | S _, EmptyString => EmptyString
  | S n', String _ s' => str_drop n' s'
  end.

(** [s[:n]] *)
Fixpoint str_take (n : nat) (s : string) : string :=
  match n, s with
  | O, _ => EmptyString
  | S _, EmptyString => EmptyString
  | S n', String a s' => String a (str_take n' s')
  end.

(** [s.startswith(p)] *)
Definition startswith (s p : string) : bool := String.prefix p s.

(** [s.split(c)] for a one-character separator [c]: never empty, and
    [''.split(c) == ['']]. *)
Fixpoint split (c : ascii) (s : string) : list string :=
  match s with
  | EmptyString => [EmptyString]
  | String a s' =>
      if Ascii.eqb a c then EmptyString :: split c s'
      else match split c s' with
           | [] => [String a EmptyString]
           | p :: ps => String a p :: ps
           end
  end.

(** [sep.join(parts)] *)
Definition join (sep : string) (parts : list string) : string :=
  String.concat sep parts.

(** [c not in s] *)
Fixpoint free_of (c : ascii) (s : string) : bool :=
  match s with
  | EmptyString => true
  | String a s' => negb (Ascii.eqb a c) && free_of c s'
  end.

(** Truthiness of a string: [bool(s)]. *)
Definition truthy_str (s : string) : bool :=
  match s with EmptyString => false | _ => true end.

(** Truthiness of an [Optional[str]]. *)
Definition truthy_opt (o : option string) : bool :=
  match o with Some s => truthy_str s | None => false end.

(** The white space of Python ([str.isspace], which [strip] and [split] go
    by) within ASCII: U+0009 to U+000D and U+001C to U+0020. *)
Definition is_space (c : ascii) : bool :=
  let n := nat_of_ascii c in
  ((9 <=? n) && (n <=? 13) || (28 <=? n) && (n <=? 32))%nat.

(** The white space of two bytes: U+0085 and U+00A0. *)
Definition is_space2 (a b : ascii) : bool :=
  let m := nat_of_ascii b in
  ((nat_of_ascii a =? 194) && ((m =? 133) || (m =? 160)))%nat.

(** The white space of three bytes: U+1680, U+2000 to U+200A, U+2028,
    U+2029, U+202F, U+205F and U+3000. *)
Definition is_space3 (a b c : ascii) : bool :=
  let l := nat_of_ascii a in
  let m := nat_of_ascii b in
  let n := nat_of_ascii c in
  ((l =? 225) && (m =? 154) && (n =? 128)
   || (l =? 226) && (m =? 128)
      && ((128 <=? n) && (n <=? 138) || (n =? 168) || (n =? 169) || (n =? 175))
   || (l =? 226) && (m =? 129) && (n =? 159)
   || (l =? 227) && (m =? 128) && (n =? 128))%nat.

(** The number of bytes of the white-space character that [s] starts with,
    0 when it starts with none. *)
Definition space_len (s : string) : nat :=
  match s with
  | String a s1 =>
      if is_space a then 1
      else match s1 with
           | String b s2 =>
               if is_space2 a b then 2
               else match s2 with
                    | String c _ => if is_space3 a b c then 3 else 0
                    | EmptyString => 0
                    end
           | EmptyString => 0
           end
  | EmptyString => 0
  end.

(** The same for the white-space character that a string ends with, read
    off the string reversed. *)
Definition space_len_reversed (r : string) : nat :=
  match r with
  | String c r1 =>
      if is_space c then 1
      else match r1 with
           | String b r2 =>
               if is_space2 b c then 2
               else match r2 with
                    | String a _ => if is_space3 a b c then 3 else 0
                    | EmptyString => 0
                    end
           | EmptyString => 0
           end
  | EmptyString => 0
  end.

(** The characters that [len] counts are dropped from the front, one after
    the other. *)
Fixpoint drop_spaces (len : string -> nat) (s : string) : string :=
  match len s, s with
  | 1, String _ s1 => drop_spaces len s1
  | 2, String _ (String _ s2) => drop_spaces len s2
  | 3, String _ (String _ (String _ s3)) => drop_spaces len s3
  | _, _ => s
  end.

Definition reverse (s : string) : string :=
  string_of_list_ascii (rev (list_ascii_of_string s)).

(** [s.lstrip()] and [s.rstrip()] *)
Definition lstrip (s : string) : string := drop_spaces space_len s.

Definition rstrip (s : string) : string :=
  reverse (drop_spaces space_len_reversed (reverse s)).

(** [s.strip()] *)
Definition strip (s : string) : string := rstrip (lstrip s).

Definition is_upper (c : ascii) : bool :=
  let n := nat_of_ascii c in ((65 <=? n) && (n <=? 90))%nat.

Definition is_lower (c : ascii) : bool :=
  let n := nat_of_ascii c in ((97 <=? n) && (n <=? 122))%nat.

Definition to_lower (c : ascii) : ascii :=
  if is_upper c then ascii_of_nat (nat_of_ascii c + 32) else c.

Definition to_upper (c : ascii) : ascii :=
  if is_lower c then ascii_of_nat (nat_of_ascii c - 32) else c.

(** [s.lower()] *)
Fixpoint lower (s : string) : string :=
  match s with
  | EmptyString => EmptyString
  | String a s' => String (to_lower a) (lower s')
  end.

(** [s.title()]: a cased character is upper-cased when the character before
    it is not cased, and lower-cased otherwise. *)
Fixpoint title_from (previous_is_cased : bool) (s : string) : string :=
  match s with
  | EmptyString => EmptyString
  | String a s' =>
      if is_lower a || is_upper a then
        String (if previous_is_cased then to_lower a else to_upper a)
               (title_from true s')
      else String a (title_from false s')
  end.

Definition title (s : string) : string := title_from false s.

(** [s.replace(old, new)] for a non-empty [old]: the occurrences are replaced
    from the left and do not overlap; [skip] counts the characters of a
    matched occurrence still to be passed over. *)
Fixpoint replace_from (old new : string) (skip : nat) (s : string) : string :=
  match s with
  | EmptyString => EmptyString
  | String a s' =>
      match skip with
      | S k => replace_from old new k s'
      | O =>
          if String.prefix old s
          then new +:+ replace_from old new (String.length old - 1) s'
          else String a (replace_from old new 0 s')
      end
  end.

Definition replace (s old new : string) : string := replace_from old new 0 s.

(** [s.split()[0]]: the first whitespace-delimited word of [s], if any. *)
Fixpoint take_word (s : string) : string :=
  match s with
  | EmptyString => EmptyString
  | String a s' =>
      match space_len s with
      | O => String a (take_word s')
      | S _ => EmptyString
      end
  end.

Definition first_word (s : string) : option string :=
  match lstrip s with
  | EmptyString => None
  | t => Some (take_word t)
  end.

(** The line feed of the source's ["\n"]. *)
Definition nl : string := String (ascii_of_nat 10) EmptyString.

(** [str(z)] for an integer. *)
Definition str_of_Z (z : Z) : string := NilZero.string_of_int (Z.to_int z).

End Py.

(** ** agent.py: application id from the room name (entrypoint, lines 42-50) *)

Definition hyphen : ascii := "-"%char.

Definition resolve_application_id (room_id : string) : option string :=
  if Py.startswith room_id "interview-" then
    let parts := Py.split hyphen (Py.str_drop 10 room_id) in
    if (5 <=? length parts)%nat then Some (Py.join "-" (take 5 parts))
    else None
  else None.

(** ** graphql_client.py: [extract_interview_id_from_room_name] *)

Definition extract_interview_id_from_room_name (room_name : string) : string :=
  if Py.startswith room_name "interview-" then
    let parts := Py.split hyphen (Py.str_drop 10 room_name) in
    if (5 <=? length parts)%nat then Py.join "-" (take 5 parts)
    else room_name
  else room_name.

(** The room-name convention [interview-{uuid}-{suffix}] with a UUID of five
    hyphen-delimited groups of 8, 4, 4, 4 and 12 hexadecimal digits. *)

Definition is_hex_digit (c : ascii) : bool :=
  let n := nat_of_ascii c in
  ((48 <=? n) && (n <=? 57) || (97 <=? n) && (n <=? 102)
   || (65 <=? n) && (n <=? 70))%nat.

Fixpoint all_hex (s : string) : bool :=
  match s with
  | EmptyString => true
  | String a s' => is_hex_digit a && all_hex s'
  end.

Definition is_group (n : nat) (g : string) : bool :=
  (String.length g =? n)%nat && all_hex g.

Definition is_uuid (u : string) : bool :=
  match Py.split hyphen u with
  | [g1; g2; g3; g4; g5] =>
      is_group 8 g1 && is_group 4 g2 && is_group 4 g3 && is_group 4 g4
      && is_group 12 g5
  | _ => false
  end.

(** [room_name] is [interview-{uuid}-{suffix}] for some UUID and some suffix. *)
Definition matches_convention (room_name : string) : bool :=
  Py.startswith room_name "interview-" &&
  match Py.split hyphen (Py.str_drop 10 room_name) with
  | g1 :: g2 :: g3 :: g4 :: g5 :: _ :: _ =>
      is_group 8 g1 && is_group 4 g2 && is_group 4 g3 && is_group 4 g4
      && is_group 12 g5
  | _ => false
  end.

(** ** Python values and exceptions *)

(** The exceptions the modelled code can raise. *)
Inductive PyExn :=
| AttributeError
| TypeError
| KeyError
| IndexError
| ValueError
| CollaboratorError   (* a failure reported by an external service *)
| TimeoutError.

(** The outcome of a Python computation: a value, or a raised exception. *)
Inductive Res (A : Type) : Type :=
| Ok (a : A)
| Raise (e : PyExn).
Arguments Ok {A} a.
Arguments Raise {A} e.

#[global] Instance Res_ret : MRet Res := fun A a => Ok a.
#[global] Instance Res_bind : MBind Res := fun A B f m =>
  match m with Ok a => f a | Raise e => Raise e end.

Definition raises {A} (r : Res A) : bool :=
  match r with Ok _ => false | Raise _ => true end.

(** The values a decoded GraphQL response is made of: [None], booleans,
    integers, strings, lists and dictionaries with string keys (in insertion
    order). *)
Inductive PyVal :=
| PNone
| PBool (b : bool)
| PInt (z : Z)
| PStr (s : string)
| PList (l : list PyVal)
| PDict (d : list (string * PyVal)).

Module PyV.

(** [bool(v)] *)
Definition truthy (v : PyVal) : bool :=
  match v with
  | PNone => false
  | PBool b => b
  | PInt z => negb (z =? 0)%Z
  | PStr s => Py.truthy_str s
  | PList l => match l with [] => false | _ => true end
  | PDict d => match d with [] => false | _ => true end
  end.

(** [a or b] *)
Definition or_ (a b : PyVal) : PyVal := if truthy a then a else b.

Fixpoint assoc (k : string) (d : list (string * PyVal)) : option PyVal :=
  match d with
  | [] => None
  | (k', v) :: d' => if String.eqb k k' then Some v else assoc k d'
  end.

(** [v.get(k, dflt)]: only a dictionary has [get]. *)
Definition get (v : PyVal) (k : string) (dflt : PyVal) : Res PyVal :=
  match v with
  | PDict d => Ok (default dflt (assoc k d))
  | _ => Raise AttributeError
  end.

(** [v[k]] for a string key [k]. *)
Definition subscript (v : PyVal) (k : string) : Res PyVal :=
  match v with
  | PDict d => match assoc k d with Some x => Ok x | None => Raise KeyError end
  | _ => Raise TypeError
  end.

(** [v.lower()], [v.strip()], [v.title()]: string methods. *)
Definition lower (v : PyVal) : Res string :=
  match v with PStr s => Ok (Py.lower s) | _ => Raise AttributeError end.

Definition strip (v : PyVal) : Res string :=
  match v with PStr s => Ok (Py.strip s) | _ => Raise AttributeError end.

Definition title (v : PyVal) : Res string :=
  match v with PStr s => Ok (Py.title s) | _ => Raise AttributeError end.

(** [v.replace(old, new)]: a string method, and [new] must be a string. *)
Definition replace (v : PyVal) (old : string) (new : PyVal) : Res string :=
  match v with
  | PStr s =>
      match new with
      | PStr n => Ok (Py.replace s old n)
      | _ => Raise TypeError
      end
  | _ => Raise AttributeError
  end.

(** [a or b], where [b] is evaluated only when [a] is falsy. *)
Definition or_else (a : PyVal) (b : Res PyVal) : Res PyVal :=
  if truthy a then Ok a else b.

(** [sep.join(items)]: every item must be a string. *)
Fixpoint strings_of (items : list PyVal) : Res (list string) :=
  match items with
  | [] => Ok []
  | PStr s :: items' => ss ← strings_of items'; Ok (s :: ss)
  | _ :: _ => Raise TypeError
  end.

Definition join (sep : string) (items : list PyVal) : Res string :=
  ss ← strings_of items; Ok (Py.join sep ss).

(** [repr(v)]; a string is rendered between single quotes, which is Python's
    rendering for a string free of quotes, backslashes and control
    characters. *)
Fixpoint repr (v : PyVal) : string :=
  match v with
  | PNone => "None"
  | PBool true => "True"
  | PBool false => "False"
  | PInt z => Py.str_of_Z z
  | PStr s => "'" +:+ s +:+ "'"
  | PList l =>
      "[" +:+ (fix items (l : list PyVal) : string :=
                 match l with
                 | [] => EmptyString
                 | [x] => repr x
                 | x :: l' => repr x +:+ ", " +:+ items l'
                 end) l +:+ "]"
  | PDict d =>
      "{" +:+ (fix items (d : list (string * PyVal)) : string :=
                 match d with
                 | [] => EmptyString
                 | [(k, x)] => "'" +:+ k +:+ "': " +:+ repr x
                 | (k, x) :: d' =>
                     "'" +:+ k +:+ "': " +:+ repr x +:+ ", " +:+ items d'
                 end) d +:+ "}"
  end.

(** [str(v)], also what an f-string field [{v}] renders. *)
Definition str (v : PyVal) : string :=
  match v with PStr s => s | _ => repr v end.

Definition is_dict (v : PyVal) : bool :=
  match v with PDict _ => true | _ => false end.

Definition is_none (v : PyVal) : bool :=
  match v with PNone => true | _ => false end.

End PyV.

(** ** state/assistant_state.py *)

(** Messages of the conversation ([langchain_core.messages]). *)
Inductive BaseMessage :=
| SystemMessage (content : string)
| HumanMessage (content : string)
| AIMessage (content : string).

(** What a state key can hold: a message list, a [datetime] (given by its
    ISO rendering) or a plain value. *)
Inductive Value :=
| VMsgs (l : list BaseMessage)
| VDatetime (iso : string)
| VPy (v : PyVal).

(** The state dictionary of the graph, and also the dictionary a node
    returns. *)
Abbreviation AssistantState := (gmap string Value).

(** The keys of the [AssistantState] TypedDict. *)
Definition channels : list string :=
  [ "messages"; "session_id"; "current_question"; "interview_status";
    "participant_name"; "start_time"; "last_updated"; "questions_asked";
    "responses_received"; "application_details"; "interview_language" ].

(** [operator.add], the reducer annotated on [messages]. *)
Definition add_messages (a b : Value) : Res Value :=
  match a, b with
  | VMsgs x, VMsgs y => Ok (VMsgs (x ++ y))
  | VPy (PList x), VPy (PList y) => Ok (VPy (PList (x ++ y)))
  | VPy (PStr x), VPy (PStr y) => Ok (VPy (PStr (x +:+ y)))
  | VPy (PInt x), VPy (PInt y) => Ok (VPy (PInt (x + y)))
  | _, _ => Raise TypeError
  end.

(** One channel write of a commit.  [messages] is the only annotated key: its
    written value is added to the stored one (an unset list channel is the
    empty list); every other key of the schema keeps the last value written. *)
Definition write_channel (delta : AssistantState) (st : AssistantState)
    (k : string) : Res AssistantState :=
  match delta !! k with
  | None => Ok st
  | Some v =>
      if String.eqb k "messages" then
        r ← add_messages (default (VMsgs []) (st !! k)) v;
        Ok (<[k := r]> st)
      else Ok (<[k := v]> st)
  end.

Fixpoint write_channels (delta : AssistantState) (st : AssistantState)
    (ks : list string) : Res AssistantState :=
  match ks with
  | [] => Ok st
  | k :: ks' => st' ← write_channel delta st k; write_channels delta st' ks'
  end.

(** The commit of a returned dictionary into the checkpointed state of a
    thread: each key of the schema present in [delta] is written through its
    channel; keys outside the schema are not stored. *)
Definition commit (st delta : AssistantState) : Res AssistantState :=
  write_channels delta st channels.

(** [len(state["messages"])] of a stored state. *)
Definition messages_of (st : AssistantState) : list BaseMessage :=
  match st !! "messages" with Some (VMsgs l) => l | _ => [] end.

(** ** nodes/assistant_node.py *)

Definition fallback_system_prompt : string := "You are a helpful AI assistant.".

Definition arabic_directive : string :=
  Py.nl +:+ Py.nl +:+
  "IMPORTANT: You must conduct this interview entirely in Arabic. Speak, ask questions, and respond only in Arabic.".

Definition english_directive : string :=
  Py.nl +:+ Py.nl +:+
  "IMPORTANT: You must conduct this interview entirely in English.".

Definition arabic_template (company_name : string) : string :=
  "أنت مُقابل مهني في " +:+ company_name +:+ ". " +:+ Py.nl +:+
  "قم بإجراء مقابلة شاملة وجذابة لتقييم مؤهلات المرشح ومهاراته وملاءمته الثقافية للمنصب. كن محترفاً ومباشراً وثاقب النظر.".

Definition english_template (company_name : string) : string :=
  "You are a professional interviewer at " +:+ company_name +:+ ". " +:+ Py.nl +:+
  "Conduct a thorough and engaging interview to assess the candidate's qualifications, " +:+ Py.nl +:+
  "skills, and cultural fit for the position. Be professional, direct, and insightful.".

(** A list-valued attribute of the structured CV analysis, cut to its first
    [cap] items and joined with [sep]; nothing when the attribute is falsy or
    not a list. *)
Definition bounded_list_part (car : PyVal) (key label sep : string)
    (cap : nat) : Res (list string) :=
  present ← PyV.get car key PNone;
  if PyV.truthy present then
    items ← PyV.subscript car key;
    match items with
    | PList l => joined ← PyV.join sep (take cap l); Ok [label +:+ joined]
    | _ => Ok []
    end
  else Ok [].

(** The branch [if cv_analysis_results and isinstance(cv_analysis_results, dict)]. *)
Definition structured_cv_parts (car : PyVal) : Res (list string) :=
  es ← PyV.get car "experience_summary" PNone;
  p1 ← (if PyV.truthy es then
          v ← PyV.subscript car "experience_summary";
          Ok ["Experience Summary: " +:+ PyV.str v]
        else Ok []);
  p2 ← bounded_list_part car "skills_matched" "Matching Skills: " ", " 8;
  p3 ← bounded_list_part car "skills_missing" "Missing Skills: " ", " 6;
  p4 ← bounded_list_part car "strengths" "Key Strengths: " "; " 4;
  p5 ← bounded_list_part car "concerns" "Areas of Concern: " "; " 4;
  rc ← PyV.get car "recommendation" PNone;
  p6 ← (if PyV.truthy rc then
          v ← PyV.subscript car "recommendation";
          t ← PyV.title v;
          Ok ["Overall Recommendation: " +:+ t]
        else Ok []);
  Ok (p1 ++ p2 ++ p3 ++ p4 ++ p5 ++ p6).

(** [cv_summary_parts], from the root of the application details. *)
Definition cv_summary_parts (application_details : PyVal) : Res (list string) :=
  s1 ← PyV.get application_details "cvScore" PNone;
  s12 ← PyV.or_else s1 (PyV.get application_details "cv_score" PNone);
  cv_score ← PyV.or_else s12 (PyV.get application_details "cvAnalysisScore" PNone);
  r1 ← PyV.get application_details "cvAnalysisResults" PNone;
  cv_analysis_results ←
    PyV.or_else r1 (PyV.get application_details "cv_analysis_results" PNone);
  let p0 :=
    if PyV.is_none cv_score then []
    else ["CV Match Score: " +:+ PyV.str cv_score +:+ "/100"] in
  p ← (if PyV.truthy cv_analysis_results && PyV.is_dict cv_analysis_results
       then structured_cv_parts cv_analysis_results
       else if PyV.truthy cv_analysis_results
       then Ok ["CV Analysis: " +:+ Py.str_take 600 (PyV.str cv_analysis_results)]
       else Ok []);
  Ok (p0 ++ p).

(** The body of [if application_details and application_details.get('job')]. *)
Definition interview_system_prompt (application_details : PyVal) : Res string :=
  job_details ← PyV.subscript application_details "job";
  lang ← PyV.get job_details "interviewLanguage" (PStr "english");
  interview_language ← PyV.lower lang;
  company ← PyV.get job_details "company" (PDict []);
  company_name ← PyV.get company "name" (PStr "the company");
  parts ← cv_summary_parts application_details;
  let cv_summary := Py.join Py.nl parts in
  interview_prompt ← PyV.get job_details "interviewPrompt" PNone;
  use_prompt ← (if PyV.truthy interview_prompt then
                  stripped ← PyV.strip interview_prompt;
                  Ok (Py.truthy_str stripped)
                else Ok false);
  system_prompt ←
    (if use_prompt : bool then
       replaced ← PyV.replace interview_prompt "{company_name}" company_name;
       if String.eqb interview_language "arabic"
       then Ok (replaced +:+ arabic_directive)
       else Ok (replaced +:+ english_directive)
     else
       if String.eqb interview_language "arabic"
       then Ok (arabic_template (PyV.str company_name))
       else Ok (english_template (PyV.str company_name)));
  if Py.truthy_str cv_summary
  then Ok ("Candidate CV summary:" +:+ Py.nl +:+ cv_summary +:+ Py.nl +:+ Py.nl
           +:+ system_prompt)
  else Ok system_prompt.

(** The system prompt of a turn (lines 17-91), from the stored application
    details. *)
Definition system_prompt_of (application_details : PyVal) : Res string :=
  has_job ← (if PyV.truthy application_details
             then PyV.get application_details "job" PNone
             else Ok application_details);
  if PyV.truthy has_job then interview_system_prompt application_details
  else Ok fallback_system_prompt.

(** [state.get("application_details")] followed by the assembly.  A stored
    value that is not a plain value has no [get]. *)
Definition system_prompt_of_state (state : AssistantState) : Res string :=
  match default (VPy PNone) (state !! "application_details") with
  | VPy application_details => system_prompt_of application_details
  | VMsgs [] => Ok fallback_system_prompt
  | VMsgs (_ :: _) => Raise AttributeError
  | VDatetime _ => Raise AttributeError
  end.

(** [list(state["messages"])] *)
Definition state_messages (state : AssistantState) : Res (list BaseMessage) :=
  match state !! "messages" with
  | None => Raise KeyError
  | Some (VMsgs l) => Ok l
  | Some _ => Raise TypeError
  end.

(** [call_llm]: [llm] stands for [ChatOpenAI(...).invoke] and [now] for
    [datetime.now()]. *)
Definition call_llm (llm : list BaseMessage -> Res BaseMessage) (now : string)
    (state : AssistantState) : Res AssistantState :=
  let session_id := default (VPy (PStr "unknown")) (state !! "session_id") in
  system_prompt ← system_prompt_of_state state;
  history ← state_messages state;
  message ← llm (SystemMessage system_prompt :: history);
  Ok (list_to_map
        [ ("messages", VMsgs [message]);
          ("last_updated", VDatetime now);
          ("current_question",
             default (VPy (PInt 0)) (state !! "current_question"));
          ("session_id", session_id);
          ("participant_name",
             default (VPy PNone) (state !! "participant_name"));
          ("interview_status",
             default (VPy (PStr "active")) (state !! "interview_status"));
          ("start_time", default (VPy PNone) (state !! "start_time"));
          ("questions_asked",
             default (VPy (PList [])) (state !! "questions_asked"));
          ("responses_received",
             default (VPy (PList [])) (state !! "responses_received"));
          ("application_details",
             default (VPy PNone) (state !! "application_details"));
          ("interview_language",
             default (VPy (PStr "english")) (state !! "interview_language")) ]).

(** The input of a run of the graph.  [LLMAdapter] runs the graph on the chat
    context of the session, [graph.astream({"messages": [...]}, config)]. *)
Definition graph_input (input : list BaseMessage) : AssistantState :=
  {[ "messages" := VMsgs input ]}.

(** One turn of the compiled graph on the stored state of a thread: the
    input is written to the state through the channels, the node runs on the
    result, and the dictionary it returns is written in turn. *)
Definition turn (llm : list BaseMessage -> Res BaseMessage) (now : string)
    (input : list BaseMessage) (st : AssistantState) : Res AssistantState :=
  st ← commit st (graph_input input);
  delta ← call_llm llm now st;
  commit st delta.

(** ** session_manager.py *)

(** [SessionMetadata] of [session_manager.py], with the application details
    that [create_initial_session_state] and [entrypoint] read from it. *)
Module SessionManager.

Record SessionMetadata := {
  session_id : string;
  user_id : option string;
  start_time : string;
  current_question : Z;
  interview_status : string;
  participant_name : option string;
  room_id : option string;
  application_details : PyVal
}.

(** [session_metadata.session_id = thread_id] *)
Definition set_session_id (m : SessionMetadata) (thread_id : string)
    : SessionMetadata :=
  {| session_id := thread_id;
     user_id := user_id m;
     start_time := start_time m;
     current_question := current_question m;
     interview_status := interview_status m;
     participant_name := participant_name m;
     room_id := room_id m;
     application_details := application_details m |}.

End SessionManager.

Abbreviation SessionMetadata := SessionManager.SessionMetadata.

(** ** utils/session_utils.py *)

Definition opt_str (o : option string) : PyVal :=
  match o with Some s => PStr s | None => PNone end.

(** The language read from the application details (lines 10-13; the same
    lines are in [entrypoint], 206-208). *)
Definition language_of (application_details : PyVal) : Res string :=
  has_job ← (if PyV.truthy application_details
             then PyV.get application_details "job" PNone
             else Ok application_details);
  if PyV.truthy has_job then
    job ← PyV.subscript application_details "job";
    lang ← PyV.get job "interviewLanguage" (PStr "english");
    PyV.lower lang
  else Ok "english".

Definition create_initial_session_state (now : string)
    (session_metadata : SessionMetadata) : Res AssistantState :=
  let ad := SessionManager.application_details session_metadata in
  language ← language_of ad;
  let initial_message := HumanMessage "Start conversation" in
  cv ← (if PyV.truthy ad then
          s1 ← PyV.get ad "cvScore" PNone;
          s12 ← PyV.or_else s1 (PyV.get ad "cv_score" PNone);
          cv_score ← PyV.or_else s12 (PyV.get ad "cvAnalysisScore" PNone);
          r1 ← PyV.get ad "cvAnalysisResults" PNone;
          cv_analysis_results ←
            PyV.or_else r1 (PyV.get ad "cv_analysis_results" PNone);
          Ok (cv_score, cv_analysis_results)
        else Ok (PNone, PNone));
  Ok (list_to_map
        [ ("messages", VMsgs [initial_message]);
          ("session_id", VPy (PStr (SessionManager.session_id session_metadata)));
          ("current_question", VPy (PInt 0));
          ("interview_status", VPy (PStr "active"));
          ("participant_name", VPy (opt_str (SessionManager.participant_name session_metadata)));
          ("start_time", VDatetime (SessionManager.start_time session_metadata));
          ("last_updated", VDatetime now);
          ("questions_asked", VPy (PList []));
          ("responses_received", VPy (PList []));
          ("application_details", VPy ad);
          ("interview_language", VPy (PStr language));
          ("cv_score", VPy (fst cv));
          ("cv_analysis_results", VPy (snd cv)) ]).

(** ** graphql_client.py *)

(** The operations sent to the GraphQL endpoint, with their variables. *)
Inductive Request :=
| FindInterviewByRoomId (roomId : string)
| UpdateInterviewRecording (id recordingUrl roomId : string)
| CompleteInterview (id : string)
| CreateInterview (applicationId roomId recordingUrl type_ status : string)
| CreateTranscript (interviewId content speaker timestamp : string)
    (sequenceNumber : Z).

(** The [data] of a response, by its top-level key. *)
Inductive Data :=
| DInterviews (ids : list string)            (* interviews: the ids found *)
| DUpdateInterview (updated : option string) (* updateInterview: id, or null *)
| DCompleteInterview (completed : option string)
| DCreateInterview (created : option string) (* createInterview: id, or null *)
| DCreateTranscript (created : option string).

(** What a session does to its surroundings, in order. *)
Inductive Effect :=
| Gateway (q : Request)                       (* a request is sent *)
| CaptureStart (room_name s3_filepath : string)
| StateCommit (thread_id : string) (acknowledged : bool)
| SessionStart
| GenerateReply (instructions : string)
| ManagerCleanup.

Section Backend.

(** The backend of record: a state [G] and its answer to a request; [None]
    is a transport failure, a status other than 200, or a response with
    [errors] (the three [return None] of [execute_query]). *)
Context {G : Type}.
Variable execute : Request -> G -> option Data * G.

Record World := {
  backend : G;
  checkpoints : gmap string AssistantState;   (* the checkpointer, by thread *)
  trace : list Effect
}.

Definition emit (e : Effect) (w : World) : World :=
  {| backend := backend w; checkpoints := checkpoints w;
     trace := trace w ++ [e] |}.

Definition execute_query (q : Request) (w : World) : option Data * World :=
  let '(r, g) := execute q (backend w) in
  (r, {| backend := g; checkpoints := checkpoints w;
         trace := trace w ++ [Gateway q] |}).

Definition find_interview_by_room_id (room_id : string) (w : World)
    : option string * World :=
  let '(result, w) := execute_query (FindInterviewByRoomId room_id) w in
  match result with
  | Some (DInterviews (id :: _)) => (Some id, w)
  | _ => (None, w)
  end.

Definition update_interview_recording (interview_id recording_url room_id : string)
    (w : World) : bool * World :=
  let '(result, w) :=
    execute_query (UpdateInterviewRecording interview_id recording_url room_id) w in
  match result with
  | Some (DUpdateInterview (Some _)) => (true, w)
  | _ => (false, w)
  end.

Definition complete_interview (interview_id : string) (w : World)
    : bool * World :=
  let '(result, w) := execute_query (CompleteInterview interview_id) w in
  match result with
  | Some (DCompleteInterview (Some _)) => (true, w)
  | _ => (false, w)
  end.

Definition create_interview_with_video (room_id video_url job_id : string)
    (w : World) : option string * World :=
  let interview_uuid := extract_interview_id_from_room_name room_id in
  let '(result, w) :=
    execute_query
      (CreateInterview interview_uuid room_id video_url "VIDEO" "STARTED") w in
  match result with
  | Some (DCreateInterview (Some interview_id)) => (Some interview_id, w)
  | _ => (None, w)
  end.

Definition save_video_url_to_interview (room_id video_url job_id : string)
    (w : World) : option string * World :=
  create_interview_with_video room_id video_url job_id w.

(** The request of [create_transcript], and what it returns from the
    response. *)
Definition create_transcript_request (interview_id content speaker timestamp : string)
    (sequence_number : Z) : Request :=
  CreateTranscript interview_id content speaker timestamp sequence_number.

Definition create_transcript_result (result : option Data) : option string :=
  match result with
  | Some (DCreateTranscript (Some transcript_id)) => Some transcript_id
  | _ => None
  end.

Definition create_transcript (interview_id content speaker timestamp : string)
    (sequence_number : Z) (w : World) : option string * World :=
  let '(result, w) :=
    execute_query
      (create_transcript_request interview_id content speaker timestamp
         sequence_number) w in
  (create_transcript_result result, w).

(** ** recording_manager.py *)

Record JobContext := {
  ctx_room_name : string;      (* ctx.room.name *)
  ctx_job_id : string          (* ctx.job.id *)
}.

Record RecordingManager := {
  job_context : option JobContext;
  aws_region : string;
  bucket_name : string;
  recording_id : option string;
  recording_url : option string
}.

(** [os.getenv(name, dflt)] for a variable whose value is [v]. *)
Definition getenv (v : option string) (dflt : string) : string :=
  default dflt v.

(** [_validate_config]: each of the five required variables must be set to a
    non-empty value; [required] are their values, in the order of the
    source. *)
Definition _validate_config (required : list (option string)) : Res unit :=
  let missing := List.filter (fun v => negb (Py.truthy_opt v)) required in
  match missing with
  | [] => Ok tt
  | _ :: _ => Raise ValueError
  end.

(** The manager that [RecordingManager(ctx)] leaves when [_validate_config]
    has let it through. *)
Definition new_recording_manager (ctx : JobContext)
    (env_region env_bucket : option string) : RecordingManager :=
  {| job_context := Some ctx;
     aws_region := getenv env_region "me-central-1";
     bucket_name := getenv env_bucket "4wk-garage-media";
     recording_id := None;
     recording_url := None |}.

Definition s3_url (bucket region s3_filepath : string) : string :=
  "https://" +:+ bucket +:+ ".s3." +:+ region +:+ ".amazonaws.com/"
  +:+ s3_filepath.

Definition interview_filepath (session_id timestamp : string) : string :=
  "interviews/" +:+ session_id +:+ "/" +:+ timestamp +:+ "/recording.mp4".

(** [start_recording]: [egress] is the outcome of
    [start_room_composite_egress] (the egress id, or an exception) and
    [timestamp] the formatted [datetime.now()]. *)
Definition start_recording (self : RecordingManager) (egress : Res string)
    (timestamp : string) (room_name session_id : option string) (w : World)
    : option string * RecordingManager * World :=
  let room_name :=
    match job_context self with
    | Some ctx =>
        if negb (Py.truthy_opt room_name) then Some (ctx_room_name ctx)
        else room_name
    | None => room_name
    end in
  match room_name with
  | Some room_name =>
      if Py.truthy_str room_name then
        let session_id :=
          match session_id with
          | Some s =>
              if Py.truthy_str s then s
              else "session_" +:+ room_name +:+ "_" +:+
                   match job_context self with
                   | Some ctx => ctx_job_id ctx
                   | None => "manual"
                   end
          | None =>
              "session_" +:+ room_name +:+ "_" +:+
              match job_context self with
              | Some ctx => ctx_job_id ctx
              | None => "manual"
              end
          end in
        let s3_filepath := interview_filepath session_id timestamp in
        let w := emit (CaptureStart room_name s3_filepath) w in
        match egress with
        | Ok egress_id =>
            let url := s3_url (bucket_name self) (aws_region self) s3_filepath in
            (Some url,
             {| job_context := job_context self;
                aws_region := aws_region self;
                bucket_name := bucket_name self;
                recording_id := Some egress_id;
                recording_url := Some url |}, w)
        | Raise _ => (None, self, w)
        end
      else (None, self, w)
  | None => (None, self, w)
  end.

Definition save_video_to_backend (room_name job_id : string)
    (video_url : option string) (env_region env_bucket : option string)
    (w : World) : option string * World :=
  let video_url_to_save :=
    if Py.truthy_opt video_url then default EmptyString video_url
    else s3_url (getenv env_bucket "4wk-garage-media")
           (getenv env_region "me-central-1")
           ("recordings/" +:+ room_name +:+ "_" +:+ job_id +:+ ".mp4") in
  let '(interview_id, w) :=
    save_video_url_to_interview room_name video_url_to_save job_id w in
  if Py.truthy_opt interview_id then (interview_id, w) else (None, w).

Definition manager_complete_interview (interview_id : string) (w : World)
    : bool * World :=
  complete_interview interview_id w.

Definition manager_cleanup (self : RecordingManager) (w : World)
    : RecordingManager * World :=
  ({| job_context := job_context self;
      aws_region := aws_region self;
      bucket_name := bucket_name self;
      recording_id := None;
      recording_url := None |}, emit ManagerCleanup w).

End Backend.

(** ** agent.py *)

(** [event.item] of a [ConversationItemAddedEvent]. *)
Record ConversationItem := {
  role : string;
  text_content : option string
}.

(** What [entrypoint] gets from its surroundings. *)
Inductive CaptureOutcome :=
| Started (egress_id : string)     (* the egress API answers with an id *)
| Failed (e : PyExn)               (* the egress API raises *)
| NoAnswer.                        (* no answer within the 10 s of [wait_for] *)

Record Surroundings := {
  env_access_key_id : option string;       (* AWS_ACCESS_KEY_ID *)
  env_secret_access_key : option string;   (* AWS_SECRET_ACCESS_KEY *)
  env_livekit_url : option string;         (* LIVEKIT_URL *)
  env_livekit_api_key : option string;     (* LIVEKIT_API_KEY *)
  env_livekit_api_secret : option string;  (* LIVEKIT_API_SECRET *)
  env_region : option string;      (* AWS_REGION *)
  env_bucket : option string;      (* AWS_BUCKET_NAME *)
  get_or_create_session : string -> option string -> string * SessionMetadata;
  now_stamp : string;              (* strftime of datetime.now(), line 66 *)
  capture_stamp : string;          (* the same inside start_recording *)
  capture : CaptureOutcome;
  state_now : string;              (* datetime.now() of the initial state *)
  checkpoint_ok : bool             (* aupdate_state is acknowledged *)
}.

(** The variables of [entrypoint] that its closures ([async_handler],
    [cleanup]) read and write, with the transcript requests sent and not yet
    answered. *)
Record Session := {
  ctx : JobContext;
  surroundings : Surroundings;
  session_id : string;
  session_metadata : SessionMetadata;
  recording_manager : RecordingManager;
  video_url_to_save : string;
  interview_id : option string;
  thread_id : string;
  sequence_counter : Z;
  in_flight : list Request
}.

Section Agent.

Context {G : Type}.
Variable execute : Request -> G -> option Data * G.

Abbreviation World := (@World G).

(** [asyncio.wait_for]: the awaited result, or [TimeoutError]. *)
Definition wait_for {A} (in_time : bool) (r : A) : Res A :=
  if in_time then Ok r else Raise TimeoutError.

(** Line 60, [RecordingManager(ctx)], as far as it can fail: the validation
    of the configuration, outside any [try]. *)
Definition recording_configuration (sur : Surroundings) : Res unit :=
  _validate_config
    [ env_access_key_id sur; env_secret_access_key sur; env_livekit_url sur;
      env_livekit_api_key sur; env_livekit_api_secret sur ].

(** Lines 60-82 once the configuration is validated: the manager, the
    generated URL, the capture attempt, and the URL kept. *)
Definition setup_recording (ctx : JobContext) (sur : Surroundings)
    (session_id : string) (w : World) : string * RecordingManager * World :=
  let recording_manager :=
    new_recording_manager ctx (env_region sur) (env_bucket sur) in
  let bucket_name := getenv (env_bucket sur) "4wk-garage-media" in
  let region := getenv (env_region sur) "me-central-1" in
  let timestamp := now_stamp sur in
  let video_url_to_save :=
    "https://" +:+ bucket_name +:+ ".s3." +:+ region +:+
    ".amazonaws.com/interviews/" +:+ session_id +:+ "/" +:+ timestamp +:+
    "/recording.mp4" in
  let attempt egress :=
    start_recording recording_manager egress (capture_stamp sur)
      (Some (ctx_room_name ctx)) (Some session_id) w in
  let '(awaited, recording_manager, w) :=
    match capture sur with
    | Started egress_id =>
        let '(r, m, w) := attempt (Ok egress_id) in (wait_for true r, m, w)
    | Failed e =>
        let '(r, m, w) := attempt (Raise e) in (wait_for true r, m, w)
    | NoAnswer =>
        let '(r, m, w) := attempt (Raise TimeoutError) in (wait_for false r, m, w)
    end in
  match awaited with
  | Ok recording_url =>
      if Py.truthy_opt recording_url
      then (default EmptyString recording_url, recording_manager, w)
      else (video_url_to_save, recording_manager, w)
  | Raise _ => (video_url_to_save, recording_manager, w)
  end.

(** [interview_workflow.aupdate_state(config, values)] inside its [try]: the
    values are committed to the thread when the checkpointer acknowledges. *)
Definition aupdate_state (thread_id : string) (values : AssistantState)
    (acknowledged : bool) (w : World) : World :=
  match (if acknowledged
         then commit (default ∅ (checkpoints w !! thread_id)) values
         else Raise CollaboratorError) with
  | Ok st =>
      {| backend := backend w;
         checkpoints := <[thread_id := st]> (checkpoints w);
         trace := trace w ++ [StateCommit thread_id true] |}
  | Raise _ => emit (StateCommit thread_id false) w
  end.

(** Lines 199-213: the instruction of the proactive greeting. *)
Definition proactive_instruction (session_metadata : SessionMetadata)
    : Res string :=
  let user_name :=
    match SessionManager.participant_name session_metadata with
    | Some n => if Py.truthy_str n then n else "there"
    | None => "there"
    end in
  user_name ←
    (if negb (String.eqb user_name "there")
        && negb (Py.free_of " "%char user_name)
     then match Py.first_word user_name with
          | Some first => Ok first
          | None => Raise IndexError
          end
     else Ok user_name);
  language ← language_of (SessionManager.application_details session_metadata);
  if String.eqb language "arabic"
  then Ok ("قل مرحباً بسيطاً: 'مرحباً " +:+ user_name +:+ "'")
  else Ok ("Say a simple hello: 'Hello " +:+ user_name +:+ "'").

(** [entrypoint], up to the registration of the shutdown callback.  The
    collaborators [create_workflow], [session.start] and
    [session.generate_reply] are taken to return; what [entrypoint] itself
    can raise is kept. *)
Definition entrypoint (ctx : JobContext) (sur : Surroundings) (w : World)
    : Res Session * World :=
  let room_id := ctx_room_name ctx in
  let application_id := resolve_application_id room_id in
  let '(session_id, session_metadata) :=
    get_or_create_session sur room_id application_id in
  match recording_configuration sur with
  | Raise e => (Raise e, w)
  | Ok _ =>
      let '(video_url_to_save, recording_manager, w) :=
        setup_recording ctx sur session_id w in
      let '(interview_id, w) :=
        if Py.truthy_str video_url_to_save then
          save_video_to_backend execute (ctx_room_name ctx) (ctx_job_id ctx)
            (Some video_url_to_save) (env_region sur) (env_bucket sur) w
        else (None, w) in
      let thread_id :=
        if Py.truthy_opt interview_id then default EmptyString interview_id
        else session_id in
      let session_metadata :=
        SessionManager.set_session_id session_metadata thread_id in
      match create_initial_session_state (state_now sur) session_metadata with
      | Raise e => (Raise e, w)
      | Ok initial_state =>
          let w := aupdate_state thread_id initial_state (checkpoint_ok sur) w in
          let w := emit SessionStart w in
          match proactive_instruction session_metadata with
          | Raise e => (Raise e, w)
          | Ok instructions =>
              let w := emit (GenerateReply instructions) w in
              (Ok {| ctx := ctx;
                     surroundings := sur;
                     session_id := session_id;
                     session_metadata := session_metadata;
                     recording_manager := recording_manager;
                     video_url_to_save := video_url_to_save;
                     interview_id := interview_id;
                     thread_id := thread_id;
                     sequence_counter := 0;
                     in_flight := [] |}, w)
          end
      end
  end.

(** The guard of [async_handler] on the text of the item. *)
Definition blank (text : option string) : bool :=
  negb (Py.truthy_opt text)
  || String.eqb (Py.strip (default EmptyString text)) EmptyString.

(** [async_handler], from its start to the sending of the request of
    [save_transcript_entry]: no other task runs in between.  [timestamp] is
    the [datetime.now().isoformat()] taken by [save_transcript_entry]. *)
Definition async_handler (item : ConversationItem) (timestamp : string)
    (s : Session) (w : World) : Session * World :=
  if negb (Py.truthy_opt (interview_id s)) || blank (text_content item)
  then (s, w)
  else
    let sequence_counter := (sequence_counter s + 1)%Z in
    let content := Py.strip (default EmptyString (text_content item)) in
    let speaker :=
      if String.eqb (role item) "assistant" then "AI" else "CANDIDATE" in
    let q :=
      create_transcript_request (default EmptyString (interview_id s)) content
        speaker (timestamp +:+ "Z") sequence_counter in
    ({| ctx := ctx s;
        surroundings := surroundings s;
        session_id := session_id s;
        session_metadata := session_metadata s;
        recording_manager := recording_manager s;
        video_url_to_save := video_url_to_save s;
        interview_id := interview_id s;
        thread_id := thread_id s;
        sequence_counter := sequence_counter;
        in_flight := in_flight s ++ [q] |},
     emit (Gateway q) w).

(** The rest of [async_handler]: the [i]-th pending request is answered by
    the backend, and the outcome is only logged. *)
Definition async_handler_resume (i : nat) (s : Session) (w : World)
    : Session * World :=
  match in_flight s !! i with
  | None => (s, w)
  | Some q =>
      let '(_, g) := execute q (backend w) in
      ({| ctx := ctx s;
          surroundings := surroundings s;
          session_id := session_id s;
          session_metadata := session_metadata s;
          recording_manager := recording_manager s;
          video_url_to_save := video_url_to_save s;
          interview_id := interview_id s;
          thread_id := thread_id s;
          sequence_counter := sequence_counter s;
          in_flight := delete i (in_flight s) |},
       {| backend := g; checkpoints := checkpoints w; trace := trace w |})
  end.

(** [cleanup], the shutdown callback; [backup_in_time] tells whether the
    backup save answers within the 10 s of its [wait_for]. *)
Definition cleanup (backup_in_time : bool) (s : Session) (w : World)
    : Session * World :=
  let w :=
    if Py.truthy_opt (interview_id s)
    then snd (manager_complete_interview execute
                (default EmptyString (interview_id s)) w)
    else w in
  let '(interview_id', w) :=
    if Py.truthy_str (video_url_to_save s)
       && negb (Py.truthy_opt (interview_id s))
    then
      let '(backup, w) :=
        save_video_to_backend execute (ctx_room_name (ctx s))
          (ctx_job_id (ctx s)) (Some (video_url_to_save s))
          (env_region (surroundings s)) (env_bucket (surroundings s)) w in
      match wait_for backup_in_time backup with
      | Ok backup_interview_id =>
          if Py.truthy_opt backup_interview_id
          then (backup_interview_id, w)
          else (interview_id s, w)
      | Raise _ => (interview_id s, w)
      end
    else (interview_id s, w) in
  let '(recording_manager, w) := manager_cleanup (recording_manager s) w in
  ({| ctx := ctx s;
      surroundings := surroundings s;
      session_id := session_id s;
      session_metadata := session_metadata s;
      recording_manager := recording_manager;
      video_url_to_save := video_url_to_save s;
      interview_id := interview_id';
      thread_id := thread_id s;
      sequence_counter := sequence_counter s;
      in_flight := in_flight s |}, w).

(** One reply through [LLMAdapter] (lines 131-138): the compiled graph runs
    on the thread of the adapter's configuration with the chat context as
    input.  The checkpointer stores the state once the input is written and
    again once the dictionary of the node is written; [acknowledged] tells
    whether it takes the writes.  A refused write and an exception of the
    node both raise to the adapter; the first leaves the thread as it was,
    the second leaves it with the input written. *)
Definition graph_run (llm : list BaseMessage -> Res BaseMessage) (now : string)
    (input : list BaseMessage) (acknowledged : bool) (thread_id : string)
    (w : World) : Res unit * World :=
  if acknowledged then
    match commit (default ∅ (checkpoints w !! thread_id)) (graph_input input) with
    | Raise e => (Raise e, w)
    | Ok st =>
        match (delta ← call_llm llm now st; commit st delta) with
        | Ok st' =>
            (Ok tt,
             {| backend := backend w;
                checkpoints := <[thread_id := st']> (checkpoints w);
                trace := trace w ++ [StateCommit thread_id true] |})
        | Raise e =>
            (Raise e,
             {| backend := backend w;
                checkpoints := <[thread_id := st]> (checkpoints w);
                trace := trace w |})
        end
    end
  else (Raise CollaboratorError, emit (StateCommit thread_id false) w).

(** What happens to a running session.  The event loop is cooperative: a
    handler task runs from its start to its first suspension (the request of
    the transcript entry) without interruption, tasks start in the order of
    their notifications, and pending requests are answered in any order.  A
    reply of the graph is one step; what it raises goes to the adapter, not
    to the closures of [entrypoint]. *)
Inductive Step :=
| ItemAdded (item : ConversationItem) (timestamp : string)
| Answered (i : nat)
| Shutdown (backup_in_time : bool)
| Turn (llm : list BaseMessage -> Res BaseMessage) (now : string)
    (input : list BaseMessage) (acknowledged : bool).

Definition step (sw : Session * World) (e : Step) : Session * World :=
  match e with
  | ItemAdded item timestamp => async_handler item timestamp sw.1 sw.2
  | Answered i => async_handler_resume i sw.1 sw.2
  | Shutdown backup_in_time => cleanup backup_in_time sw.1 sw.2
  | Turn llm now input acknowledged =>
      (sw.1, (graph_run llm now input acknowledged (thread_id sw.1) sw.2).2)
  end.

Definition run (steps : list Step) (sw : Session * World) : Session * World :=
  foldl step sw steps.

End Agent.

(** The sequence numbers of the transcript entries requested, in order. *)
Fixpoint sequence_numbers (t : list Effect) : list Z :=
  match t with
  | [] => []
  | Gateway (CreateTranscript _ _ _ _ n) :: t' => n :: sequence_numbers t'
  | _ :: t' => sequence_numbers t'
  end.

(** The record ids of the transcript entries requested, in order. *)
Fixpoint transcript_records (t : list Effect) : list string :=
  match t with
  | [] => []
  | Gateway (CreateTranscript i _ _ _ _) :: t' => i :: transcript_records t'
  | _ :: t' => transcript_records t'
  end.

(** The record creations requested, in order. *)
Fixpoint creation_requests (t : list Effect) : list Request :=
  match t with
  | [] => []
  | Gateway (CreateInterview a r u ty st) :: t' =>
      CreateInterview a r u ty st :: creation_requests t'
  | _ :: t' => creation_requests t'
  end.

(** Several turns on one thread, one per element of [runs]: the time of the
    turn and its input. *)
Fixpoint turns (llm : list BaseMessage -> Res BaseMessage)
    (runs : list (string * list BaseMessage)) (st : AssistantState)
    : Res AssistantState :=
  match runs with
  | [] => Ok st
  | (now, input) :: rest => st' ← turn llm now input st; turns llm rest st'
  end.

(** The messages that the inputs of [runs] hold, all in all. *)
Definition input_count (runs : list (string * list BaseMessage)) : nat :=
  list_sum ((fun r => length r.2) <$> runs).


(** The requests sent to the gateway, in order. *)
Fixpoint gateway_requests (t : list Effect) : list Request :=
  match t with
  | [] => []
  | Gateway q :: t' => q :: gateway_requests t'
  | _ :: t' => gateway_requests t'
  end.

(** The threads of the commits attempted, in order. *)
Fixpoint commit_threads (t : list Effect) : list string :=
  match t with
  | [] => []
  | StateCommit thread_id _ :: t' => thread_id :: commit_threads t'
  | _ :: t' => commit_threads t'
  end.


(** The scalar keys that [call_llm] copies forward. *)
Definition scalar_fields : list string :=
  [ "session_id"; "participant_name"; "interview_status"; "start_time";
    "current_question"; "questions_asked"; "responses_received";
    "application_details"; "interview_language" ].

(** The same surroundings with another capture outcome, or another answer of
    the checkpointer. *)
Definition with_capture (sur : Surroundings) (o : CaptureOutcome) : Surroundings :=
  {| env_access_key_id := env_access_key_id sur;
     env_secret_access_key := env_secret_access_key sur;
     env_livekit_url := env_livekit_url sur;
     env_livekit_api_key := env_livekit_api_key sur;
     env_livekit_api_secret := env_livekit_api_secret sur;
     env_region := env_region sur;
     env_bucket := env_bucket sur;
     get_or_create_session := get_or_create_session sur;
     now_stamp := now_stamp sur;
     capture_stamp := capture_stamp sur;
     capture := o;
     state_now := state_now sur;
     checkpoint_ok := checkpoint_ok sur |}.


(** The URL generated at lines 63-69, whether capture works or not. *)
Definition fallback_url (sur : Surroundings) (session_id : string) : string :=
  s3_url (getenv (env_bucket sur) "4wk-garage-media")
    (getenv (env_region sur) "me-central-1")
    (interview_filepath session_id (now_stamp sur)).

(** The session id that names the S3 path inside [start_recording]. *)
Definition path_session_id (c : JobContext) (session_id : string) : string :=
  if Py.truthy_str session_id then session_id
  else "session_" +:+ ctx_room_name c +:+ "_" +:+ ctx_job_id c.

(** The numbering of the transcript requests of a session: strictly
    increasing in the order of the requests, and never beyond the counter. *)
Definition well_numbered (s : Session) (t : list Effect) : Prop :=
  StronglySorted Z.lt (sequence_numbers t) /\
  Forall (fun n => (n <= sequence_counter s)%Z) (sequence_numbers t).

(** A session is linked once it holds an external record id. *)
Definition linked (s : Session) : bool := Py.truthy_opt (interview_id s).

(** Every transcript entry requested so far was requested for the external
    record id of the session (so none was requested while there is no id). *)
Definition one_record (s : Session) (t : list Effect) : Prop :=
  Forall (fun i => linked s = true /\ i = default EmptyString (interview_id s))
    (transcript_records t).

(** The linkage request of a session. *)
Definition linkage_request (s : Session) : Request :=
  CreateInterview (extract_interview_id_from_room_name (ctx_room_name (ctx s)))
    (ctx_room_name (ctx s)) (video_url_to_save s) "VIDEO" "STARTED".

(** The request of a handled item. *)
Definition transcript_request (item : ConversationItem) (timestamp : string)
    (s : Session) : Request :=
  CreateTranscript (default EmptyString (interview_id s))
    (Py.strip (default EmptyString (text_content item)))
    (if String.eqb (role item) "assistant" then "AI" else "CANDIDATE")
    (timestamp +:+ "Z") (sequence_counter s + 1).

(** An id is gateway-assigned when it is the backend's answer to the creation
    of a record. *)
Definition gateway_assigned {G : Type}
    (execute : Request -> G -> option Data * G) (i : option string) : Prop :=
  exists application room url g,
    (execute (CreateInterview application room url "VIDEO" "STARTED") g).1
    = Some (DCreateInterview i).

(** ** A backend of record to run the client against *)

(** Modelled from the spec: the backend of record behind the GraphQL endpoint
    (the ExternalRecordGateway), which is not part of these sources.
    [createInterview] stores a record under a fresh id, [interviews] finds the
    records of a room, [createTranscript] stores an entry. *)
Module RecordBackend.

Record Interview := {
  id : string;
  applicationId : string;
  roomId : string;
  recordingUrl : string;
  completed : bool
}.

Record State := {
  interviews : list Interview;
  transcripts : list (string * Z * string)   (* interview id, sequence, content *)
}.

Definition empty : State := {| interviews := []; transcripts := [] |}.

Definition of_room (room : string) (g : State) : list Interview :=
  filter (fun i => roomId i = room) (interviews g).

Definition fresh_id (g : State) : string :=
  "rec-" +:+ Py.str_of_Z (Z.of_nat (S (length (interviews g)))).

Definition execute (q : Request) (g : State) : option Data * State :=
  match q with
  | FindInterviewByRoomId room =>
      (Some (DInterviews (id <$> take 1 (of_room room g))), g)
  | CreateInterview application room url _ _ =>
      let i := {| id := fresh_id g; applicationId := application;
                  roomId := room; recordingUrl := url; completed := false |} in
      (Some (DCreateInterview (Some (id i))),
       {| interviews := interviews g ++ [i]; transcripts := transcripts g |})
  | CreateTranscript interview content _ _ n =>
      (Some (DCreateTranscript
               (Some ("tr-" +:+ Py.str_of_Z (Z.of_nat (S (length (transcripts g))))))),
       {| interviews := interviews g;
          transcripts := transcripts g ++ [(interview, n, content)] |})
  | CompleteInterview i =>
      (Some (DCompleteInterview
               (if bool_decide (i ∈ id <$> interviews g) then Some i else None)), g)
  | UpdateInterviewRecording i _ _ =>
      (Some (DUpdateInterview
               (if bool_decide (i ∈ id <$> interviews g) then Some i else None)), g)
  end.

(** A backend that is down: every request fails. *)
Definition unreachable (q : Request) (g : State) : option Data * State :=
  (None, g).

(** A backend that is down for its first [n] requests; the state counts the
    requests still to fail. *)
Definition flaky (q : Request) (g : nat * State) : option Data * (nat * State) :=
  match g.1 with
  | S n => (None, (n, g.2))
  | O => let '(r, g') := execute q g.2 in (r, (O, g'))
  end.

End RecordBackend.

(** ** Sample values *)

Module Sample.

Definition room : string := "interview-11111111-2222-3333-4444-555555555555-7".

Definition job_ctx : JobContext :=
  {| ctx_room_name := room; ctx_job_id := "AJ_JSBd98MDqmqN" |}.

Definition metadata : SessionMetadata :=
  {| SessionManager.session_id := "interview-local-1";
     SessionManager.user_id := None;
     SessionManager.start_time := "2025-10-31 23:58:59";
     SessionManager.current_question := 0;
     SessionManager.interview_status := "active";
     SessionManager.participant_name := Some "Jane Doe";
     SessionManager.room_id := Some room;
     SessionManager.application_details := PNone |}.

(** The same metadata for an application whose job has a null language. *)
Definition metadata_null_language : SessionMetadata :=
  {| SessionManager.session_id := "interview-local-1";
     SessionManager.user_id := None;
     SessionManager.start_time := "2025-10-31 23:58:59";
     SessionManager.current_question := 0;
     SessionManager.interview_status := "active";
     SessionManager.participant_name := Some "Jane Doe";
     SessionManager.room_id := Some room;
     SessionManager.application_details :=
       PDict [("job", PDict [("title", PStr "Engineer");
                             ("interviewLanguage", PNone);
                             ("company", PDict [("name", PStr "ACME")])])] |}.

Definition sur (o : CaptureOutcome) (ack : bool) : Surroundings :=
  {| env_access_key_id := Some "AKIAEXAMPLE";
     env_secret_access_key := Some "secret";
     env_livekit_url := Some "wss://livekit.example";
     env_livekit_api_key := Some "key";
     env_livekit_api_secret := Some "secret";
     env_region := None;
     env_bucket := None;
     get_or_create_session := fun _ _ => ("interview-local-1", metadata);
     now_stamp := "20251031_235900";
     capture_stamp := "20251031_235901";
     capture := o;
     state_now := "2025-10-31 23:59:02";
     checkpoint_ok := ack |}.

Definition world {G} (g : G) : @World G :=
  {| backend := g; checkpoints := ∅; trace := [] |}.

Definition user (text : string) : ConversationItem :=
  {| role := "user"; text_content := Some text |}.

Definition assistant (text : string) : ConversationItem :=
  {| role := "assistant"; text_content := Some text |}.

(** A generation collaborator that always answers. *)
Definition llm (msgs : list BaseMessage) : Res BaseMessage :=
  Ok (AIMessage "Hello Jane").

(** Application details with a job whose language is left null. *)
Definition null_language : PyVal :=
  PDict [("job", PDict [("title", PStr "Engineer");
                        ("interviewLanguage", PNone);
                        ("company", PDict [("name", PStr "ACME")])])].

(** Application details with a job and nothing else. *)
Definition bare_job : PyVal :=
  PDict [("job", PDict [("title", PStr "Engineer")])].

(** A stored state whose application details have a job with a null
    language. *)
Definition null_language_state : AssistantState :=
  list_to_map
    [ ("messages", VMsgs [HumanMessage "Start conversation"]);
      ("session_id", VPy (PStr "rec-1"));
      ("interview_status", VPy (PStr "active"));
      ("application_details", VPy null_language) ].

(** The initial state of [metadata], committed to an empty thread, and the
    state after one turn on it. *)
Definition committed_initial_state : Res AssistantState :=
  init ← create_initial_session_state "2025-10-31 23:59:02" metadata;
  commit ∅ init.

(** A chat context of one message, and the chat context one exchange later:
    the same message, the reply to it and an utterance. *)
Definition greeting_context : list BaseMessage :=
  [SystemMessage "Say a simple hello: 'Hello Jane'"].

Definition second_context : list BaseMessage :=
  greeting_context ++ [AIMessage "Hello Jane"; HumanMessage "Hello"].

Definition after_one_turn : Res AssistantState :=
  st ← committed_initial_state;
  turn llm "2025-10-31 23:59:30" greeting_context st.

Definition after_two_turns : Res AssistantState :=
  st ← after_one_turn; turn llm "2025-10-31 23:59:40" second_context st.

(** The same surroundings without the access key of the recording. *)
Definition sur_without_access_key (o : CaptureOutcome) (ack : bool)
    : Surroundings :=
  {| env_access_key_id := None;
     env_secret_access_key := Some "secret";
     env_livekit_url := Some "wss://livekit.example";
     env_livekit_api_key := Some "key";
     env_livekit_api_secret := Some "secret";
     env_region := None;
     env_bucket := None;
     get_or_create_session := fun _ _ => ("interview-local-1", metadata);
     now_stamp := "20251031_235900";
     capture_stamp := "20251031_235901";
     capture := o;
     state_now := "2025-10-31 23:59:02";
     checkpoint_ok := ack |}.

(** The session a failed initial save leaves behind. *)
Definition unlinked : Session :=
  {| ctx := job_ctx;
     surroundings := sur NoAnswer true;
     session_id := "interview-local-1";
     session_metadata := metadata;
     recording_manager := new_recording_manager job_ctx None None;
     video_url_to_save := fallback_url (sur NoAnswer true) "interview-local-1";
     interview_id := None;
     thread_id := "interview-local-1";
     sequence_counter := 0;
     in_flight := [] |}.

(** The session a successful initial save leaves behind. *)
Definition linked_session : Session :=
  {| ctx := job_ctx;
     surroundings := sur NoAnswer true;
     session_id := "interview-local-1";
     session_metadata := SessionManager.set_session_id metadata "rec-1";
     recording_manager := new_recording_manager job_ctx None None;
     video_url_to_save := fallback_url (sur NoAnswer true) "interview-local-1";
     interview_id := Some "rec-1";
     thread_id := "rec-1";
     sequence_counter := 0;
     in_flight := [] |}.

(** Fifty notifications, then the fifty answers from the last to the first. *)
Definition fifty : list Step :=
  ((fun n => ItemAdded (user ("utterance " +:+ Py.str_of_Z (Z.of_nat n)))
               "2025-10-31T23:59:10") <$> seq 0 50)
  ++ (Answered <$> rev (seq 0 50)).

End Sample.

(** * More of the agent's modules *)

(** ** More Python string primitives *)

Module Str.

(** [s.endswith(suffix)] *)
Definition endswith (s suffix : string) : bool :=
  (String.length suffix <=? String.length s)%nat
  && String.eqb (Py.str_drop (String.length s - String.length suffix) s) suffix.

(** [s.split()]: the maximal runs of non-whitespace characters; [word] is the
    run being read and [skip] counts the bytes of a white-space character
    still to be passed over. *)
Fixpoint words_from (word : string) (skip : nat) (s : string) : list string :=
  match s with
  | EmptyString =>
      match word with EmptyString => [] | _ => [word] end
  | String a s' =>
      match skip with
      | S k => words_from word k s'
      | O =>
          match Py.space_len s with
          | S k =>
              match word with
              | EmptyString => words_from EmptyString k s'
              | _ => word :: words_from EmptyString k s'
              end
          | O => words_from (word +:+ String a EmptyString) 0 s'
          end
      end
  end.

Definition words (s : string) : list string := words_from EmptyString 0 s.

End Str.

(** ** arabic_turn_detector.py *)

Module ArabicTurnDetector.

(** The floats of the detector are constants and a configured threshold;
    they are rationals here. *)
Abbreviation Q := QArith_base.Q.

Definition q (tenths : Z) : Q := QArith_base.Qmake tenths 10.

Record Detector := { _unlikely_threshold : Q }.

(** [ArabicTurnDetector(unlikely_threshold=...)]: [x or 0.3]. *)
Definition init (unlikely_threshold : option Q) : Detector :=
  {| _unlikely_threshold :=
       match unlikely_threshold with
       | Some x => if (QArith_base.Qnum x =? 0)%Z then q 3 else x
       | None => q 3
       end |}.

Definition supported_langs : list string := ["ar"; "en"].

Definition supports_language (language : option string) : bool :=
  if negb (Py.truthy_opt language) then true
  else existsb (Py.startswith (default EmptyString language)) supported_langs.

Definition unlikely_threshold (self : Detector) (language : option string)
    : option Q :=
  if negb (Py.truthy_opt language) then Some (_unlikely_threshold self)
  else if Py.startswith (default EmptyString language) "ar"
  then Some (_unlikely_threshold self)
  else None.

(** What the detector can find in the last message: a [content] attribute, a
    [text] attribute, a plain string, or none of these. *)
Inductive ChatItem :=
| HasContent (content : PyVal)
| HasText (text : PyVal)
| IsStr (s : string)
| Opaque.

Definition item_content (m : ChatItem) : PyVal :=
  match m with
  | HasContent v => v
  | HasText v => v
  | IsStr s => PStr s
  | Opaque => PStr EmptyString
  end.

Definition rtl_end_markers : list string := ["؟"; "!"; "."; "،"; "؛"].

Definition question_words : list string :=
  ["ماذا"; "كيف"; "أين"; "متى"; "لماذا"; "هل"; "ما"].

(** What the detector finds as the messages of a chat context: a list, or an
    object that cannot be indexed (the bound method [messages] of a context
    that has its items elsewhere, for one), given by its truthiness. *)
Inductive Messages :=
| MessageList (items : list ChatItem)
| NotAList (truthy : bool).

(** A chat context, by the first of the three attributes the detector looks
    for that it has (lines 48-54). *)
Inductive ChatContext :=
| HasMessages (messages : Messages)              (* chat_ctx.messages *)
| HasPrivateMessages (_messages : Messages)      (* chat_ctx._messages *)
| HasGetMessages (get_messages : Res Messages)   (* chat_ctx.get_messages() *)
| NoMessages.

Definition messages_of_context (chat_ctx : ChatContext) : Res Messages :=
  match chat_ctx with
  | HasMessages m => Ok m
  | HasPrivateMessages m => Ok m
  | HasGetMessages r => r
  | NoMessages => Ok (MessageList [])
  end.

(** The analysis of a stripped content (lines 75-92 and 99-100). *)
Definition score (content : string) : Q :=
  if existsb (Str.endswith content) rtl_end_markers then q 8
  else if existsb (Py.startswith content) question_words then q 7
  else if (length (Str.words content) <=? 3)%nat then q 6
  else q 4.

(** Lines 56-92 on a list of messages. *)
Definition predict_on_messages (messages : list ChatItem) : Q :=
  match last messages with
  | None => q 5
  | Some last_message =>
      let content := item_content last_message in
      if negb (PyV.truthy content) then q 5
      else match PyV.strip content with
           | Ok content => score content
           | Raise _ => q 5
           end
  end.

(** [_predict_arabic_eot], which [predict_end_of_turn] returns: an exception
    anywhere in the analysis gives the neutral 0.5, and so does the indexing
    of messages that are no list. *)
Definition predict_end_of_turn (chat_ctx : ChatContext) : Q :=
  match messages_of_context chat_ctx with
  | Raise _ => q 5
  | Ok (MessageList messages) => predict_on_messages messages
  | Ok (NotAList _) => q 5
  end.

End ArabicTurnDetector.

(** ** v1/session_manager.py: the checkpointer of the session manager *)

Module Checkpointing.

Inductive Checkpointer :=
| AsyncPostgresSaver (conn_string : string)
| MemorySaver.

Record PostgresConfig := {
  host : string;
  port : Z;
  dbname : string;
  user : string;
  password : string
}.

Record InterviewSessionManager := {
  postgres_config : PostgresConfig;
  _checkpointer : option Checkpointer;
  _checkpointer_context : option string   (* the entered context, by its URL *)
}.

Definition get_postgres_url (self : InterviewSessionManager) : string :=
  let c := postgres_config self in
  "postgresql://" +:+ user c +:+ ":" +:+ password c +:+ "@" +:+ host c +:+ ":"
  +:+ Py.str_of_Z (port c) +:+ "/" +:+ dbname c.

(** [get_checkpointer]; [setup_ok] tells whether the connection test, the
    entering of the saver and its [setup] all succeed. *)
Definition get_checkpointer (setup_ok : bool) (self : InterviewSessionManager)
    : Checkpointer * InterviewSessionManager :=
  match _checkpointer self with
  | Some c => (c, self)
  | None =>
      let conn_string := get_postgres_url self in
      if setup_ok then
        (AsyncPostgresSaver conn_string,
         {| postgres_config := postgres_config self;
            _checkpointer := Some (AsyncPostgresSaver conn_string);
            _checkpointer_context := Some conn_string |})
      else
        (MemorySaver,
         {| postgres_config := postgres_config self;
            _checkpointer := Some MemorySaver;
            _checkpointer_context := None |})
  end.

(** [close_session]: the reset is in a [finally], so it does not depend on
    how the exit of the context goes. *)
Definition close_session (self : InterviewSessionManager)
    : InterviewSessionManager :=
  match _checkpointer self, _checkpointer_context self with
  | Some _, Some _ =>
      {| postgres_config := postgres_config self;
         _checkpointer := None;
         _checkpointer_context := None |}
  | _, _ => self
  end.

(** [create_session_id], for the [uuid.uuid4()] it draws. *)
Definition create_session_id (base_id : string) (room_id : option string)
    : string :=
  if Py.truthy_opt room_id
  then "interview-" +:+ default EmptyString room_id +:+ "-" +:+ base_id
  else "interview-" +:+ base_id.

(** What is done to a manager over time. *)
Inductive Op :=
| Get (setup_ok : bool)
| Close.

(** The checkpointers returned by the [Get]s of a sequence of operations. *)
Fixpoint returned (ops : list Op) (self : InterviewSessionManager)
    : list Checkpointer :=
  match ops with
  | [] => []
  | Get b :: ops' =>
      let '(c, self') := get_checkpointer b self in c :: returned ops' self'
  | Close :: ops' => returned ops' (close_session self)
  end.

Definition is_get (o : Op) : bool :=
  match o with Get _ => true | Close => false end.

End Checkpointing.

(** ** graphql_client.py: the HTTP exchange and the untyped results *)

Module GraphQL.

Record HttpResponse := {
  status : Z;
  json : Res PyVal          (* [await response.json()] *)
}.

(** The JSON payload of [execute_query]. *)
Definition payload (query : string) (variables : PyVal) : PyVal :=
  PDict (("query", PStr query)
         :: if PyV.truthy variables then [("variables", variables)] else []).

(** [execute_query] on an open session: [post] is the exchange, which may
    raise.  A decoded body that is not a dictionary ends in [None] too: either
    it is taken to hold errors, or it has no [get]. *)
Definition execute_query (post : PyVal -> Res HttpResponse) (query : string)
    (variables : PyVal) : PyVal :=
  match post (payload query variables) with
  | Raise _ => PNone
  | Ok response =>
      match json response with
      | Raise _ => PNone
      | Ok result =>
          if negb (status response =? 200)%Z then PNone
          else match result with
               | PDict d =>
                   match PyV.assoc "errors" d with
                   | Some _ => PNone
                   | None => default PNone (PyV.assoc "data" d)
                   end
               | _ => PNone
               end
      end
  end.

(** The [try] block of [get_application_details], on the result of its
    query. *)
Definition application_of_result (result : PyVal) : Res PyVal :=
  found ← (if PyV.truthy result then PyV.get result "application" PNone
           else Ok result);
  if PyV.truthy found then
    application ← PyV.subscript result "application";
    _ ← PyV.get application "applicantName" (PStr "Unknown");
    job ← PyV.subscript application "job";
    _ ← PyV.subscript job "title";
    job ← PyV.subscript application "job";
    company ← PyV.subscript job "company";
    _ ← PyV.subscript company "name";
    Ok application
  else Ok PNone.

Definition get_application_details (execute : string -> PyVal)
    (application_id : string) : PyVal :=
  match application_of_result (execute application_id) with
  | Ok application => application
  | Raise _ => PNone
  end.

(** One input of [create_bulk_transcripts]. *)
Definition bulk_input (interview_id : string) (entry : PyVal) : Res PyVal :=
  content ← PyV.subscript entry "content";
  speaker ← PyV.subscript entry "speaker";
  timestamp ← PyV.subscript entry "timestamp";
  sequence_number ← PyV.subscript entry "sequence_number";
  Ok (PDict [ ("interviewId", PStr interview_id);
              ("content", content);
              ("speaker", speaker);
              ("timestamp", timestamp);
              ("sequenceNumber", sequence_number) ]).

Fixpoint bulk_inputs (interview_id : string) (entries : list PyVal)
    : Res (list PyVal) :=
  match entries with
  | [] => Ok []
  | entry :: entries' =>
      input ← bulk_input interview_id entry;
      inputs ← bulk_inputs interview_id entries';
      Ok (input :: inputs)
  end.

(** [len(v)] *)
Definition has_len (v : PyVal) : bool :=
  match v with PStr _ | PList _ | PDict _ => true | _ => false end.

(** [create_bulk_transcripts]: the result, and the inputs of the requests
    sent.  [execute] answers the mutation for given inputs. *)
Definition create_bulk_transcripts (execute : list PyVal -> PyVal)
    (interview_id : string) (transcript_entries : list PyVal)
    : bool * list (list PyVal) :=
  match bulk_inputs interview_id transcript_entries with
  | Raise _ => (false, [])
  | Ok inputs =>
      let result := execute inputs in
      let created := (if PyV.truthy result
                      then PyV.get result "createBulkTranscripts" PNone
                      else Ok result) in
      match created with
      | Ok transcripts =>
          (PyV.truthy transcripts && has_len transcripts, [inputs])
      | Raise _ => (false, [inputs])
      end
  end.

End GraphQL.

(** ** recording_manager.py: stopping a recording *)

(** [stop_recording]: the result, and the egress ids it asks to stop;
    [stop_egress] is the outcome of the egress API for an id. *)
Definition stop_recording (self : RecordingManager)
    (stop_egress : string -> Res unit) : bool * list string :=
  if negb (Py.truthy_opt (recording_id self)) then (false, [])
  else
    let egress_id := default EmptyString (recording_id self) in
    match stop_egress egress_id with
    | Ok _ => (true, [egress_id])
    | Raise _ => (false, [egress_id])
    end.

(** ** What the further properties speak of *)

(** The transcript requests of a trace, in order. *)
Fixpoint transcript_entries (t : list Effect) : list Request :=
  match t with
  | [] => []
  | Gateway (CreateTranscript i c s ts n) :: t' =>
      CreateTranscript i c s ts n :: transcript_entries t'
  | _ :: t' => transcript_entries t'
  end.

(** A transcript request as [async_handler] makes them. *)
Definition well_formed_entry (q : Request) : Prop :=
  match q with
  | CreateTranscript i content speaker timestamp n =>
      i <> EmptyString /\ content <> EmptyString /\ Py.strip content = content /\
      (speaker = "AI" \/ speaker = "CANDIDATE") /\
      Str.endswith timestamp "Z" = true
  | _ => False
  end.

(** The record ids of the completion notices of a trace. *)
Fixpoint completion_requests (t : list Effect) : list string :=
  match t with
  | [] => []
  | Gateway (CompleteInterview i) :: t' => i :: completion_requests t'
  | _ :: t' => completion_requests t'
  end.

(** Application details of the shape that the GraphQL schema gives them:
    where an attribute that the prompt assembly reads is present, it has the
    type the assembly expects. *)
Definition is_str (v : PyVal) : bool :=
  match v with PStr _ => true | _ => false end.

Definition absent_or (p : PyVal -> bool) (o : option PyVal) : bool :=
  match o with None => true | Some v => p v end.

(** A list attribute of the CV analysis: if it is a list, the items that the
    cap lets through are strings. *)
Definition strings_within (cap : nat) (v : PyVal) : bool :=
  match v with
  | PList l => forallb is_str (take cap l)
  | _ => true
  end.

Definition typed_analysis (car : PyVal) : bool :=
  match car with
  | PDict d =>
      absent_or (strings_within 8) (PyV.assoc "skills_matched" d)
      && absent_or (strings_within 6) (PyV.assoc "skills_missing" d)
      && absent_or (strings_within 4) (PyV.assoc "strengths" d)
      && absent_or (strings_within 4) (PyV.assoc "concerns" d)
      && absent_or (fun v => negb (PyV.truthy v) || is_str v)
           (PyV.assoc "recommendation" d)
  | _ => true
  end.

Definition typed_company (c : PyVal) : bool :=
  match c with
  | PDict d => absent_or is_str (PyV.assoc "name" d)
  | _ => false
  end.

Definition typed_job (job : PyVal) : bool :=
  match job with
  | PDict d =>
      absent_or is_str (PyV.assoc "interviewLanguage" d)
      && absent_or typed_company (PyV.assoc "company" d)
      && absent_or (fun v => PyV.is_none v || is_str v)
           (PyV.assoc "interviewPrompt" d)
  | _ => negb (PyV.truthy job)
  end.

Definition typed_details (application_details : PyVal) : bool :=
  match application_details with
  | PDict d =>
      typed_job (default PNone (PyV.assoc "job" d))
      && typed_analysis
           (PyV.or_ (default PNone (PyV.assoc "cvAnalysisResults" d))
              (default PNone (PyV.assoc "cv_analysis_results" d)))
  | _ => negb (PyV.truthy application_details)
  end.

(** * Properties *)

(** ** Strings *)

Section StringFacts.

Implicit Types (s t u : string) (c a : ascii).

Lemma app_cons a s t : String a s +:+ t = String a (s +:+ t).
Proof. reflexivity. Qed.

Lemma app_empty_l s : EmptyString +:+ s = s.
Proof. reflexivity. Qed.

Lemma app_assoc' s t u : (s +:+ t) +:+ u = s +:+ (t +:+ u).
Proof.
  induction s as [|a s IH]; [reflexivity|].
  now rewrite !app_cons, IH.
Qed.

Lemma split_nonempty c s : Py.split c s <> [].
Proof.
  destruct s as [|a s]; simpl; [discriminate|].
  destruct (Ascii.eqb a c); [discriminate|].
  destruct (Py.split c s); discriminate.
Qed.

Lemma split_length_pos c s : (1 <= length (Py.split c s))%nat.
Proof.
  pose proof (split_nonempty c s) as H.
  destruct (Py.split c s); [congruence | simpl; lia].
Qed.

(** Splitting distributes over a separator. *)
Lemma split_app_sep c s t :
  Py.split c (s +:+ String c t) = Py.split c s ++ Py.split c t.
Proof.
  induction s as [|a s IH].
  - rewrite app_empty_l. simpl. now rewrite Ascii.eqb_refl.
  - rewrite app_cons. simpl. destruct (Ascii.eqb a c).
    + now rewrite IH.
    + rewrite IH. pose proof (split_nonempty c s) as H.
      destruct (Py.split c s); [congruence | reflexivity].
Qed.

Lemma split_free c s : Py.free_of c s = true -> Py.split c s = [s].
Proof.
  induction s as [|a s IH]; simpl; [reflexivity|].
  intros [Ha Hs]%andb_prop. apply negb_true_iff in Ha. rewrite Ha.
  now rewrite (IH Hs).
Qed.

Lemma split_parts_free c s :
  Forall (fun p => Py.free_of c p = true) (Py.split c s).
Proof.
  induction s as [|a s IH]; simpl.
  - repeat constructor.
  - destruct (Ascii.eqb a c) eqn:E.
    + constructor; [reflexivity | exact IH].
    + destruct (Py.split c s) as [|p ps]; [repeat constructor; simpl; now rewrite E|].
      inversion IH; subst. constructor; [simpl; rewrite E; simpl|]; assumption.
Qed.

(** Joining the parts of a split gives the string back. *)
Lemma join_split c s : Py.join (String c EmptyString) (Py.split c s) = s.
Proof.
  unfold Py.join. induction s as [|a s IH]; simpl; [reflexivity|].
  destruct (Ascii.eqb a c) eqn:E.
  - apply Ascii.eqb_eq in E. subst a.
    pose proof (split_nonempty c s) as H.
    destruct (Py.split c s) as [|p ps]; [congruence|].
    change (String.concat (String c EmptyString) (EmptyString :: p :: ps))
      with (String c (String.concat (String c EmptyString) (p :: ps))).
    now rewrite IH.
  - pose proof (split_nonempty c s) as H.
    destruct (Py.split c s) as [|p ps]; [congruence|].
    rewrite <- IH. destruct ps; reflexivity.
Qed.

Lemma join_cons sep s p ps :
  Py.join sep (s :: p :: ps) = s +:+ sep +:+ Py.join sep (p :: ps).
Proof. reflexivity. Qed.

(** Splitting a join of separator-free parts gives the parts back. *)
Lemma split_join c parts :
  parts <> [] -> Forall (fun p => Py.free_of c p = true) parts ->
  Py.split c (Py.join (String c EmptyString) parts) = parts.
Proof.
  induction parts as [|p ps IH]; [congruence|].
  intros _ Hfree. inversion Hfree as [|? ? Hp Hps]; subst.
  destruct ps as [|q ps].
  - now apply split_free.
  - rewrite join_cons.
    change (p +:+ String c EmptyString +:+ Py.join (String c EmptyString) (q :: ps))
      with (p +:+ String c (Py.join (String c EmptyString) (q :: ps))).
    rewrite split_app_sep, (split_free _ _ Hp), IH; [reflexivity | discriminate | assumption].
Qed.

Lemma prefix_drop p s :
  String.prefix p s = true -> s = p +:+ Py.str_drop (String.length p) s.
Proof.
  revert s. induction p as [|a p IH]; intros s H; [reflexivity|].
  destruct s as [|b s]; [discriminate|]. simpl in H.
  destruct (ascii_dec a b) as [->|]; [|discriminate].
  rewrite app_cons. simpl. now rewrite <- (IH s H).
Qed.

Lemma hex_free_of_hyphen s : all_hex s = true -> Py.free_of hyphen s = true.
Proof.
  induction s as [|a s IH]; simpl; [reflexivity|].
  intros [Ha Hs]%andb_prop. rewrite (IH Hs), andb_true_r.
  destruct (Ascii.eqb a hyphen) eqn:E; [|reflexivity].
  apply Ascii.eqb_eq in E. subst a. discriminate.
Qed.

Lemma group_free n g : is_group n g = true -> Py.free_of hyphen g = true.
Proof. intros [_ H]%andb_prop. now apply hex_free_of_hyphen. Qed.

End StringFacts.

(** ** Room names *)

Lemma prefix_app p s : String.prefix p (p +:+ s) = true.
Proof.
  induction p as [|a p IH].
  - destruct s; reflexivity.
  - rewrite app_cons. simpl. destruct (ascii_dec a a); [exact IH | congruence].
Qed.

Lemma startswith_interview s : Py.startswith ("interview-" +:+ s) "interview-" = true.
Proof. apply prefix_app. Qed.

Lemma drop_interview s : Py.str_drop 10 ("interview-" +:+ s) = s.
Proof. reflexivity. Qed.

Lemma is_uuid_groups u :
  is_uuid u = true ->
  exists g1 g2 g3 g4 g5,
    Py.split hyphen u = [g1; g2; g3; g4; g5] /\
    is_group 8 g1 = true /\ is_group 4 g2 = true /\ is_group 4 g3 = true /\
    is_group 4 g4 = true /\ is_group 12 g5 = true.
Proof.
  unfold is_uuid. intros H.
  destruct (Py.split hyphen u) as [|g1 [|g2 [|g3 [|g4 [|g5 [|? ?]]]]]];
    try discriminate.
  apply andb_prop in H as [[[[H1 H2]%andb_prop H3]%andb_prop H4]%andb_prop H5].
  exists g1, g2, g3, g4, g5. repeat split; assumption.
Qed.

(** The parts of [{uuid}-{suffix}] start with the five groups of the UUID. *)
Lemma split_uuid_suffix u suffix :
  length (Py.split hyphen u) = 5%nat ->
  take 5 (Py.split hyphen (u +:+ "-" +:+ suffix)) = Py.split hyphen u /\
  (6 <= length (Py.split hyphen (u +:+ "-" +:+ suffix)))%nat.
Proof.
  intros Hlen.
  change (u +:+ "-" +:+ suffix) with (u +:+ String hyphen suffix).
  rewrite split_app_sep. split.
  - rewrite take_app_le by lia. apply firstn_all2. lia.
  - rewrite length_app, Hlen. pose proof (split_length_pos hyphen suffix). lia.
Qed.

Lemma resolve_five_groups u suffix :
  length (Py.split hyphen u) = 5%nat ->
  resolve_application_id ("interview-" +:+ u +:+ "-" +:+ suffix) = Some u.
Proof.
  intros Hlen. unfold resolve_application_id.
  rewrite startswith_interview, drop_interview.
  destruct (split_uuid_suffix u suffix Hlen) as [Htake Hsix].
  rewrite (proj2 (Nat.leb_le _ _)) by lia.
  rewrite Htake. change "-" with (String hyphen EmptyString).
  now rewrite join_split.
Qed.

Lemma extract_five_groups u suffix :
  length (Py.split hyphen u) = 5%nat ->
  extract_interview_id_from_room_name ("interview-" +:+ u +:+ "-" +:+ suffix) = u.
Proof.
  intros Hlen. unfold extract_interview_id_from_room_name.
  rewrite startswith_interview, drop_interview.
  destruct (split_uuid_suffix u suffix Hlen) as [Htake Hsix].
  rewrite (proj2 (Nat.leb_le _ _)) by lia.
  rewrite Htake. change "-" with (String hyphen EmptyString).
  now rewrite join_split.
Qed.

(** [matches_convention] decides the convention of the room names. *)
Lemma matches_convention_iff room :
  matches_convention room = true <->
  exists u suffix,
    is_uuid u = true /\ room = "interview-" +:+ u +:+ "-" +:+ suffix.
Proof.
  split.
  - unfold matches_convention. intros [Hpre Hparts]%andb_prop.
    apply prefix_drop in Hpre. simpl String.length in Hpre.
    pose proof (join_split hyphen (Py.str_drop 10 room)) as Hjoin.
    pose proof (split_parts_free hyphen (Py.str_drop 10 room)) as Hfree.
    destruct (Py.split hyphen (Py.str_drop 10 room))
      as [|g1 [|g2 [|g3 [|g4 [|g5 [|x xs]]]]]]; try discriminate.
    apply andb_prop in Hparts
      as [[[[H1 H2]%andb_prop H3]%andb_prop H4]%andb_prop H5].
    exists (Py.join "-" [g1; g2; g3; g4; g5]), (Py.join "-" (x :: xs)).
    split.
    + unfold is_uuid. change "-" with (String hyphen EmptyString).
      rewrite split_join; [| discriminate |].
      * now rewrite H1, H2, H3, H4, H5.
      * repeat constructor; eapply group_free; eassumption.
    + rewrite Hpre at 1. f_equal. rewrite <- Hjoin.
      change (String hyphen EmptyString) with "-".
      rewrite !join_cons.
      change (Py.join "-" [g5]) with g5.
      now rewrite !app_assoc'.
  - intros (u & suffix & Hu & ->).
    unfold matches_convention.
    rewrite startswith_interview, drop_interview. simpl.
    change (u +:+ "-" +:+ suffix) with (u +:+ String hyphen suffix).
    rewrite split_app_sep.
    destruct (is_uuid_groups u Hu)
      as (g1 & g2 & g3 & g4 & g5 & -> & H1 & H2 & H3 & H4 & H5).
    pose proof (split_nonempty hyphen suffix) as Hne.
    destruct (Py.split hyphen suffix) as [|x xs]; [congruence|]. simpl.
    now rewrite H1, H2, H3, H4, H5.
Qed.

(** C4, as stated, fails: a room name outside the convention whose remainder
    has five hyphen-delimited parts resolves to a non-null application id. *)
Lemma resolve_non_matching_counterexample :
  matches_convention "interview-a-b-c-d-e" = false /\
  resolve_application_id "interview-a-b-c-d-e" = Some "a-b-c-d-e".
Proof. split; reflexivity. Qed.

(** C4 (amended): for every room name [interview-{uuid}-{suffix}] the
    resolver returns exactly the UUID; a name that does not start with
    [interview-], or whose remainder has fewer than five hyphen-delimited
    parts, resolves to no application id; the resolver is total, so it never
    raises.  The two rooms of the scenario resolve as stated. *)
Theorem resolve_application_id_spec :
  (forall u suffix,
     is_uuid u = true ->
     resolve_application_id ("interview-" +:+ u +:+ "-" +:+ suffix) = Some u) /\
  (forall room,
     Py.startswith room "interview-" = false ->
     resolve_application_id room = None) /\
  (forall room,
     (length (Py.split hyphen (Py.str_drop 10 room)) < 5)%nat ->
     resolve_application_id room = None) /\
  resolve_application_id "interview-11111111-2222-3333-4444-555555555555-7"
    = Some "11111111-2222-3333-4444-555555555555" /\
  resolve_application_id "not-an-interview-room" = None.
Proof.
  repeat split.
  - intros u suffix Hu. apply resolve_five_groups.
    destruct (is_uuid_groups u Hu) as (? & ? & ? & ? & ? & -> & _). reflexivity.
  - intros room H. unfold resolve_application_id. now rewrite H.
  - intros room H. unfold resolve_application_id.
    destruct (Py.startswith room "interview-"); [|reflexivity].
    destruct (5 <=? _)%nat eqn:E; [|reflexivity].
    apply Nat.leb_le in E. lia.
Qed.

Lemma resolve_application_id_spec_witness :
  resolve_application_id
    ("interview-" +:+ "471434a7-2297-4b89-9074-3bdd0f99bcd1" +:+ "-" +:+ "97")
    = Some "471434a7-2297-4b89-9074-3bdd0f99bcd1" /\
  resolve_application_id "lobby" = None /\
  resolve_application_id "interview-471434a7-2297" = None.
Proof.
  destruct resolve_application_id_spec as (Huuid & Hprefix & Hparts & _).
  split; [|split].
  - apply Huuid. reflexivity.
  - apply Hprefix. reflexivity.
  - apply Hparts. simpl. lia.
Defined.

(** ** The GraphQL client: record creation *)

Section ClientFacts.

Context {G : Type}.
Variable execute : Request -> G -> option Data * G.

(** What [create_interview_with_video] does, whatever the backend answers:
    one request, the creation of a record, and the id of the created record
    as its result. *)
Lemma create_interview_with_video_sends room video_url job_id (w : @World G) :
  let q := CreateInterview (extract_interview_id_from_room_name room) room
             video_url "VIDEO" "STARTED" in
  let r := create_interview_with_video execute room video_url job_id w in
  trace r.2 = trace w ++ [Gateway q] /\
  backend r.2 = (execute q (backend w)).2 /\
  checkpoints r.2 = checkpoints w /\
  r.1 = match (execute q (backend w)).1 with
        | Some (DCreateInterview (Some interview_id)) => Some interview_id
        | _ => None
        end.
Proof.
  unfold create_interview_with_video, execute_query. simpl.
  destruct (execute _ (backend w)) as [[[ | | |[created|]| ]|] g];
    simpl; repeat split; reflexivity.
Qed.

Lemma extract_fallback room :
  Py.startswith room "interview-" = false \/
  (length (Py.split hyphen (Py.str_drop 10 room)) < 5)%nat ->
  extract_interview_id_from_room_name room = room.
Proof.
  intros H. unfold extract_interview_id_from_room_name.
  destruct (Py.startswith room "interview-"); [|reflexivity].
  destruct H as [H|H]; [discriminate|].
  destruct (5 <=? _)%nat eqn:E; [|reflexivity].
  apply Nat.leb_le in E. lia.
Qed.

End ClientFacts.

(** C3, as stated, fails: on a backend that stores what it is asked to
    create, a room that already has a record gets a second and a third one
    from two more calls of [save], each with an id of its own, and no lookup
    is ever sent. *)
Lemma save_not_idempotent_counterexample :
  let url := "https://4wk-garage-media.s3.me-central-1.amazonaws.com/interviews/s/t/recording.mp4" in
  let save := save_video_url_to_interview RecordBackend.execute Sample.room url "AJ_1" in
  let r1 := save (Sample.world RecordBackend.empty) in
  let r2 := save r1.2 in
  let r3 := save r2.2 in
  (find_interview_by_room_id RecordBackend.execute Sample.room r1.2).1
    = Some "rec-1" /\
  r2.1 = Some "rec-2" /\ r3.1 = Some "rec-3" /\
  RecordBackend.id <$> RecordBackend.of_room Sample.room (backend r3.2)
    = ["rec-1"; "rec-2"; "rec-3"] /\
  trace r3.2 =
    [ Gateway (CreateInterview "11111111-2222-3333-4444-555555555555" Sample.room url "VIDEO" "STARTED");
      Gateway (CreateInterview "11111111-2222-3333-4444-555555555555" Sample.room url "VIDEO" "STARTED");
      Gateway (CreateInterview "11111111-2222-3333-4444-555555555555" Sample.room url "VIDEO" "STARTED") ].
Proof. vm_compute. repeat split; reflexivity. Qed.

(** C3 (amended): [save] registers by creation.  Whatever the backend holds
    and answers, a call sends exactly one request, the creation of a record
    for the room with the given URL, and no lookup; it returns the id of the
    record created by that request, and nothing when the creation fails. *)
Theorem save_creates_a_record :
  forall (G : Type) (execute : Request -> G -> option Data * G)
         (room video_url job_id : string) (w : @World G),
    let q := CreateInterview (extract_interview_id_from_room_name room) room
               video_url "VIDEO" "STARTED" in
    let r := save_video_url_to_interview execute room video_url job_id w in
    trace r.2 = trace w ++ [Gateway q] /\
    backend r.2 = (execute q (backend w)).2 /\
    r.1 = match (execute q (backend w)).1 with
          | Some (DCreateInterview (Some interview_id)) => Some interview_id
          | _ => None
          end.
Proof.
  intros G execute room video_url job_id w q r.
  destruct (create_interview_with_video_sends execute room video_url job_id w)
    as (Ht & Hb & _ & Hr).
  repeat split; assumption.
Qed.

(** C10, as stated, fails: a room name outside the convention whose
    remainder has five hyphen-delimited parts is not used whole; the record
    is created for the application id made of these five parts. *)
Lemma application_id_counterexample :
  let room := "interview-a-b-c-d-e" in
  let r := create_interview_with_video RecordBackend.execute room "https://u" "AJ_1"
             (Sample.world RecordBackend.empty) in
  matches_convention room = false /\
  extract_interview_id_from_room_name room = "a-b-c-d-e" /\
  trace r.2 = [Gateway (CreateInterview "a-b-c-d-e" room "https://u" "VIDEO" "STARTED")].
Proof. vm_compute. repeat split; reflexivity. Qed.

(** C10 (amended): when the room name does not start with [interview-], or
    its remainder has fewer than five hyphen-delimited parts, the extractor
    returns the whole room name and the record-creation request carries it as
    the application id: the request is sent whatever the room name is, and
    its result is the backend's.  (For a room name [interview-{uuid}-{suffix}]
    the extractor gives the UUID, see [extract_five_groups].) *)
Theorem create_interview_application_id :
  forall (G : Type) (execute : Request -> G -> option Data * G)
         (room video_url job_id : string) (w : @World G),
    Py.startswith room "interview-" = false \/
    (length (Py.split hyphen (Py.str_drop 10 room)) < 5)%nat ->
    let q := CreateInterview room room video_url "VIDEO" "STARTED" in
    let r := create_interview_with_video execute room video_url job_id w in
    extract_interview_id_from_room_name room = room /\
    trace r.2 = trace w ++ [Gateway q] /\
    r.1 = match (execute q (backend w)).1 with
          | Some (DCreateInterview (Some interview_id)) => Some interview_id
          | _ => None
          end.
Proof.
  intros G execute room video_url job_id w Hroom.
  pose proof (extract_fallback room Hroom) as Hx.
  destruct (create_interview_with_video_sends execute room video_url job_id w)
    as (Ht & _ & _ & Hr).
  rewrite Hx in Ht, Hr. simpl. auto.
Qed.

Lemma create_interview_application_id_witness :
  let r := create_interview_with_video RecordBackend.execute
             "not-an-interview-room" "https://u" "AJ_1"
             (Sample.world RecordBackend.empty) in
  extract_interview_id_from_room_name "not-an-interview-room"
    = "not-an-interview-room" /\
  trace r.2 = [Gateway (CreateInterview "not-an-interview-room"
                          "not-an-interview-room" "https://u" "VIDEO" "STARTED")] /\
  r.1 = Some "rec-1".
Proof.
  apply (create_interview_application_id _ RecordBackend.execute
           "not-an-interview-room" "https://u" "AJ_1"
           (Sample.world RecordBackend.empty)).
  left. reflexivity.
Defined.

(** ** Recording setup *)

Lemma s3_url_truthy bucket region path :
  Py.truthy_str (s3_url bucket region path) = true.
Proof. reflexivity. Qed.

(** The generated URL of [setup_recording] is [fallback_url]. *)
Lemma generated_url_eq (sur : Surroundings) (session_id : string) :
  "https://" +:+ getenv (env_bucket sur) "4wk-garage-media" +:+ ".s3." +:+
  getenv (env_region sur) "me-central-1" +:+ ".amazonaws.com/interviews/" +:+
  session_id +:+ "/" +:+ now_stamp sur +:+ "/recording.mp4"
  = fallback_url sur session_id.
Proof.
  unfold fallback_url, s3_url, interview_filepath.
  repeat (rewrite ?app_assoc', ?app_cons, ?app_empty_l; f_equal).
Qed.

Section RecordingFacts.

Context {G : Type}.
Implicit Types (w : @World G).

Lemma start_recording_started (c : JobContext) region bucket egress_id stamp
    session_id w :
  Py.truthy_str (ctx_room_name c) = true ->
  (start_recording (new_recording_manager c region bucket) (Ok egress_id) stamp
     (Some (ctx_room_name c)) (Some session_id) w).1.1
  = Some (s3_url (getenv bucket "4wk-garage-media") (getenv region "me-central-1")
            (interview_filepath (path_session_id c session_id) stamp)).
Proof.
  intros Hroom. unfold start_recording, path_session_id. simpl.
  rewrite Hroom. simpl. rewrite Hroom.
  destruct (Py.truthy_str session_id); reflexivity.
Qed.

Lemma start_recording_raised (m : RecordingManager) e stamp room_name session_id w :
  (start_recording m (Raise e) stamp room_name session_id w).1.1 = None.
Proof.
  unfold start_recording.
  destruct (job_context m), room_name as [r|]; simpl;
    repeat (match goal with |- context [if ?b then _ else _] => destruct b end;
            simpl; try reflexivity);
    destruct session_id; reflexivity.
Qed.

Lemma setup_recording_started (c : JobContext) (sur : Surroundings) session_id w
    egress_id :
  capture sur = Started egress_id ->
  Py.truthy_str (ctx_room_name c) = true ->
  (setup_recording c sur session_id w).1.1
  = s3_url (getenv (env_bucket sur) "4wk-garage-media")
      (getenv (env_region sur) "me-central-1")
      (interview_filepath (path_session_id c session_id) (capture_stamp sur)).
Proof.
  intros Hc Hroom. unfold setup_recording. rewrite Hc.
  pose proof (start_recording_started c (env_region sur) (env_bucket sur)
                egress_id (capture_stamp sur) session_id w Hroom) as H.
  destruct (start_recording _ _ _ _ _ w) as [[r m] w']. simpl in H. subst r.
  reflexivity.
Qed.

Lemma setup_recording_fallback (c : JobContext) (sur : Surroundings) session_id w :
  (forall egress_id, capture sur <> Started egress_id) ->
  (setup_recording c sur session_id w).1.1 = fallback_url sur session_id.
Proof.
  intros Hc. unfold setup_recording. rewrite generated_url_eq.
  destruct (capture sur) as [egress_id|e|]; [now destruct (Hc egress_id)| |].
  - pose proof (start_recording_raised
                  (new_recording_manager c (env_region sur) (env_bucket sur))
                  e (capture_stamp sur) (Some (ctx_room_name c))
                  (Some session_id) w) as H.
    destruct (start_recording _ _ _ _ _ w) as [[r m] w']. simpl in H. subst r.
    reflexivity.
  - destruct (start_recording _ _ _ _ _ w) as [[r m] w']. reflexivity.
Qed.

Lemma setup_recording_truthy (c : JobContext) (sur : Surroundings) session_id w :
  Py.truthy_str (setup_recording c sur session_id w).1.1 = true.
Proof.
  unfold setup_recording. rewrite generated_url_eq.
  destruct (capture sur) as [egress_id|e|];
    destruct (start_recording _ _ _ _ _ w) as [[[r|] m] w']; simpl;
    try reflexivity.
  all: destruct (Py.truthy_str r) eqn:E; simpl; [exact E | reflexivity].
Qed.

End RecordingFacts.

(** ** The entrypoint *)

Lemma bind_ok {A B} (a : A) (f : A -> Res B) : (Ok a ≫= f) = f a.
Proof. reflexivity. Qed.
Lemma bind_raise {A B} e (f : A -> Res B) : (Raise e ≫= f) = Raise e.
Proof. reflexivity. Qed.

Lemma res_ok_get {A} (r : Res A) (d : A) :
  raises r = false -> r = Ok (match r with Ok a => a | Raise _ => d end).
Proof. destruct r; [reflexivity | discriminate]. Qed.

Lemma or_else_ok a b : PyV.or_else a (Ok b) = Ok (PyV.or_ a b).
Proof. unfold PyV.or_else, PyV.or_. now destruct (PyV.truthy a). Qed.

Lemma language_of_ok ad l :
  language_of ad = Ok l -> PyV.truthy ad = false \/ PyV.is_dict ad = true.
Proof.
  unfold language_of. destruct (PyV.truthy ad) eqn:E; [|auto].
  destruct ad; try discriminate. auto.
Qed.

Lemma create_initial_session_state_raises now (m : SessionMetadata) :
  raises (create_initial_session_state now m)
  = raises (language_of (SessionManager.application_details m)).
Proof.
  unfold create_initial_session_state.
  destruct (language_of _) as [l|e] eqn:E; [|reflexivity].
  rewrite bind_ok. apply language_of_ok in E as [E|E].
  - rewrite E. reflexivity.
  - destruct (SessionManager.application_details m) as [| | | | |d];
      try discriminate.
    destruct (PyV.truthy (PDict d)); [|reflexivity].
    unfold PyV.get. repeat (rewrite ?bind_ok, ?or_else_ok; cbv beta). reflexivity.
Qed.

Lemma proactive_instruction_set_session_id (m : SessionMetadata) t :
  proactive_instruction (SessionManager.set_session_id m t)
  = proactive_instruction m.
Proof. reflexivity. Qed.

Section EntrypointFacts.

Context {G : Type}.
Variable execute : Request -> G -> option Data * G.
Implicit Types (w : @World G) (s : Session).

(** The linkage request of [save_video_to_backend] for a given URL. *)
Lemma save_video_to_backend_sends room job_id url region bucket w :
  Py.truthy_str url = true ->
  let q := CreateInterview (extract_interview_id_from_room_name room) room url
             "VIDEO" "STARTED" in
  let r := save_video_to_backend execute room job_id (Some url) region bucket w in
  trace r.2 = trace w ++ [Gateway q] /\
  backend r.2 = (execute q (backend w)).2 /\
  checkpoints r.2 = checkpoints w /\
  r.1 = match (execute q (backend w)).1 with
        | Some (DCreateInterview (Some interview_id)) =>
            if Py.truthy_str interview_id then Some interview_id else None
        | _ => None
        end.
Proof.
  intros Hurl q r. subst r. unfold save_video_to_backend. simpl. rewrite Hurl.
  unfold save_video_url_to_interview.
  destruct (create_interview_with_video_sends execute room url job_id w)
    as (Ht & Hb & Hc & Hr).
  destruct (create_interview_with_video execute room url job_id w) as [i w'].
  simpl in *. subst i. fold q.
  destruct (execute q (backend w)).1 as [[ | | |[i|]| ]|]; simpl; auto.
  destruct (Py.truthy_str i); simpl; auto.
Qed.

Lemma save_video_to_backend_result room job_id url region bucket w :
  let r := save_video_to_backend execute room job_id url region bucket w in
  r.1 = None \/ Py.truthy_opt r.1 = true.
Proof.
  unfold save_video_to_backend.
  destruct (save_video_url_to_interview _ _ _ _ _) as [i w'].
  destruct (Py.truthy_opt i) eqn:E; simpl; auto.
Qed.

(** What a successful [entrypoint] leaves behind. *)
Lemma entrypoint_ok (c : JobContext) (sur : Surroundings) w s w' :
  entrypoint execute c sur w = (Ok s, w') ->
  let created := get_or_create_session sur (ctx_room_name c)
                   (resolve_application_id (ctx_room_name c)) in
  let sr := setup_recording c sur created.1 w in
  let sv := save_video_to_backend execute (ctx_room_name c) (ctx_job_id c)
              (Some sr.1.1) (env_region sur) (env_bucket sur) sr.2 in
  ctx s = c /\ surroundings s = sur /\ session_id s = created.1 /\
  video_url_to_save s = sr.1.1 /\ interview_id s = sv.1 /\
  thread_id s = (if Py.truthy_opt (interview_id s)
                 then default EmptyString (interview_id s) else session_id s) /\
  sequence_counter s = 0%Z /\ in_flight s = [] /\
  SessionManager.session_id (session_metadata s) = thread_id s /\
  backend w' = backend sv.2 /\
  exists ack instructions,
    (ack = true -> checkpoint_ok sur = true) /\
    trace w' = trace sv.2
               ++ [StateCommit (thread_id s) ack; SessionStart;
                   GenerateReply instructions].
Proof.
  intros H. cbv zeta. unfold entrypoint in H. revert H.
  destruct (get_or_create_session sur _ _) as [sid m]. simpl.
  destruct (recording_configuration sur); [|discriminate].
  pose proof (setup_recording_truthy c sur sid w) as Htruthy.
  destruct (setup_recording c sur sid w) as [[url mgr] w1]. simpl in *.
  rewrite Htruthy.
  destruct (save_video_to_backend execute _ _ _ _ _ w1) as [iid w2]. simpl.
  destruct (create_initial_session_state _ _) as [initial|e]; [|discriminate].
  destruct (proactive_instruction _) as [instructions|e]; [|discriminate].
  intros H. injection H as <- <-. simpl.
  repeat split.
  - unfold aupdate_state.
    destruct (if checkpoint_ok sur then _ else _); reflexivity.
  - unfold aupdate_state. destruct (checkpoint_ok sur) eqn:Hack.
    + destruct (commit _ initial) as [st|e].
      * exists true, instructions. split; [auto|]. simpl.
        now rewrite <- !app_assoc.
      * exists false, instructions. split; [discriminate|]. simpl.
        now rewrite <- !app_assoc.
    + exists false, instructions. split; [discriminate|]. simpl.
      now rewrite <- !app_assoc.
Qed.

(** A session that starts has its recording configuration complete. *)
Lemma entrypoint_configured (c : JobContext) (sur : Surroundings) w s w' :
  entrypoint execute c sur w = (Ok s, w') -> recording_configuration sur = Ok tt.
Proof.
  unfold entrypoint. destruct (get_or_create_session sur _ _) as [sid m].
  destruct (recording_configuration sur) as [[]|]; [reflexivity|discriminate].
Qed.

(** Whether [entrypoint] raises is decided by the configuration of the
    recording and by the session metadata. *)
Lemma entrypoint_raises (c : JobContext) (sur : Surroundings) w :
  let m := (get_or_create_session sur (ctx_room_name c)
              (resolve_application_id (ctx_room_name c))).2 in
  raises (entrypoint execute c sur w).1
  = raises (recording_configuration sur)
    || raises (language_of (SessionManager.application_details m))
    || raises (proactive_instruction m).
Proof.
  unfold entrypoint.
  destruct (get_or_create_session sur _ _) as [sid m]. simpl.
  destruct (recording_configuration sur); [|reflexivity]. simpl.
  destruct (setup_recording c sur sid w) as [[url mgr] w1].
  destruct (if Py.truthy_str url then _ else _) as [iid w2].
  pose proof (create_initial_session_state_raises (state_now sur)
                (SessionManager.set_session_id m
                   (if Py.truthy_opt iid then default EmptyString iid else sid)))
    as Hc.
  simpl SessionManager.application_details in Hc. rewrite <- Hc.
  rewrite proactive_instruction_set_session_id.
  destruct (create_initial_session_state _ _); [|reflexivity].
  destruct (proactive_instruction m); reflexivity.
Qed.

End EntrypointFacts.

(** ** The running session *)

Lemma sequence_numbers_app t1 t2 :
  sequence_numbers (t1 ++ t2) = sequence_numbers t1 ++ sequence_numbers t2.
Proof.
  induction t1 as [|e t1 IH]; [reflexivity|]. simpl.
  destruct e as [[]| | | | |]; simpl; now rewrite ?IH.
Qed.

Section RunFacts.

Context {G : Type}.
Variable execute : Request -> G -> option Data * G.
Implicit Types (w : @World G) (s : Session) (sw : Session * @World G).

Lemma async_handler_unlinked item timestamp s w :
  linked s = false -> async_handler item timestamp s w = (s, w).
Proof. unfold async_handler, linked. now intros ->. Qed.

Lemma async_handler_blank item timestamp s w :
  blank (text_content item) = true -> async_handler item timestamp s w = (s, w).
Proof. unfold async_handler. intros ->. now rewrite orb_true_r. Qed.

Lemma async_handler_linked item timestamp s w :
  linked s = true -> blank (text_content item) = false ->
  let r := async_handler item timestamp s w in
  trace r.2 = trace w ++ [Gateway (transcript_request item timestamp s)] /\
  backend r.2 = backend w /\ checkpoints r.2 = checkpoints w /\
  sequence_counter r.1 = (sequence_counter s + 1)%Z /\
  in_flight r.1 = in_flight s ++ [transcript_request item timestamp s] /\
  interview_id r.1 = interview_id s /\ thread_id r.1 = thread_id s /\
  session_id r.1 = session_id s.
Proof.
  unfold async_handler, linked. intros -> ->. simpl. repeat split.
Qed.

Lemma complete_interview_trace i w :
  trace (complete_interview execute i w).2 = trace w ++ [Gateway (CompleteInterview i)].
Proof.
  unfold complete_interview, execute_query.
  destruct (execute _ (backend w)) as [[[ | |[?|]| | ]|] g]; reflexivity.
Qed.

(** [cleanup] requests no transcript entry and keeps the counter. *)
Lemma cleanup_numbers b s w :
  sequence_numbers (trace (cleanup execute b s w).2) = sequence_numbers (trace w)
  /\ sequence_counter (cleanup execute b s w).1 = sequence_counter s
  /\ thread_id (cleanup execute b s w).1 = thread_id s
  /\ session_id (cleanup execute b s w).1 = session_id s.
Proof.
  unfold cleanup, manager_complete_interview.
  set (w1 := if Py.truthy_opt (interview_id s) then _ else w).
  assert (Hw1 : sequence_numbers (trace w1) = sequence_numbers (trace w)).
  { subst w1. destruct (Py.truthy_opt (interview_id s)); [|reflexivity].
    rewrite complete_interview_trace, sequence_numbers_app. simpl.
    apply app_nil_r. }
  destruct (Py.truthy_str (video_url_to_save s)) eqn:Hurl; simpl.
  - destruct (negb (Py.truthy_opt (interview_id s))); simpl.
    + pose proof (save_video_to_backend_sends execute (ctx_room_name (ctx s))
                    (ctx_job_id (ctx s)) (video_url_to_save s)
                    (env_region (surroundings s)) (env_bucket (surroundings s))
                    w1 Hurl) as (Ht & _).
      destruct (save_video_to_backend _ _ _ _ _ _ w1) as [backup w2].
      simpl in Ht.
      destruct (wait_for b backup) as [[i|]|]; simpl;
        try destruct (Py.truthy_str i); simpl;
        rewrite sequence_numbers_app, Ht, sequence_numbers_app; simpl;
        rewrite !app_nil_r; auto.
    + rewrite sequence_numbers_app. simpl. rewrite app_nil_r. auto.
  - rewrite sequence_numbers_app. simpl. rewrite app_nil_r. auto.
Qed.

(** Once linked, the external record id stays. *)
Lemma cleanup_linked b s w :
  linked s = true -> interview_id (cleanup execute b s w).1 = interview_id s.
Proof.
  unfold cleanup, linked. intros ->. rewrite andb_false_r. reflexivity.
Qed.

(** The external record id changes only from none to the id that the backend
    gave to the record of the backup save. *)
Lemma cleanup_interview_id b s w :
  let s' := (cleanup execute b s w).1 in
  interview_id s' = interview_id s \/
  (linked s = false /\ linked s' = true /\ b = true).
Proof.
  unfold cleanup, linked.
  destruct (Py.truthy_opt (interview_id s)) eqn:Hl.
  - rewrite andb_false_r. auto.
  - destruct (Py.truthy_str (video_url_to_save s)); simpl; [|auto].
    destruct (save_video_to_backend _ _ _ _ _ _ _) as [backup w2].
    destruct b; simpl; [|auto].
    destruct (Py.truthy_opt backup) eqn:Hb; simpl; auto.
Qed.

(** A run of the graph sends nothing to the gateway: the backend stays as it
    is, and the trace grows by the commit at most. *)
Lemma graph_run_trace llm now input ack t w :
  let r := graph_run llm now input ack t w in
  backend r.2 = backend w /\
  (trace r.2 = trace w \/ exists b, trace r.2 = trace w ++ [StateCommit t b]).
Proof.
  unfold graph_run. destruct ack; [|simpl; eauto].
  destruct (commit _ (graph_input input)) as [st|e]; [|simpl; eauto].
  destruct (call_llm llm now st ≫= _); simpl; eauto.
Qed.

Lemma graph_run_numbers llm now input ack t w :
  sequence_numbers (trace (graph_run llm now input ack t w).2)
  = sequence_numbers (trace w).
Proof.
  destruct (graph_run_trace llm now input ack t w) as (_ & [->|(b & ->)]);
    [reflexivity|].
  rewrite sequence_numbers_app. apply app_nil_r.
Qed.

Lemma step_frame sw e :
  thread_id (step execute sw e).1 = thread_id sw.1 /\
  session_id (step execute sw e).1 = session_id sw.1.
Proof.
  destruct sw as [s w], e as [item ts|i|b|llm now input ack]; simpl.
  - unfold async_handler. destruct (_ || _); auto.
  - unfold async_handler_resume. destruct (in_flight s !! i); [|auto].
    destruct (execute _ _). auto.
  - destruct (cleanup_numbers b s w) as (_ & _ & ? & ?). auto.
  - auto.
Qed.

Lemma step_linked sw e :
  linked sw.1 = true -> interview_id (step execute sw e).1 = interview_id sw.1.
Proof.
  destruct sw as [s w], e as [item ts|i|b|llm now input ack]; simpl; intros Hl.
  - unfold async_handler. destruct (_ || _); auto.
  - unfold async_handler_resume. destruct (in_flight s !! i); [|auto].
    destruct (execute _ _). auto.
  - now apply cleanup_linked.
  - reflexivity.
Qed.

(** One step requests at most one transcript entry, numbered by the counter
    it has just incremented; the counter never decreases. *)
Lemma step_numbers sw e :
  let sw' := step execute sw e in
  (sequence_numbers (trace sw'.2) = sequence_numbers (trace sw.2) /\
   sequence_counter sw'.1 = sequence_counter sw.1) \/
  (sequence_numbers (trace sw'.2)
     = sequence_numbers (trace sw.2) ++ [(sequence_counter sw.1 + 1)%Z] /\
   sequence_counter sw'.1 = (sequence_counter sw.1 + 1)%Z).
Proof.
  destruct sw as [s w], e as [item ts|i|b|llm now input ack]; simpl.
  - unfold async_handler. destruct (_ || _); simpl; [auto|]. right.
    rewrite sequence_numbers_app. auto.
  - unfold async_handler_resume. destruct (in_flight s !! i); [|auto].
    destruct (execute _ _). auto.
  - destruct (cleanup_numbers b s w) as (? & ? & _). auto.
  - left. split; [apply graph_run_numbers|reflexivity].
Qed.

Lemma step_well_numbered sw e :
  well_numbered sw.1 (trace sw.2) ->
  well_numbered (step execute sw e).1 (trace (step execute sw e).2).
Proof.
  unfold well_numbered. intros [Hs Hb].
  destruct (step_numbers sw e) as [[-> ->]|[-> ->]]; [auto|]. split.
  - apply StronglySorted_app_2; [|assumption|repeat constructor].
    intros x y Hx ->%list_elem_of_singleton.
    rewrite Forall_forall in Hb. specialize (Hb x Hx). lia.
  - apply Forall_app. split; [|repeat constructor; lia].
    eapply Forall_impl; [exact Hb|]. intros; simpl in *; lia.
Qed.

Lemma run_app steps1 steps2 sw :
  run execute (steps1 ++ steps2) sw = run execute steps2 (run execute steps1 sw).
Proof. apply foldl_app. Qed.

Lemma run_well_numbered steps sw :
  well_numbered sw.1 (trace sw.2) ->
  well_numbered (run execute steps sw).1 (trace (run execute steps sw).2).
Proof.
  revert sw. induction steps as [|e steps IH]; intros sw H; [exact H|].
  simpl. apply IH. now apply step_well_numbered.
Qed.

Lemma run_counter_monotone steps sw :
  (sequence_counter sw.1 <= sequence_counter (run execute steps sw).1)%Z.
Proof.
  revert sw. induction steps as [|e steps IH]; intros sw; [simpl; lia|].
  simpl. specialize (IH (step execute sw e)).
  destruct (step_numbers sw e) as [[_ H]|[_ H]]; lia.
Qed.

Lemma run_frame steps sw :
  thread_id (run execute steps sw).1 = thread_id sw.1 /\
  session_id (run execute steps sw).1 = session_id sw.1.
Proof.
  revert sw. induction steps as [|e steps IH]; intros sw; [auto|].
  simpl. destruct (IH (step execute sw e)) as [-> ->]. apply step_frame.
Qed.

Lemma run_linked steps sw :
  linked sw.1 = true ->
  interview_id (run execute steps sw).1 = interview_id sw.1.
Proof.
  revert sw. induction steps as [|e steps IH]; intros sw H; [reflexivity|].
  simpl. pose proof (step_linked sw e H) as He.
  rewrite IH; [exact He|]. unfold linked in *. now rewrite He.
Qed.

End RunFacts.

Lemma transcript_records_app t1 t2 :
  transcript_records (t1 ++ t2) = transcript_records t1 ++ transcript_records t2.
Proof.
  induction t1 as [|e t1 IH]; [reflexivity|]. simpl.
  destruct e as [[]| | | | |]; simpl; now rewrite ?IH.
Qed.

Lemma creation_requests_app t1 t2 :
  creation_requests (t1 ++ t2) = creation_requests t1 ++ creation_requests t2.
Proof.
  induction t1 as [|e t1 IH]; [reflexivity|]. simpl.
  destruct e as [[]| | | | |]; simpl; now rewrite ?IH.
Qed.

Section TeardownFacts.

Context {G : Type}.
Variable execute : Request -> G -> option Data * G.
Implicit Types (w : @World G) (s : Session) (sw : Session * @World G).

(** What [cleanup] sends: the completion notice of a linked session, the
    backup save of an unlinked one, at most once, and the release of the
    recording manager. *)
Lemma cleanup_trace b s w :
  trace (cleanup execute b s w).2
  = trace w
    ++ (if linked s
        then [Gateway (CompleteInterview (default EmptyString (interview_id s)))]
        else [])
    ++ (if Py.truthy_str (video_url_to_save s) && negb (linked s)
        then [Gateway (linkage_request s)] else [])
    ++ [ManagerCleanup].
Proof.
  unfold cleanup, manager_complete_interview, linked.
  destruct (Py.truthy_opt (interview_id s)) eqn:Hl.
  - rewrite andb_false_r. simpl. rewrite complete_interview_trace.
    now rewrite <- app_assoc.
  - destruct (Py.truthy_str (video_url_to_save s)) eqn:Hurl; simpl; [|reflexivity].
    pose proof (save_video_to_backend_sends execute (ctx_room_name (ctx s))
                  (ctx_job_id (ctx s)) (video_url_to_save s)
                  (env_region (surroundings s)) (env_bucket (surroundings s))
                  w Hurl) as (Ht & _).
    destruct (save_video_to_backend _ _ _ _ _ _ w) as [backup w2].
    simpl in Ht.
    destruct (wait_for b backup) as [[i|]|]; simpl;
      try destruct (Py.truthy_str i); simpl; rewrite Ht, <- app_assoc;
      reflexivity.
Qed.

Lemma cleanup_records b s w :
  transcript_records (trace (cleanup execute b s w).2)
  = transcript_records (trace w).
Proof.
  rewrite cleanup_trace, !transcript_records_app.
  destruct (linked s), (Py.truthy_str (video_url_to_save s)); simpl;
    now rewrite app_nil_r.
Qed.

(** A teardown makes at most one backup attempt, and none once linked. *)
Lemma cleanup_creation_requests b s w :
  creation_requests (trace (cleanup execute b s w).2)
  = creation_requests (trace w)
    ++ (if Py.truthy_str (video_url_to_save s) && negb (linked s)
        then [linkage_request s] else []).
Proof.
  rewrite cleanup_trace, !creation_requests_app.
  destruct (linked s), (Py.truthy_str (video_url_to_save s)); simpl;
    now rewrite ?app_nil_r.
Qed.

Lemma step_one_record sw e :
  one_record sw.1 (trace sw.2) ->
  one_record (step execute sw e).1 (trace (step execute sw e).2).
Proof.
  destruct sw as [s w], e as [item ts|i|b|llm now input ack]; unfold one_record; simpl; intros H.
  - unfold async_handler.
    destruct (negb (Py.truthy_opt (interview_id s))) eqn:Hl; simpl; [exact H|].
    destruct (blank (text_content item)); simpl; [exact H|].
    apply negb_false_iff in Hl.
    rewrite transcript_records_app. apply Forall_app. split; [exact H|].
    repeat constructor. exact Hl.
  - unfold async_handler_resume. destruct (in_flight s !! i); [|exact H].
    destruct (execute _ _). exact H.
  - rewrite cleanup_records.
    destruct (cleanup_interview_id execute b s w) as [Hi|(Hl & _)].
    + unfold linked in *. simpl in Hi. now rewrite Hi.
    + destruct (transcript_records (trace w)) as [|i l]; [constructor|].
      inversion H as [|? ? [Hl' _] _]; subst. congruence.
  - destruct (graph_run_trace llm now input ack (thread_id s) w)
      as (_ & [->|(b & ->)]); [exact H|].
    rewrite transcript_records_app. simpl. now rewrite app_nil_r.
Qed.

Lemma run_one_record steps sw :
  one_record sw.1 (trace sw.2) ->
  one_record (run execute steps sw).1 (trace (run execute steps sw).2).
Proof.
  revert sw. induction steps as [|e steps IH]; intros sw H; [exact H|].
  simpl. apply IH. now apply step_one_record.
Qed.

Lemma step_frame_url sw e :
  video_url_to_save (step execute sw e).1 = video_url_to_save sw.1 /\
  ctx (step execute sw e).1 = ctx sw.1.
Proof.
  destruct sw as [s w], e as [item ts|i|b|llm now input ack]; simpl.
  - unfold async_handler. destruct (_ || _); auto.
  - unfold async_handler_resume. destruct (in_flight s !! i); [|auto].
    destruct (execute _ _). auto.
  - unfold cleanup. destruct (if _ && _ then _ else _) as [i w2].
    destruct (manager_cleanup _ _). auto.
  - auto.
Qed.

Lemma run_frame_url steps sw :
  video_url_to_save (run execute steps sw).1 = video_url_to_save sw.1 /\
  ctx (run execute steps sw).1 = ctx sw.1.
Proof.
  revert sw. induction steps as [|e steps IH]; intros sw; [auto|].
  simpl. destruct (IH (step execute sw e)) as [-> ->]. apply step_frame_url.
Qed.

End TeardownFacts.

Lemma strictly_increasing_NoDup (l : list Z) : StronglySorted Z.lt l -> NoDup l.
Proof.
  induction 1 as [|x l _ IH Hx]; constructor; [|exact IH].
  intros Hin. rewrite Forall_forall in Hx. specialize (Hx x Hin). lia.
Qed.

(** C5: whatever the interleaving of notifications, answers and teardown,
    the sequence numbers requested by a session are strictly increasing in
    the order of the requests, hence without duplicates, and all of them are
    requested for the one external record id of the session; the counter is
    incremented by each linked, non-blank notification, and no answer of the
    backend, failed or not, takes it back. *)
Theorem sequence_numbers_strictly_increasing :
  forall (G : Type) (execute : Request -> G -> option Data * G)
         (s : Session) (w : @World G) (steps : list Step),
    well_numbered s (trace w) ->
    one_record s (trace w) ->
    let sw' := run execute steps (s, w) in
    StronglySorted Z.lt (sequence_numbers (trace sw'.2)) /\
    NoDup (sequence_numbers (trace sw'.2)) /\
    Forall (fun n => (n <= sequence_counter sw'.1)%Z)
      (sequence_numbers (trace sw'.2)) /\
    one_record sw'.1 (trace sw'.2) /\
    (sequence_counter s <= sequence_counter sw'.1)%Z /\
    (forall item timestamp,
       linked sw'.1 = true -> blank (text_content item) = false ->
       let r := async_handler item timestamp sw'.1 sw'.2 in
       sequence_counter r.1 = (sequence_counter sw'.1 + 1)%Z /\
       sequence_numbers (trace r.2)
       = sequence_numbers (trace sw'.2) ++ [(sequence_counter sw'.1 + 1)%Z]) /\
    (forall i,
       sequence_counter (async_handler_resume execute i sw'.1 sw'.2).1
       = sequence_counter sw'.1).
Proof.
  intros G execute s w steps Hwn Hone sw'.
  pose proof (run_well_numbered execute steps (s, w) Hwn) as [Hs Hb].
  fold sw' in Hs, Hb.
  split; [exact Hs|]. split; [now apply strictly_increasing_NoDup|].
  split; [exact Hb|].
  split; [apply (run_one_record execute steps (s, w) Hone)|].
  split; [apply (run_counter_monotone execute steps (s, w))|].
  split.
  - intros item timestamp Hl Hnb r.
    destruct (async_handler_linked item timestamp sw'.1 sw'.2 Hl Hnb)
      as (Ht & _ & _ & Hc & _).
    fold r in Ht, Hc. split; [exact Hc|].
    rewrite Ht, sequence_numbers_app. reflexivity.
  - intros i. unfold async_handler_resume.
    destruct (in_flight sw'.1 !! i); [|reflexivity].
    destruct (execute _ _). reflexivity.
Qed.

(** Fifty notifications for one record, answered in the reverse order by a
    backend that fails every append. *)
Lemma sequence_numbers_strictly_increasing_witness :
  let sw' := run RecordBackend.unreachable Sample.fifty
               (Sample.linked_session, Sample.world RecordBackend.empty) in
  StronglySorted Z.lt (sequence_numbers (trace sw'.2)) /\
  NoDup (sequence_numbers (trace sw'.2)) /\
  one_record sw'.1 (trace sw'.2) /\
  length (sequence_numbers (trace sw'.2)) = 50%nat /\
  sequence_counter sw'.1 = 50%Z.
Proof.
  destruct (sequence_numbers_strictly_increasing _ RecordBackend.unreachable
              Sample.linked_session (Sample.world RecordBackend.empty)
              Sample.fifty) as (Hs & Hn & _ & Ho & _).
  - split; constructor.
  - constructor.
  - split; [exact Hs|]. split; [exact Hn|]. split; [exact Ho|].
    split; reflexivity.
Defined.

(** C6: a notification handled while no external record id is linked leaves
    the session and the backend as they are: no request is made for it and
    nothing of it is kept, so the rest of the session, linkage included, runs
    as if it had never arrived.  A notification with a non-blank text handled
    once an id is linked makes a transcript request for that id, numbered by
    the incremented counter. *)
Theorem notifications_before_and_after_linkage :
  forall (G : Type) (execute : Request -> G -> option Data * G)
         (item : ConversationItem) (timestamp : string)
         (s : Session) (w : @World G),
    (linked s = false ->
     async_handler item timestamp s w = (s, w) /\
     forall steps,
       run execute (ItemAdded item timestamp :: steps) (s, w)
       = run execute steps (s, w)) /\
    (linked s = true -> blank (text_content item) = false ->
     let r := async_handler item timestamp s w in
     trace r.2 = trace w ++ [Gateway (transcript_request item timestamp s)] /\
     in_flight r.1 = in_flight s ++ [transcript_request item timestamp s] /\
     sequence_counter r.1 = (sequence_counter s + 1)%Z).
Proof.
  intros G execute item timestamp s w. split.
  - intros Hl. pose proof (async_handler_unlinked item timestamp s w Hl) as H.
    split; [exact H|]. intros steps. simpl. now rewrite H.
  - intros Hl Hnb r.
    destruct (async_handler_linked item timestamp s w Hl Hnb)
      as (Ht & _ & _ & Hc & Hf & _).
    auto.
Qed.

(** The scenario of C6: the initial save fails, the backup save of the
    teardown succeeds; what was said before is not in the transcript, what is
    said after is, with increasing sequence numbers. *)
Lemma notifications_before_and_after_linkage_witness :
  let early := Sample.user "I am here" in
  let start := (Sample.unlinked, Sample.world RecordBackend.empty) in
  let final := run RecordBackend.execute
                 [ ItemAdded early "2025-10-31T23:59:10"; Shutdown true;
                   ItemAdded (Sample.assistant "Goodbye") "2025-10-31T23:59:20";
                   ItemAdded (Sample.user " Bye ") "2025-10-31T23:59:21";
                   Answered 0; Answered 0 ] start in
  async_handler early "2025-10-31T23:59:10" start.1 start.2 = start /\
  interview_id final.1 = Some "rec-1" /\
  RecordBackend.transcripts (backend final.2)
  = [("rec-1", 1%Z, "Goodbye"); ("rec-1", 2%Z, "Bye")] /\
  trace (async_handler (Sample.user "Bye") "t" final.1 final.2).2
  = trace final.2 ++ [Gateway (CreateTranscript "rec-1" "Bye" "CANDIDATE" "tZ" 3)].
Proof.
  split; [|split; [|split]].
  - apply (notifications_before_and_after_linkage _ RecordBackend.execute).
    reflexivity.
  - reflexivity.
  - reflexivity.
  - apply (notifications_before_and_after_linkage _ RecordBackend.execute);
      reflexivity.
Defined.

Section LinkageFacts.

Context {G : Type}.
Variable execute : Request -> G -> option Data * G.
Implicit Types (w : @World G) (s : Session) (sw : Session * @World G).

Lemma save_video_to_backend_assigned room job_id url region bucket w :
  Py.truthy_str url = true ->
  let r := save_video_to_backend execute room job_id (Some url) region bucket w in
  Py.truthy_opt r.1 = true -> gateway_assigned execute r.1.
Proof.
  intros Hurl r Hr.
  destruct (save_video_to_backend_sends execute room job_id url region bucket
              w Hurl) as (_ & _ & _ & H).
  fold r in H. rewrite H in Hr. rewrite H.
  exists (extract_interview_id_from_room_name room), room, url, (backend w).
  destruct (execute _ (backend w)).1 as [[ | | |[i|]| ]|]; try discriminate.
  simpl in *. destruct (Py.truthy_str i); [reflexivity | discriminate].
Qed.

Lemma cleanup_assigned b s w :
  (linked s = true -> gateway_assigned execute (interview_id s)) ->
  linked (cleanup execute b s w).1 = true ->
  gateway_assigned execute (interview_id (cleanup execute b s w).1).
Proof.
  intros Hs. unfold cleanup, linked in *.
  destruct (Py.truthy_opt (interview_id s)) eqn:Hl.
  - rewrite andb_false_r. simpl. auto.
  - destruct (Py.truthy_str (video_url_to_save s)) eqn:Hurl; simpl.
    + match goal with
      | |- context [save_video_to_backend execute ?r ?j _ ?rg ?bk ?w0] =>
          pose proof (save_video_to_backend_assigned r j (video_url_to_save s)
                        rg bk w0 Hurl) as Ha
      end.
      destruct (save_video_to_backend _ _ _ _ _ _ _) as [backup w2].
      simpl in Ha. destruct b; simpl.
      * destruct (Py.truthy_opt backup) eqn:Hb; simpl; [auto|].
        rewrite Hl. discriminate.
      * rewrite Hl. discriminate.
    + rewrite Hl. discriminate.
Qed.

Lemma step_assigned sw e :
  (linked sw.1 = true -> gateway_assigned execute (interview_id sw.1)) ->
  linked (step execute sw e).1 = true ->
  gateway_assigned execute (interview_id (step execute sw e).1).
Proof.
  destruct sw as [s w], e as [item ts|i|b|llm now input ack]; simpl; intros Hs.
  - unfold async_handler. destruct (_ || _); auto.
  - unfold async_handler_resume. destruct (in_flight s !! i); [|auto].
    destruct (execute _ _). auto.
  - now apply cleanup_assigned.
  - exact Hs.
Qed.

Lemma run_assigned steps sw :
  (linked sw.1 = true -> gateway_assigned execute (interview_id sw.1)) ->
  linked (run execute steps sw).1 = true ->
  gateway_assigned execute (interview_id (run execute steps sw).1).
Proof.
  revert sw. induction steps as [|e steps IH]; intros sw H; [exact H|].
  simpl. apply IH. now apply step_assigned.
Qed.

Lemma entrypoint_assigned (c : JobContext) (sur : Surroundings) w s w' :
  entrypoint execute c sur w = (Ok s, w') ->
  linked s = true -> gateway_assigned execute (interview_id s).
Proof.
  intros H. apply entrypoint_ok in H as (_ & _ & _ & _ & Hi & _).
  unfold linked. rewrite Hi. apply save_video_to_backend_assigned.
  apply setup_recording_truthy.
Qed.

Lemma setup_recording_trace (c : JobContext) (sur : Surroundings) session_id w :
  let r := setup_recording c sur session_id w in
  exists pre, trace r.2 = trace w ++ pre /\ sequence_numbers pre = [] /\
              backend r.2 = backend w /\ gateway_requests pre = [] /\
              commit_threads pre = [].
Proof.
  unfold setup_recording.
  assert (Hs : forall egress,
             let a := start_recording
                        (new_recording_manager c (env_region sur) (env_bucket sur))
                        egress (capture_stamp sur) (Some (ctx_room_name c))
                        (Some session_id) w in
             exists pre, trace a.2 = trace w ++ pre /\ sequence_numbers pre = []
                         /\ backend a.2 = backend w /\ gateway_requests pre = []
                         /\ commit_threads pre = []).
  { intros egress. unfold start_recording. simpl.
    destruct (negb (Py.truthy_str (ctx_room_name c))) eqn:Hr.
    - apply negb_true_iff in Hr. rewrite Hr. simpl.
      exists []. now rewrite app_nil_r.
    - apply negb_false_iff in Hr. rewrite Hr.
      destruct egress; simpl; eexists [_]; repeat split. }
  destruct (capture sur) as [egress_id|e|].
  - specialize (Hs (Ok egress_id)).
    destruct (start_recording _ _ _ _ _ w) as [[r m] w1]. simpl in *.
    destruct (Py.truthy_opt r); exact Hs.
  - specialize (Hs (Raise e)).
    destruct (start_recording _ _ _ _ _ w) as [[r m] w1]. simpl in *.
    destruct (Py.truthy_opt r); exact Hs.
  - specialize (Hs (Raise TimeoutError)).
    destruct (start_recording _ _ _ _ _ w) as [[r m] w1]. exact Hs.
Qed.

(** The trace of a successful [entrypoint]: what comes before linkage, the
    linkage request, then the commit of the initial state, the start of the
    session and the greeting. *)
Lemma entrypoint_trace (c : JobContext) (sur : Surroundings) w s w' :
  entrypoint execute c sur w = (Ok s, w') ->
  exists pre ack instructions,
    trace w' = trace w ++ pre
               ++ [ Gateway (CreateInterview
                               (extract_interview_id_from_room_name (ctx_room_name c))
                               (ctx_room_name c) (video_url_to_save s)
                               "VIDEO" "STARTED");
                    StateCommit (thread_id s) ack; SessionStart;
                    GenerateReply instructions ] /\
    sequence_numbers pre = [] /\
    (ack = true -> checkpoint_ok sur = true).
Proof.
  intros H. apply entrypoint_ok in H
    as (_ & _ & Hsid & Hurl & _ & _ & _ & _ & _ & _ & ack & ins & Hack & Ht).
  set (sid := (get_or_create_session sur _ _).1) in *.
  destruct (setup_recording_trace c sur sid w) as (pre & Hpre & Hn & _).
  pose proof (setup_recording_truthy c sur sid w) as Htruthy.
  destruct (save_video_to_backend_sends execute (ctx_room_name c) (ctx_job_id c)
              (setup_recording c sur sid w).1.1 (env_region sur) (env_bucket sur)
              (setup_recording c sur sid w).2 Htruthy) as (Hsv & _).
  exists pre, ack, ins. split; [|auto].
  rewrite Ht, Hsv, Hpre, Hurl. now rewrite <- !app_assoc.
Qed.

Lemma entrypoint_well_numbered (c : JobContext) (sur : Surroundings) w s w' :
  entrypoint execute c sur w = (Ok s, w') ->
  sequence_numbers (trace w) = [] ->
  well_numbered s (trace w').
Proof.
  intros H Hw. destruct (entrypoint_trace c sur w s w' H)
    as (pre & ack & ins & -> & Hpre & _).
  unfold well_numbered. rewrite !sequence_numbers_app, Hw, Hpre. simpl.
  split; constructor.
Qed.

End LinkageFacts.

Lemma gateway_requests_app t1 t2 :
  gateway_requests (t1 ++ t2) = gateway_requests t1 ++ gateway_requests t2.
Proof.
  induction t1 as [|e t1 IH]; [reflexivity|]. simpl.
  destruct e; simpl; now rewrite ?IH.
Qed.

Lemma commit_threads_app t1 t2 :
  commit_threads (t1 ++ t2) = commit_threads t1 ++ commit_threads t2.
Proof.
  induction t1 as [|e t1 IH]; [reflexivity|]. simpl.
  destruct e; simpl; now rewrite ?IH.
Qed.

Lemma creation_requests_gateway t :
  gateway_requests t = [] -> creation_requests t = [].
Proof.
  induction t as [|e t IH]; [reflexivity|]. simpl.
  destruct e as [q| | | | |]; try exact IH. discriminate.
Qed.

Section ConfigurationFacts.

Context {G : Type}.
Variable execute : Request -> G -> option Data * G.
Implicit Types (w : @World G) (s : Session).

Lemma aupdate_state_trace t values ack w :
  backend (aupdate_state t values ack w) = backend w /\
  exists b, trace (aupdate_state t values ack w) = trace w ++ [StateCommit t b].
Proof.
  unfold aupdate_state. destruct (if ack then _ else _); simpl; eauto.
Qed.

(** What [entrypoint] sends to the gateway, whether it returns or raises
    later on: the creation of the record with the URL of the recording
    setup. *)
Lemma entrypoint_requests (c : JobContext) (sur : Surroundings) w :
  recording_configuration sur = Ok tt ->
  let sid := (get_or_create_session sur (ctx_room_name c)
                (resolve_application_id (ctx_room_name c))).1 in
  gateway_requests (trace (entrypoint execute c sur w).2)
  = gateway_requests (trace w)
    ++ [CreateInterview (extract_interview_id_from_room_name (ctx_room_name c))
          (ctx_room_name c) (setup_recording c sur sid w).1.1 "VIDEO" "STARTED"].
Proof.
  intros Hconf. unfold entrypoint.
  destruct (get_or_create_session sur _ _) as [sid m]. rewrite Hconf.
  cbn [fst].
  destruct (setup_recording_trace c sur sid w) as (pre & Hpre & _ & _ & Hg & _).
  pose proof (setup_recording_truthy c sur sid w) as Htruthy.
  pose proof (save_video_to_backend_sends execute (ctx_room_name c) (ctx_job_id c)
                (setup_recording c sur sid w).1.1 (env_region sur) (env_bucket sur)
                (setup_recording c sur sid w).2 Htruthy) as (Hsv & _).
  destruct (setup_recording c sur sid w) as [[url mgr] w1]. simpl in *.
  rewrite Htruthy.
  destruct (save_video_to_backend execute _ _ _ _ _ w1) as [iid w2]. simpl in *.
  assert (Hw2 : gateway_requests (trace w2)
                = gateway_requests (trace w)
                  ++ [CreateInterview
                        (extract_interview_id_from_room_name (ctx_room_name c))
                        (ctx_room_name c) url "VIDEO" "STARTED"]).
  { rewrite Hsv, Hpre, !gateway_requests_app, Hg, app_nil_r. reflexivity. }
  destruct (create_initial_session_state _ _) as [initial|e]; [|exact Hw2].
  match goal with
  | |- context [aupdate_state ?t ?v ?a w2] =>
      destruct (aupdate_state_trace t v a w2) as (_ & b & Hb)
  end.
  destruct (proactive_instruction _) as [instructions|e]; simpl;
    rewrite ?gateway_requests_app, Hb, gateway_requests_app, Hw2; simpl;
    now rewrite ?app_nil_r.
Qed.

End ConfigurationFacts.

(** C8, as stated, fails: the manager of the recording validates its
    configuration when it is constructed, outside any [try]; without the
    access key no URL is computed, nothing is registered and the session does
    not start, whatever the capture would have done. *)
Lemma recording_configuration_counterexample :
  entrypoint RecordBackend.execute Sample.job_ctx
    (Sample.sur_without_access_key NoAnswer true)
    (Sample.world RecordBackend.empty)
  = (Raise ValueError, Sample.world RecordBackend.empty) /\
  entrypoint RecordBackend.execute Sample.job_ctx
    (Sample.sur_without_access_key (Started "EG_1") true)
    (Sample.world RecordBackend.empty)
  = (Raise ValueError, Sample.world RecordBackend.empty).
Proof. split; reflexivity. Qed.

(** C8 (amended): with the configuration of the recording complete, whatever
    the capture attempt does, recording setup ends with a non-empty URL: the
    URL of the capture when capture starts (for a room with a name), and
    otherwise, when capture fails or does not answer in time, the URL made of
    bucket, region, session id and timestamp.  That URL is registered with
    the gateway whatever the capture attempt did, and the session goes on
    without capture as it does with it: whether [entrypoint] returns depends
    on the session metadata alone, and a session that starts holds the URL. *)
Theorem recording_url_always_exists :
  forall (G : Type) (execute : Request -> G -> option Data * G)
         (c : JobContext) (sur : Surroundings) (w : @World G)
         (o : CaptureOutcome),
    recording_configuration sur = Ok tt ->
    let created := get_or_create_session sur (ctx_room_name c)
                     (resolve_application_id (ctx_room_name c)) in
    let bucket := getenv (env_bucket sur) "4wk-garage-media" in
    let region := getenv (env_region sur) "me-central-1" in
    let url := (setup_recording c (with_capture sur o) created.1 w).1.1 in
    let r := entrypoint execute c (with_capture sur o) w in
    Py.truthy_str url = true /\
    match o with
    | Started _ =>
        if Py.truthy_str (ctx_room_name c)
        then url = "https://" +:+ bucket +:+ ".s3." +:+ region
                   +:+ ".amazonaws.com/interviews/"
                   +:+ path_session_id c created.1 +:+ "/" +:+ capture_stamp sur
                   +:+ "/recording.mp4"
        else url = "https://" +:+ bucket +:+ ".s3." +:+ region
                   +:+ ".amazonaws.com/interviews/" +:+ created.1 +:+ "/"
                   +:+ now_stamp sur +:+ "/recording.mp4"
    | Failed _ | NoAnswer =>
        url = "https://" +:+ bucket +:+ ".s3." +:+ region
              +:+ ".amazonaws.com/interviews/" +:+ created.1 +:+ "/"
              +:+ now_stamp sur +:+ "/recording.mp4"
    end /\
    gateway_requests (trace r.2)
    = gateway_requests (trace w)
      ++ [CreateInterview (extract_interview_id_from_room_name (ctx_room_name c))
            (ctx_room_name c) url "VIDEO" "STARTED"] /\
    raises r.1
    = raises (language_of (SessionManager.application_details created.2))
      || raises (proactive_instruction created.2) /\
    (forall s w', r = (Ok s, w') ->
                  video_url_to_save s = url /\ In SessionStart (trace w')).
Proof.
  intros G execute c sur w o Hconf created bucket region url r.
  assert (Hgen : fallback_url (with_capture sur o) created.1
                 = "https://" +:+ bucket +:+ ".s3." +:+ region
                   +:+ ".amazonaws.com/interviews/" +:+ created.1 +:+ "/"
                   +:+ now_stamp sur +:+ "/recording.mp4").
  { symmetry. apply (generated_url_eq (with_capture sur o)). }
  split; [apply setup_recording_truthy|]. split; [|split; [|split]].
  - destruct o as [egress_id|e|].
    + destruct (Py.truthy_str (ctx_room_name c)) eqn:Hroom.
      * subst url.
        rewrite (setup_recording_started c (with_capture sur (Started egress_id))
                   created.1 w egress_id eq_refl Hroom).
        unfold s3_url, interview_filepath. subst bucket region. simpl.
        repeat (rewrite ?app_assoc', ?app_cons, ?app_empty_l; f_equal).
      * rewrite <- Hgen. subst url. unfold setup_recording.
        rewrite generated_url_eq. simpl capture. unfold start_recording. simpl.
        rewrite Hroom. simpl. rewrite Hroom. reflexivity.
    + rewrite <- Hgen. apply setup_recording_fallback. discriminate.
    + rewrite <- Hgen. apply setup_recording_fallback. discriminate.
  - apply (entrypoint_requests execute c (with_capture sur o) w Hconf).
  - subst r. rewrite (entrypoint_raises execute c (with_capture sur o) w).
    change (recording_configuration (with_capture sur o))
      with (recording_configuration sur). rewrite Hconf. reflexivity.
  - intros s w' Hr. subst r.
    pose proof (entrypoint_ok execute c (with_capture sur o) w s w' Hr)
      as (_ & _ & _ & Hurl & _ & _ & _ & _ & _ & _ & ack & ins & _ & Ht).
    split; [exact Hurl|]. rewrite Ht. apply in_or_app. right. simpl. tauto.
Qed.

Lemma recording_url_always_exists_witness :
  let r := entrypoint RecordBackend.unreachable Sample.job_ctx
             (with_capture (Sample.sur (Started "EG_1") true) NoAnswer)
             (Sample.world RecordBackend.empty) in
  gateway_requests (trace r.2)
  = [CreateInterview "11111111-2222-3333-4444-555555555555" Sample.room
       "https://4wk-garage-media.s3.me-central-1.amazonaws.com/interviews/interview-local-1/20251031_235900/recording.mp4"
       "VIDEO" "STARTED"] /\
  raises r.1 = false.
Proof.
  intros r.
  destruct (recording_url_always_exists _ RecordBackend.unreachable Sample.job_ctx
              (Sample.sur (Started "EG_1") true)
              (Sample.world RecordBackend.empty) NoAnswer eq_refl)
    as (_ & Hurl & Hg & Hr & _).
  subst r. split; [|exact Hr]. rewrite Hg, Hurl. reflexivity.
Defined.

Section ThreadFacts.

Context {G : Type}.
Variable execute : Request -> G -> option Data * G.
Implicit Types (w : @World G) (s : Session) (sw : Session * @World G).

(** Every commit of a running session is a commit of a turn, on the thread
    that [entrypoint] has given to the adapter. *)
Lemma step_commit_threads sw e :
  exists n,
    commit_threads (trace (step execute sw e).2)
    = commit_threads (trace sw.2) ++ replicate n (thread_id sw.1).
Proof.
  destruct sw as [s w], e as [item ts|i|b|llm now input ack]; simpl.
  - exists 0%nat. unfold async_handler. destruct (_ || _); simpl;
      rewrite ?commit_threads_app; simpl; now rewrite ?app_nil_r.
  - exists 0%nat. unfold async_handler_resume.
    destruct (in_flight s !! i); [|now rewrite app_nil_r].
    destruct (execute _ _). simpl. now rewrite app_nil_r.
  - exists 0%nat. rewrite cleanup_trace, !commit_threads_app.
    destruct (linked s), (Py.truthy_str (video_url_to_save s)); reflexivity.
  - destruct (graph_run_trace llm now input ack (thread_id s) w)
      as (_ & [->|(b & ->)]).
    + exists 0%nat. now rewrite app_nil_r.
    + exists 1%nat. now rewrite commit_threads_app.
Qed.

Lemma run_commit_threads steps sw :
  exists n,
    commit_threads (trace (run execute steps sw).2)
    = commit_threads (trace sw.2) ++ replicate n (thread_id sw.1).
Proof.
  revert sw. induction steps as [|e steps IH]; intros sw.
  - exists 0%nat. simpl. now rewrite app_nil_r.
  - simpl. destruct (IH (step execute sw e)) as [n Hn].
    destruct (step_commit_threads sw e) as [k Hk].
    exists (k + n)%nat.
    rewrite Hn, Hk, (proj1 (step_frame execute sw e)), <- app_assoc.
    now rewrite replicate_add.
Qed.

Lemma entrypoint_commit_threads (c : JobContext) (sur : Surroundings) w s w' :
  entrypoint execute c sur w = (Ok s, w') ->
  commit_threads (trace w') = commit_threads (trace w) ++ [thread_id s].
Proof.
  intros H. apply entrypoint_ok in H
    as (_ & _ & _ & _ & _ & _ & _ & _ & _ & _ & ack & ins & _ & Ht).
  set (sid := (get_or_create_session sur _ _).1) in *.
  destruct (setup_recording_trace c sur sid w) as (pre & Hpre & _ & _ & _ & Hc).
  pose proof (setup_recording_truthy c sur sid w) as Htruthy.
  destruct (save_video_to_backend_sends execute (ctx_room_name c) (ctx_job_id c)
              (setup_recording c sur sid w).1.1 (env_region sur) (env_bucket sur)
              (setup_recording c sur sid w).2 Htruthy) as (Hsv & _).
  rewrite Ht, Hsv, Hpre, !commit_threads_app, Hc. simpl.
  now rewrite !app_nil_r.
Qed.

End ThreadFacts.

(** C7, as stated, fails: when the save of the session start fails and the
    backup save of the teardown succeeds, the session gets its external
    record id, but its thread id is still the session id, on which the
    initial state was committed. *)
Lemma thread_id_not_replaced_counterexample :
  let r := entrypoint RecordBackend.flaky Sample.job_ctx (Sample.sur NoAnswer true)
             (Sample.world (1%nat, RecordBackend.empty)) in
  let s := match r.1 with Ok s => s | Raise _ => Sample.unlinked end in
  let sw := run RecordBackend.flaky [Shutdown true] (s, r.2) in
  raises r.1 = false /\
  (interview_id s = None /\ thread_id s = "interview-local-1") /\
  (interview_id sw.1 = Some "rec-1" /\ thread_id sw.1 = "interview-local-1") /\
  commit_threads (trace sw.2) = ["interview-local-1"].
Proof. vm_compute. repeat split; reflexivity. Qed.

(** C7 (amended): the thread id of a session is set once, by [entrypoint]:
    to the external record id when the save of the session start returned
    one, an id that the backend assigned, and to the locally generated
    session id otherwise.  No later step changes it, and every commit of the
    session is made on it, also after the backup save of a teardown has
    linked the session.  The external record id itself is set at most once,
    by the save of the session start or by the backup save of a teardown, to
    an id that the backend assigned, and once set it is neither dropped nor
    replaced; a teardown makes one backup attempt when the session is not
    linked and none when it is. *)
Theorem thread_id_set_at_session_start :
  forall (G : Type) (execute : Request -> G -> option Data * G)
         (c : JobContext) (sur : Surroundings) (w w' : @World G) (s : Session)
         (steps1 steps2 : list Step),
    entrypoint execute c sur w = (Ok s, w') ->
    let sw1 := run execute steps1 (s, w') in
    let sw2 := run execute steps2 sw1 in
    session_id s
      = (get_or_create_session sur (ctx_room_name c)
           (resolve_application_id (ctx_room_name c))).1 /\
    (linked s = false -> thread_id s = session_id s) /\
    (linked s = true ->
     thread_id s = default EmptyString (interview_id s) /\
     gateway_assigned execute (interview_id s)) /\
    SessionManager.session_id (session_metadata s) = thread_id s /\
    thread_id sw2.1 = thread_id s /\
    (exists n,
       commit_threads (trace sw2.2)
       = commit_threads (trace w) ++ replicate (S n) (thread_id s)) /\
    (linked sw1.1 = true ->
     gateway_assigned execute (interview_id sw1.1) /\
     interview_id sw2.1 = interview_id sw1.1) /\
    (forall b,
       creation_requests (trace (cleanup execute b sw1.1 sw1.2).2)
       = creation_requests (trace sw1.2)
         ++ (if linked sw1.1 then [] else [linkage_request s])).
Proof.
  intros G execute c sur w w' s steps1 steps2 H sw1 sw2.
  pose proof (entrypoint_ok execute c sur w s w' H)
    as (_ & _ & Hsid & Hurl & _ & Hth & _ & _ & Hm & _).
  split; [exact Hsid|].
  split; [intros Hl; unfold linked in Hl; now rewrite Hl in Hth|].
  split.
  { intros Hl. split; [unfold linked in Hl; now rewrite Hl in Hth|].
    now apply (entrypoint_assigned execute c sur w s w' H). }
  split; [exact Hm|].
  assert (Hrun : sw2 = run execute (steps1 ++ steps2) (s, w'))
    by (subst sw2 sw1; now rewrite run_app).
  split; [rewrite Hrun; apply (run_frame execute (steps1 ++ steps2) (s, w'))|].
  split.
  { destruct (run_commit_threads execute (steps1 ++ steps2) (s, w')) as [n Hn].
    exists n. rewrite Hrun, Hn. simpl.
    rewrite (entrypoint_commit_threads execute c sur w s w' H), <- app_assoc.
    reflexivity. }
  split.
  { intros Hl. split.
    - apply (run_assigned execute steps1 (s, w')); [|assumption].
      apply (entrypoint_assigned execute c sur w s w' H).
    - now apply run_linked. }
  intros b. rewrite cleanup_creation_requests.
  destruct (run_frame_url execute steps1 (s, w')) as [Hu Hc].
  fold sw1 in Hu, Hc. simpl in Hu, Hc.
  unfold linkage_request. rewrite Hu, Hc, Hurl, setup_recording_truthy.
  simpl. now destruct (linked sw1.1).
Qed.

Lemma thread_id_set_at_session_start_witness :
  let r := entrypoint RecordBackend.flaky Sample.job_ctx (Sample.sur NoAnswer true)
             (Sample.world (1%nat, RecordBackend.empty)) in
  let s := match r.1 with Ok s => s | Raise _ => Sample.unlinked end in
  let sw1 := run RecordBackend.flaky
               [ItemAdded (Sample.user "hello") "t1"; Shutdown true] (s, r.2) in
  let sw2 := run RecordBackend.flaky
               [ItemAdded (Sample.user "bye") "t2"; Shutdown true; Answered 0] sw1 in
  thread_id s = "interview-local-1" /\
  interview_id sw1.1 = Some "rec-1" /\
  thread_id sw2.1 = thread_id s /\
  interview_id sw2.1 = interview_id sw1.1.
Proof.
  intros r s sw1 sw2.
  destruct (thread_id_set_at_session_start _ RecordBackend.flaky Sample.job_ctx
              (Sample.sur NoAnswer true) (Sample.world (1%nat, RecordBackend.empty))
              r.2 s
              [ItemAdded (Sample.user "hello") "t1"; Shutdown true]
              [ItemAdded (Sample.user "bye") "t2"; Shutdown true; Answered 0])
    as (_ & Hs & _ & _ & Hth & _ & Hl & _).
  - reflexivity.
  - destruct Hl as (_ & Hi); [reflexivity|].
    split; [apply Hs; reflexivity|]. split; [reflexivity|]. split; assumption.
Defined.

Section GateFacts.

Context {G : Type}.
Variable execute : Request -> G -> option Data * G.
Implicit Types (w : @World G) (s : Session) (sw : Session * @World G).





End GateFacts.




(** ** The graph state *)

Lemma write_channel_other delta (st st' : AssistantState) k k' :
  write_channel delta st k = Ok st' -> k' <> k -> st' !! k' = st !! k'.
Proof.
  unfold write_channel. intros H Hne.
  destruct (delta !! k) as [v|]; [|now injection H as <-].
  destruct (String.eqb k "messages").
  - destruct (add_messages _ v) as [r|]; [|discriminate].
    injection H as <-. now rewrite lookup_insert_ne.
  - injection H as <-. now rewrite lookup_insert_ne.
Qed.

Lemma write_channel_same delta (st st' : AssistantState) k :
  write_channel delta st k = Ok st' ->
  match delta !! k with
  | None => st' !! k = st !! k
  | Some v =>
      if String.eqb k "messages"
      then exists r, add_messages (default (VMsgs []) (st !! k)) v = Ok r /\
                     st' !! k = Some r
      else st' !! k = Some v
  end.
Proof.
  unfold write_channel. intros H.
  destruct (delta !! k) as [v|]; [|now injection H as <-].
  destruct (String.eqb k "messages").
  - destruct (add_messages _ v) as [r|]; [|discriminate].
    injection H as <-. exists r. split; [reflexivity|apply lookup_insert_eq].
  - injection H as <-. apply lookup_insert_eq.
Qed.

Lemma write_channels_other delta ks : forall (st st' : AssistantState) k',
  write_channels delta st ks = Ok st' -> k' ∉ ks -> st' !! k' = st !! k'.
Proof.
  induction ks as [|k ks IH]; intros st st' k' H Hnot; simpl in H.
  - now injection H as <-.
  - destruct (write_channel delta st k) as [st1|] eqn:E; [|discriminate].
    rewrite bind_ok in H. apply not_elem_of_cons in Hnot as [Hne Hnot].
    rewrite (IH _ _ _ H Hnot). eapply write_channel_other; eassumption.
Qed.

Lemma write_channels_same delta ks : forall (st st' : AssistantState) k,
  NoDup ks -> write_channels delta st ks = Ok st' -> k ∈ ks ->
  match delta !! k with
  | None => st' !! k = st !! k
  | Some v =>
      if String.eqb k "messages"
      then exists r, add_messages (default (VMsgs []) (st !! k)) v = Ok r /\
                     st' !! k = Some r
      else st' !! k = Some v
  end.
Proof.
  induction ks as [|k0 ks IH]; intros st st' k Hnd H Hin; [inversion Hin|].
  simpl in H. apply NoDup_cons in Hnd as [Hk0 Hnd].
  destruct (write_channel delta st k0) as [st1|] eqn:E; [|discriminate].
  rewrite bind_ok in H. apply elem_of_cons in Hin as [->|Hin].
  - pose proof (write_channels_other _ _ _ _ _ H Hk0) as Hsame.
    pose proof (write_channel_same _ _ _ _ E) as Hw.
    destruct (delta !! k0) as [v|]; [|congruence].
    destruct (String.eqb k0 "messages"); [|congruence].
    destruct Hw as (r & Hr & Hl). exists r. split; congruence.
  - assert (Hne : k <> k0) by (intros ->; contradiction).
    pose proof (write_channel_other _ _ _ _ _ E Hne) as Hst.
    specialize (IH _ _ _ Hnd H Hin). now rewrite Hst in IH.
Qed.

(** Membership in a list given by its elements. *)
Ltac in_list := apply list_elem_of_In; simpl; tauto.

Lemma channels_NoDup : NoDup channels.
Proof. apply (bool_decide_unpack _). vm_compute. reflexivity. Qed.

Lemma scalar_fields_channels k : k ∈ scalar_fields -> k ∈ channels /\ k <> "messages".
Proof.
  unfold scalar_fields, channels. intros H.
  repeat (apply elem_of_cons in H as [->|H]; [split; [in_list|discriminate]|]).
  inversion H.
Qed.

(** What [call_llm] returns when it returns. *)
Lemma call_llm_ok llm now (st delta : AssistantState) :
  call_llm llm now st = Ok delta ->
  exists system_prompt history message,
    st !! "messages" = Some (VMsgs history) /\
    llm (SystemMessage system_prompt :: history) = Ok message /\
    delta !! "messages" = Some (VMsgs [message]) /\
    forall k v, k ∈ scalar_fields -> st !! k = Some v -> delta !! k = Some v.
Proof.
  unfold call_llm. intros H.
  destruct (system_prompt_of_state st) as [sp|]; [|discriminate].
  rewrite bind_ok in H. unfold state_messages in H.
  destruct (st !! "messages") as [[history| |]|] eqn:Hm; try discriminate.
  rewrite bind_ok in H.
  destruct (llm _) as [message|] eqn:Hllm; [|discriminate].
  rewrite bind_ok in H. injection H as <-.
  exists sp, history, message. split; [reflexivity|]. split; [exact Hllm|].
  split; [reflexivity|].
  intros k v Hk Hv. unfold scalar_fields in Hk.
  repeat (apply elem_of_cons in Hk as [->|Hk];
          [simpl; rewrite !lookup_insert_ne by discriminate;
           rewrite lookup_insert_eq, Hv; reflexivity|]).
  inversion Hk.
Qed.

Lemma write_channels_scalars delta ks : forall (st : AssistantState),
  Forall (fun k => String.eqb k "messages" = false) ks ->
  exists st', write_channels delta st ks = Ok st'.
Proof.
  induction ks as [|k ks IH]; intros st Hks; [simpl; eauto|].
  inversion Hks as [|? ? Hk Hks']; subst. simpl. unfold write_channel at 1.
  rewrite Hk. destruct (delta !! k); rewrite bind_ok; apply IH; assumption.
Qed.

(** A commit fails only on the messages. *)
Lemma commit_ok (st delta : AssistantState) l new :
  default (VMsgs []) (st !! "messages") = VMsgs l ->
  delta !! "messages" = Some (VMsgs new) ->
  exists st', commit st delta = Ok st'.
Proof.
  intros Hst Hd. unfold commit, channels.
  change (write_channels delta st ("messages" :: ?ks))
    with (st1 ← write_channel delta st "messages"; write_channels delta st1 ks).
  unfold write_channel at 1. rewrite Hd. simpl String.eqb. cbv iota.
  rewrite Hst. simpl add_messages. rewrite !bind_ok.
  apply write_channels_scalars. repeat constructor.
Qed.

(** The input of a turn is appended to the stored messages, and nothing else
    is written. *)
Lemma commit_input (st st1 : AssistantState) input :
  commit st (graph_input input) = Ok st1 ->
  st1 !! "messages" = Some (VMsgs (messages_of st ++ input)) /\
  forall k, k <> "messages" -> st1 !! k = st !! k.
Proof.
  unfold commit, graph_input. intros H. split.
  - pose proof (write_channels_same _ channels st st1 "messages"
                  channels_NoDup H ltac:(in_list)) as Hw.
    rewrite lookup_singleton_eq in Hw. simpl in Hw.
    destruct Hw as (r & Hr & ->). f_equal. unfold messages_of.
    destruct (st !! "messages") as [[l| |[| | | | |]]|]; simpl in Hr;
      try discriminate; now injection Hr as <-.
  - intros k Hk. destruct (decide (k ∈ channels)) as [Hin|Hout].
    + pose proof (write_channels_same _ channels st st1 k
                    channels_NoDup H Hin) as Hw.
      now rewrite lookup_singleton_ne in Hw by congruence.
    + eapply write_channels_other; eassumption.
Qed.

Lemma messages_of_stored (st : AssistantState) l :
  st !! "messages" = Some (VMsgs l) -> messages_of st = l.
Proof. unfold messages_of. now intros ->. Qed.

(** One committed turn appends its input and the generated message, and keeps
    the scalar fields. *)
Lemma turn_ok llm now input (st st' : AssistantState) :
  turn llm now input st = Ok st' ->
  (exists message, messages_of st' = messages_of st ++ input ++ [message]) /\
  forall k v, k ∈ scalar_fields -> st !! k = Some v -> st' !! k = Some v.
Proof.
  unfold turn. intros H.
  destruct (commit st (graph_input input)) as [st1|] eqn:Hin; [|discriminate].
  rewrite bind_ok in H. destruct (commit_input _ _ _ Hin) as [Hm1 Hk1].
  destruct (call_llm llm now st1) as [delta|] eqn:Hcall; [|discriminate].
  rewrite bind_ok in H. unfold commit in H.
  destruct (call_llm_ok _ _ _ _ Hcall) as (sp & history & m & Hm & _ & Hd & Hs).
  split.
  - pose proof (write_channels_same delta channels st1 st' "messages"
                  channels_NoDup H ltac:(in_list)) as Hw.
    rewrite Hd in Hw. simpl in Hw. destruct Hw as (r & Hr & Hl).
    rewrite Hm1 in Hr. simpl in Hr. injection Hr as <-.
    exists m. rewrite (messages_of_stored _ _ Hl). now rewrite <- app_assoc.
  - intros k v Hk Hv. destruct (scalar_fields_channels k Hk) as [Hin' Hne].
    pose proof (write_channels_same delta channels st1 st' k
                  channels_NoDup H Hin') as Hw.
    rewrite <- (Hk1 k Hne) in Hv.
    rewrite (Hs k v Hk Hv) in Hw.
    destruct (String.eqb k "messages") eqn:E; [|exact Hw].
    apply String.eqb_eq in E. contradiction.
Qed.

Lemma turns_ok llm runs : forall (st st' : AssistantState),
  turns llm runs st = Ok st' ->
  (exists replies,
     length replies = length runs /\
     messages_of st'
     = messages_of st ++ concat (zip_with (fun r m => r.2 ++ [m]) runs replies)) /\
  forall k v, k ∈ scalar_fields -> st !! k = Some v -> st' !! k = Some v.
Proof.
  induction runs as [|[now input] runs IH]; intros st st' H; simpl in H.
  - injection H as <-. split; [exists []; now rewrite app_nil_r | auto].
  - destruct (turn llm now input st) as [st1|] eqn:Ht; [|discriminate].
    rewrite bind_ok in H.
    destruct (turn_ok _ _ _ _ _ Ht) as ((m & Hm) & Hs1).
    destruct (IH _ _ H) as ((replies & Hlen & Happ) & Hs).
    split.
    + exists (m :: replies). split; [simpl; now rewrite Hlen|].
      rewrite Happ, Hm. simpl. now rewrite <- !app_assoc.
    + intros k v Hk Hv. apply Hs; [exact Hk|]. now apply Hs1.
Qed.

Lemma appended_length (runs : list (string * list BaseMessage)) :
  forall replies : list BaseMessage,
  length replies = length runs ->
  length (concat (zip_with (fun r m => r.2 ++ [m]) runs replies))
  = (input_count runs + length runs)%nat.
Proof.
  unfold input_count.
  induction runs as [|[now input] runs IH]; intros [|m replies] Hlen;
    try discriminate; [reflexivity|].
  simpl in *. rewrite !length_app, IH by lia. simpl.
  change (list_fmap _ _ ?f ?l) with (f <$> l). lia.
Qed.

(** The committed initial state: one message, the trigger of the proactive
    opening, an active status and question 0. *)
Lemma initial_state_committed now (sm : SessionMetadata) init (st : AssistantState) :
  create_initial_session_state now sm = Ok init ->
  commit ∅ init = Ok st ->
  messages_of st = [HumanMessage "Start conversation"] /\
  st !! "interview_status" = Some (VPy (PStr "active")) /\
  st !! "current_question" = Some (VPy (PInt 0)).
Proof.
  unfold create_initial_session_state. intros Hi Hc.
  destruct (language_of _) as [language|]; [|discriminate].
  rewrite bind_ok in Hi.
  destruct (if PyV.truthy _ then _ else _) as [cv|]; [|discriminate].
  rewrite bind_ok in Hi. injection Hi as <-.
  unfold commit in Hc.
  match type of Hc with
  | write_channels ?d _ _ = _ =>
      pose proof (write_channels_same d channels ∅ st "messages"
                    channels_NoDup Hc ltac:(in_list)) as Hm;
      pose proof (write_channels_same d channels ∅ st "interview_status"
                    channels_NoDup Hc ltac:(in_list)) as Hs;
      pose proof (write_channels_same d channels ∅ st "current_question"
                    channels_NoDup Hc ltac:(in_list)) as Hq
  end.
  simpl in Hm, Hs, Hq.
  rewrite lookup_insert_eq in Hm.
  rewrite !lookup_insert_ne, lookup_insert_eq in Hs by discriminate.
  rewrite !lookup_insert_ne, lookup_insert_eq in Hq by discriminate.
  simpl in Hm, Hs, Hq. destruct Hm as (r & Hr & Hl).
  rewrite lookup_empty in Hr. simpl in Hr. injection Hr as <-.
  unfold messages_of. rewrite Hl. auto.
Qed.

(** C1, as stated, fails.  The initial state that the session commits holds
    one message, the trigger of the proactive opening, and a turn stores the
    chat context it is run on before the generated message: after one turn
    on a context of one message the stored list has three messages, not one.
    A turn on the chat context one exchange later stores the messages of the
    first turn once more: seven messages, of which only four are distinct.
    Status and question index are kept. *)
Lemma initial_turn_counterexample :
  (st ← Sample.after_one_turn;
   Ok (messages_of st, st !! "interview_status", st !! "current_question"))
  = Ok ([ HumanMessage "Start conversation";
          SystemMessage "Say a simple hello: 'Hello Jane'";
          AIMessage "Hello Jane" ],
        Some (VPy (PStr "active")), Some (VPy (PInt 0))) /\
  (st ← Sample.after_one_turn; Ok (length (messages_of st))) <> Ok 1%nat /\
  (st ← Sample.after_two_turns; Ok (messages_of st))
  = Ok [ HumanMessage "Start conversation";
         SystemMessage "Say a simple hello: 'Hello Jane'";
         AIMessage "Hello Jane";
         SystemMessage "Say a simple hello: 'Hello Jane'";
         AIMessage "Hello Jane";
         HumanMessage "Hello";
         AIMessage "Hello Jane" ].
Proof.
  split; [vm_compute; reflexivity|].
  split; [vm_compute; discriminate | vm_compute; reflexivity].
Qed.

(** C1 (amended): every committed turn appends to the stored list the
    messages it is run on, in their order, and then the one generated
    message; what was stored before is unchanged, so nothing is lost, and the
    list grows by the number of input messages plus one with every turn.
    Each of the nine scalar fields present before a turn is stored unchanged
    after it.  When the turns start from the committed initial state, which
    holds the trigger message, the list has one message more than the turns
    have appended, the status is still active and the question index
    still 0. *)
Theorem commits_append_and_preserve :
  forall (llm : list BaseMessage -> Res BaseMessage)
         (runs : list (string * list BaseMessage)) (st st' : AssistantState),
    turns llm runs st = Ok st' ->
    (exists replies,
       length replies = length runs /\
       messages_of st'
       = messages_of st
         ++ concat (zip_with (fun r m => r.2 ++ [m]) runs replies)) /\
    length (messages_of st')
    = (length (messages_of st) + input_count runs + length runs)%nat /\
    (forall k v, k ∈ scalar_fields -> st !! k = Some v -> st' !! k = Some v) /\
    (forall now (sm : SessionMetadata) init,
       create_initial_session_state now sm = Ok init ->
       commit ∅ init = Ok st ->
       length (messages_of st') = S (input_count runs + length runs) /\
       st' !! "interview_status" = Some (VPy (PStr "active")) /\
       st' !! "current_question" = Some (VPy (PInt 0))).
Proof.
  intros llm runs st st' H.
  destruct (turns_ok llm runs st st' H) as ((replies & Hlen & Happ) & Hs).
  split; [exists replies; auto|].
  assert (Hcount : length (messages_of st')
                   = (length (messages_of st) + input_count runs + length runs)%nat).
  { rewrite Happ, length_app, (appended_length runs replies Hlen). lia. }
  split; [exact Hcount|]. split; [exact Hs|].
  intros now sm init Hi Hc.
  destruct (initial_state_committed now sm init st Hi Hc) as (Hm & Hst & Hq).
  rewrite Hcount, Hm. split; [reflexivity|].
  split; apply Hs; try assumption; in_list.
Qed.

Lemma commits_append_and_preserve_witness :
  let init := match create_initial_session_state "2025-10-31 23:59:02"
                      Sample.metadata with Ok i => i | Raise _ => ∅ end in
  let st := match commit ∅ init with Ok st => st | Raise _ => ∅ end in
  let runs := [ ("t1", Sample.greeting_context); ("t2", Sample.second_context);
                ("t3", []) ] in
  let st' := match turns Sample.llm runs st with
             | Ok st' => st' | Raise _ => ∅ end in
  length (messages_of st') = 8%nat /\
  st' !! "session_id" = Some (VPy (PStr "interview-local-1")) /\
  st' !! "interview_status" = Some (VPy (PStr "active")).
Proof.
  intros init st runs st'.
  destruct (commits_append_and_preserve Sample.llm runs st st')
    as (_ & _ & Hs & Hi).
  - apply res_ok_get. vm_compute. reflexivity.
  - destruct (Hi "2025-10-31 23:59:02" Sample.metadata init)
      as (Hlen & Hst & _);
      [apply res_ok_get; vm_compute; reflexivity
      |apply res_ok_get; vm_compute; reflexivity|].
    split; [exact Hlen|]. split; [|exact Hst].
    apply (Hs "session_id" (VPy (PStr "interview-local-1")));
      [in_list | vm_compute; reflexivity].
Defined.

(** ** The system prompt *)

(** Absent context resolves to defaults: without application details, or
    without a job in them, the prompt is the generic fallback; with a job
    that has none of the optional attributes, it is the English template for
    "the company". *)
Lemma system_prompt_defaults :
  system_prompt_of PNone = Ok fallback_system_prompt /\
  system_prompt_of (PDict []) = Ok fallback_system_prompt /\
  (forall d, PyV.assoc "job" d = None ->
             system_prompt_of (PDict d) = Ok fallback_system_prompt) /\
  system_prompt_of Sample.bare_job = Ok (english_template "the company").
Proof.
  split; [reflexivity|]. split; [reflexivity|]. split; [|reflexivity].
  intros d Hd. unfold system_prompt_of.
  destruct (PyV.truthy (PDict d)) eqn:E; [|now rewrite bind_ok, E].
  unfold PyV.get. rewrite Hd. reflexivity.
Qed.

(** C9 fails on the code at a job whose language is null: the default of
    [get] applies to an absent key only, [None] has no [lower], and the
    assembly raises; so does the turn, whatever its input, and so does the
    creation of the initial state of such a session. *)
Theorem system_context_raises_on_null_language :
  system_prompt_of Sample.null_language = Raise AttributeError /\
  (forall llm now,
     call_llm llm now Sample.null_language_state = Raise AttributeError /\
     forall input,
       turn llm now input Sample.null_language_state = Raise AttributeError) /\
  (forall now,
     create_initial_session_state now Sample.metadata_null_language
     = Raise AttributeError).
Proof.
  split; [reflexivity|]. split; [|reflexivity].
  intros llm now.
  assert (Hp : system_prompt_of_state Sample.null_language_state
               = Raise AttributeError) by (vm_compute; reflexivity).
  split; [unfold call_llm; now rewrite Hp|].
  intros input. unfold turn.
  destruct (commit_ok Sample.null_language_state (graph_input input)
              [HumanMessage "Start conversation"] input)
    as [st1 Hst1]; [reflexivity|apply lookup_singleton_eq|].
  rewrite Hst1, bind_ok.
  destruct (commit_input _ _ _ Hst1) as [_ Hk].
  unfold call_llm, system_prompt_of_state.
  rewrite (Hk "application_details") by discriminate.
  fold (system_prompt_of_state Sample.null_language_state).
  now rewrite Hp.
Qed.

(** * Further properties *)

(** ** Room names, again *)

(** X1: the application id for which the session fetches details
    ([entrypoint]) and the one for which the client creates the record
    ([extract_interview_id_from_room_name]) are computed alike: where the
    first is defined the second is the same id, and where it is not the
    second is the whole room name. *)
Theorem extract_agrees_with_resolve :
  forall room,
    extract_interview_id_from_room_name room
    = default room (resolve_application_id room).
Proof.
  intros room. unfold extract_interview_id_from_room_name, resolve_application_id.
  destruct (Py.startswith room "interview-"); [|reflexivity].
  destruct (5 <=? _)%nat; reflexivity.
Qed.

Lemma app_empty_r s : s +:+ EmptyString = s.
Proof. induction s as [|a s IH]; [reflexivity|]. now rewrite app_cons, IH. Qed.

Lemma join_app sep l1 l2 :
  l1 <> [] -> l2 <> [] ->
  Py.join sep (l1 ++ l2) = Py.join sep l1 +:+ sep +:+ Py.join sep l2.
Proof.
  induction l1 as [|x l1 IH]; [congruence|]. intros _ Hl2.
  destruct l1 as [|y l1].
  - destruct l2 as [|z l2]; [congruence|]. reflexivity.
  - change ((x :: y :: l1) ++ l2) with (x :: (y :: l1) ++ l2).
    change ((y :: l1) ++ l2) with (y :: l1 ++ l2) at 1.
    rewrite join_cons. change (y :: l1 ++ l2) with ((y :: l1) ++ l2).
    rewrite IH by (discriminate || assumption).
    rewrite join_cons. now rewrite !app_assoc'.
Qed.

(** X2: a resolved application id has exactly five hyphen-delimited groups,
    none of them holding a hyphen; it stands in the room name right after the
    prefix, followed by nothing or by a hyphen; and a room name made of the
    prefix, the id and any suffix resolves to the id again. *)
Theorem resolved_id_shape :
  forall room id,
    resolve_application_id room = Some id ->
    length (Py.split hyphen id) = 5%nat /\
    (exists rest,
       room = "interview-" +:+ id +:+ rest /\
       (rest = EmptyString \/ exists r, rest = "-" +:+ r)) /\
    forall suffix,
      resolve_application_id ("interview-" +:+ id +:+ "-" +:+ suffix) = Some id.
Proof.
  intros room id. unfold resolve_application_id at 1.
  remember (Py.split hyphen (Py.str_drop 10 room)) as parts eqn:Hparts.
  destruct (Py.startswith room "interview-") eqn:Hpre; [|discriminate].
  cbv zeta. destruct (5 <=? _)%nat eqn:Hlen; [|discriminate].
  apply Nat.leb_le in Hlen. intros Hid.
  assert (id = Py.join "-" (take 5 parts)) as -> by congruence. clear Hid.
  assert (Hne : take 5 parts <> []).
  { destruct parts; simpl in Hlen; [lia | discriminate]. }
  assert (Hsplit : Py.split hyphen (Py.join "-" (take 5 parts)) = take 5 parts).
  { change "-" with (String hyphen EmptyString). apply split_join; [exact Hne|].
    rewrite Hparts. apply Forall_take, split_parts_free. }
  split; [rewrite Hsplit, length_take; lia|]. split.
  - apply prefix_drop in Hpre. simpl String.length in Hpre.
    pose proof (join_split hyphen (Py.str_drop 10 room)) as Hjoin.
    rewrite <- Hparts in Hjoin. change (String hyphen EmptyString) with "-" in Hjoin.
    rewrite <- (take_drop 5 parts) in Hjoin.
    destruct (drop 5 parts) as [|x xs] eqn:Hdrop.
    + exists EmptyString. split; [|auto].
      rewrite app_nil_r in Hjoin. rewrite app_empty_r, Hjoin. exact Hpre.
    + exists ("-" +:+ Py.join "-" (x :: xs)). split; [|eauto].
      rewrite join_app in Hjoin; [|exact Hne|discriminate].
      rewrite Hjoin. exact Hpre.
  - intros suffix. apply resolve_five_groups.
    rewrite Hsplit, length_take. lia.
Qed.

Lemma resolved_id_shape_witness :
  length (Py.split hyphen "a-b-c-d-e") = 5%nat /\
  resolve_application_id "interview-a-b-c-d-e-f-g" = Some "a-b-c-d-e".
Proof.
  destruct (resolved_id_shape "interview-a-b-c-d-e" "a-b-c-d-e") as (H5 & _ & Hr).
  - reflexivity.
  - split; [exact H5|]. apply (Hr "f-g").
Defined.

(** ** The system prompt on typed details *)

Lemma raises_ok {A} (r : Res A) : raises r = false -> exists a, r = Ok a.
Proof. destruct r; [eauto | discriminate]. Qed.

Lemma get_dict d k dflt :
  PyV.get (PDict d) k dflt = Ok (default dflt (PyV.assoc k d)).
Proof. reflexivity. Qed.

Lemma subscript_truthy d k :
  PyV.truthy (default PNone (PyV.assoc k d)) = true ->
  PyV.subscript (PDict d) k = Ok (default PNone (PyV.assoc k d)).
Proof. simpl. destruct (PyV.assoc k d); [reflexivity | discriminate]. Qed.

Lemma strings_of_ok l :
  forallb is_str l = true -> exists ss, PyV.strings_of l = Ok ss.
Proof.
  induction l as [|v l IH]; simpl; [eauto|].
  intros [Hv Hl]%andb_prop. destruct v; try discriminate.
  destruct (IH Hl) as [ss ->]. eauto.
Qed.

Lemma bounded_list_part_ok d key label sep cap :
  absent_or (strings_within cap) (PyV.assoc key d) = true ->
  raises (bounded_list_part (PDict d) key label sep cap) = false.
Proof.
  intros H. unfold bounded_list_part. rewrite ?get_dict, ?bind_ok.
  destruct (PyV.truthy (default PNone (PyV.assoc key d))) eqn:Ht; [|reflexivity].
  rewrite (subscript_truthy _ _ Ht), bind_ok.
  destruct (PyV.assoc key d) as [v|]; [|discriminate]. simpl in *.
  destruct v; try reflexivity. simpl in H. unfold PyV.join.
  destruct (strings_of_ok _ H) as [ss ->]. reflexivity.
Qed.

Lemma structured_cv_parts_ok d :
  typed_analysis (PDict d) = true ->
  raises (structured_cv_parts (PDict d)) = false.
Proof.
  unfold typed_analysis.
  intros [[[[H1 H2]%andb_prop H3]%andb_prop H4]%andb_prop H5]%andb_prop.
  unfold structured_cv_parts. rewrite ?get_dict, ?bind_ok.
  assert (Hp1 : exists p1,
             (if PyV.truthy (default PNone (PyV.assoc "experience_summary" d))
              then v ← PyV.subscript (PDict d) "experience_summary";
                   Ok ["Experience Summary: " +:+ PyV.str v]
              else Ok []) = Ok p1).
  { destruct (PyV.truthy _) eqn:Ht; [|eauto].
    rewrite (subscript_truthy _ _ Ht), bind_ok. eauto. }
  destruct Hp1 as [p1 ->]. rewrite bind_ok.
  destruct (raises_ok _ (bounded_list_part_ok d "skills_matched"
                           "Matching Skills: " ", " 8 H1)) as [p2 ->].
  rewrite bind_ok.
  destruct (raises_ok _ (bounded_list_part_ok d "skills_missing"
                           "Missing Skills: " ", " 6 H2)) as [p3 ->].
  rewrite bind_ok.
  destruct (raises_ok _ (bounded_list_part_ok d "strengths"
                           "Key Strengths: " "; " 4 H3)) as [p4 ->].
  rewrite bind_ok.
  destruct (raises_ok _ (bounded_list_part_ok d "concerns"
                           "Areas of Concern: " "; " 4 H4)) as [p5 ->].
  rewrite !bind_ok.
  destruct (PyV.truthy (default PNone (PyV.assoc "recommendation" d))) eqn:Ht;
    [|reflexivity].
  rewrite (subscript_truthy _ _ Ht), bind_ok.
  destruct (PyV.assoc "recommendation" d) as [v|]; [|discriminate].
  simpl in *. rewrite Ht in H5. simpl in H5.
  destruct v; try discriminate. reflexivity.
Qed.

Lemma cv_summary_parts_ok d :
  typed_analysis
    (PyV.or_ (default PNone (PyV.assoc "cvAnalysisResults" d))
       (default PNone (PyV.assoc "cv_analysis_results" d))) = true ->
  raises (cv_summary_parts (PDict d)) = false.
Proof.
  intros H. unfold cv_summary_parts, PyV.get.
  repeat (rewrite ?bind_ok, ?or_else_ok; cbv beta).
  set (car := PyV.or_ _ _) in *.
  destruct (PyV.truthy car) eqn:Ht; [|reflexivity].
  destruct car as [| | | | |cd]; simpl; try reflexivity.
  destruct (raises_ok _ (structured_cv_parts_ok cd H)) as [p ->]. reflexivity.
Qed.

(** X3: on application details of the shape the schema gives them (each
    attribute the assembly reads is absent or of its type: the language, the
    company name and the recommendation strings, the prompt a string or null,
    the company a dictionary, and strings among the list items that the caps
    let through), the system prompt is assembled without an exception. *)
Theorem system_prompt_total_on_typed_details :
  forall application_details,
    typed_details application_details = true ->
    exists system_prompt, system_prompt_of application_details = Ok system_prompt.
Proof.
  intros ad Hty. apply raises_ok. unfold system_prompt_of.
  destruct (PyV.truthy ad) eqn:Htruthy.
  2:{ rewrite bind_ok, Htruthy. reflexivity. }
  destruct ad as [| | | | |d]; unfold typed_details in Hty;
    try (rewrite Htruthy in Hty; discriminate).
  apply andb_prop in Hty as [Hjob Hcv].
  rewrite ?get_dict, ?bind_ok.
  destruct (PyV.truthy (default PNone (PyV.assoc "job" d))) eqn:Hj; [|reflexivity].
  unfold interview_system_prompt.
  rewrite (subscript_truthy _ _ Hj), bind_ok.
  destruct (default PNone (PyV.assoc "job" d)) as [| | | | |jd];
    unfold typed_job in Hjob; try (rewrite Hj in Hjob; discriminate).
  apply andb_prop in Hjob as [[Hlang Hcomp]%andb_prop Hprompt].
  rewrite ?get_dict, ?bind_ok.
  assert (Hl : exists l, PyV.lower (default (PStr "english")
                                      (PyV.assoc "interviewLanguage" jd)) = Ok l).
  { destruct (PyV.assoc "interviewLanguage" jd) as [[]|]; simpl in *;
      try discriminate; eauto. }
  destruct Hl as [l ->]. rewrite bind_ok.
  rewrite ?get_dict, ?bind_ok.
  assert (Hn : exists n,
             PyV.get (default (PDict []) (PyV.assoc "company" jd)) "name"
               (PStr "the company") = Ok (PStr n)).
  { destruct (PyV.assoc "company" jd) as [[| | | | |cd]|]; simpl in *;
      try discriminate; [|eauto].
    destruct (PyV.assoc "name" cd) as [[]|]; simpl in *; try discriminate; eauto. }
  destruct Hn as [n ->]. rewrite bind_ok.
  destruct (raises_ok _ (cv_summary_parts_ok d Hcv)) as [parts ->].
  rewrite bind_ok. rewrite ?get_dict, ?bind_ok.
  destruct (PyV.assoc "interviewPrompt" jd) as [[| | |p| |]|]; simpl in *;
    try discriminate.
  - destruct (String.eqb l "arabic"), (Py.truthy_str (Py.join Py.nl parts));
      reflexivity.
  - destruct (Py.truthy_str p); simpl.
    + destruct (Py.truthy_str (Py.strip p)); simpl;
        destruct (String.eqb l "arabic"), (Py.truthy_str (Py.join Py.nl parts));
        reflexivity.
    + destruct (String.eqb l "arabic"), (Py.truthy_str (Py.join Py.nl parts));
        reflexivity.
  - destruct (String.eqb l "arabic"), (Py.truthy_str (Py.join Py.nl parts));
      reflexivity.
Qed.

Lemma system_prompt_total_on_typed_details_witness :
  exists system_prompt, system_prompt_of Sample.bare_job = Ok system_prompt.
Proof.
  apply system_prompt_total_on_typed_details. reflexivity.
Defined.

(** ** The caps of the CV summary *)

Lemma strings_of_fmap ss : PyV.strings_of (PStr <$> ss) = Ok ss.
Proof.
  induction ss as [|s ss IH]; [reflexivity|]. rewrite fmap_cons.
  change (PyV.strings_of (PStr s :: (PStr <$> ss)))
    with (PyV.strings_of (PStr <$> ss) ≫= fun ss0 => Ok (s :: ss0)).
  now rewrite IH.
Qed.

(** X4: a list attribute of the CV analysis is read through its cap only:
    when a list starts with at least [cap] strings, the summary line joins
    exactly the first [cap] of them, and what follows in the list, strings or
    not, neither shows nor raises.  (The caps are 8 for matched skills, 6 for
    missing skills, 4 for strengths and for concerns.) *)
Theorem capped_list_reads_first_items :
  forall d key label sep (cap : nat) ss extra,
    PyV.assoc key d = Some (PList ((PStr <$> ss) ++ extra)) ->
    (0 < cap <= length ss)%nat ->
    bounded_list_part (PDict d) key label sep cap
    = Ok [label +:+ Py.join sep (take cap ss)].
Proof.
  intros d key label sep cap ss extra Hd [Hpos Hcap].
  unfold bounded_list_part. rewrite get_dict, bind_ok, Hd. simpl default.
  assert (Ht : PyV.truthy (PList ((PStr <$> ss) ++ extra)) = true).
  { destruct ss; [simpl in Hcap; lia | reflexivity]. }
  rewrite Ht. simpl PyV.subscript. rewrite Hd, bind_ok.
  rewrite take_app_le by (rewrite length_fmap; lia).
  rewrite <- fmap_take. unfold PyV.join. rewrite strings_of_fmap. reflexivity.
Qed.

Lemma capped_list_reads_first_items_witness :
  bounded_list_part
    (PDict [("skills_matched",
             PList [PStr "a"; PStr "b"; PStr "c"; PInt 4; PNone])])
    "skills_matched" "Matching Skills: " ", " 2
  = Ok ["Matching Skills: a, b"].
Proof.
  apply (capped_list_reads_first_items _ "skills_matched" "Matching Skills: " ", "
           2 ["a"; "b"; "c"] [PInt 4; PNone]).
  - reflexivity.
  - simpl. lia.
Defined.

(** ** A turn and the keys of the schema *)

Lemma turn_delta llm now input (st st' : AssistantState) :
  turn llm now input st = Ok st' ->
  exists st1 delta,
    commit st (graph_input input) = Ok st1 /\
    call_llm llm now st1 = Ok delta /\
    write_channels delta st1 channels = Ok st'.
Proof.
  unfold turn.
  destruct (commit st (graph_input input)) as [st1|] eqn:Hin; [|discriminate].
  rewrite bind_ok.
  destruct (call_llm llm now st1) as [delta|] eqn:Hcall; [|discriminate].
  rewrite bind_ok. intros H. exists st1, delta. auto.
Qed.

Lemma call_llm_delta llm now (st delta : AssistantState) :
  call_llm llm now st = Ok delta ->
  exists message,
    delta = list_to_map
        [ ("messages", VMsgs [message]);
          ("last_updated", VDatetime now);
          ("current_question",
             default (VPy (PInt 0)) (st !! "current_question"));
          ("session_id", default (VPy (PStr "unknown")) (st !! "session_id"));
          ("participant_name",
             default (VPy PNone) (st !! "participant_name"));
          ("interview_status",
             default (VPy (PStr "active")) (st !! "interview_status"));
          ("start_time", default (VPy PNone) (st !! "start_time"));
          ("questions_asked",
             default (VPy (PList [])) (st !! "questions_asked"));
          ("responses_received",
             default (VPy (PList [])) (st !! "responses_received"));
          ("application_details",
             default (VPy PNone) (st !! "application_details"));
          ("interview_language",
             default (VPy (PStr "english")) (st !! "interview_language")) ].
Proof.
  unfold call_llm. intros H.
  destruct (system_prompt_of_state st); [|discriminate]. rewrite bind_ok in H.
  destruct (state_messages st); [|discriminate]. rewrite bind_ok in H.
  destruct (llm _) as [message|]; [|discriminate]. rewrite bind_ok in H.
  injection H as <-. eauto.
Qed.

(** The value stored for a scalar key of the schema after a turn. *)
Ltac stored_scalar Hw k :=
  let H := fresh "H" in
  pose proof (write_channels_same _ channels _ _ k channels_NoDup Hw
                ltac:(in_list)) as H;
  simpl in H;
  rewrite ?lookup_insert_eq in H;
  rewrite ?lookup_insert_ne, ?lookup_insert_eq in H by discriminate;
  simpl in H; exact H.

(** X5: after a committed turn every key of the schema is stored, the keys
    outside it are as before, [last_updated] is the time of the turn, and a
    scalar key that was absent before holds the default of [call_llm]:
    session id "unknown", status "active", question 0, language "english",
    no questions asked, no responses received. *)
Theorem turn_fills_schema :
  forall (llm : list BaseMessage -> Res BaseMessage) (now : string)
         (input : list BaseMessage) (st st' : AssistantState),
    turn llm now input st = Ok st' ->
    (forall k, k ∈ channels -> is_Some (st' !! k)) /\
    (forall k, k ∉ channels -> st' !! k = st !! k) /\
    st' !! "last_updated" = Some (VDatetime now) /\
    st' !! "session_id"
      = Some (default (VPy (PStr "unknown")) (st !! "session_id")) /\
    st' !! "interview_status"
      = Some (default (VPy (PStr "active")) (st !! "interview_status")) /\
    st' !! "current_question"
      = Some (default (VPy (PInt 0)) (st !! "current_question")) /\
    st' !! "interview_language"
      = Some (default (VPy (PStr "english")) (st !! "interview_language")) /\
    st' !! "questions_asked"
      = Some (default (VPy (PList [])) (st !! "questions_asked")) /\
    st' !! "responses_received"
      = Some (default (VPy (PList [])) (st !! "responses_received")).
Proof.
  intros llm now input st st' H.
  destruct (turn_delta _ _ _ _ _ H) as (st1 & delta & Hin & Hcall & Hw).
  destruct (call_llm_delta _ _ _ _ Hcall) as (message & ->).
  destruct (commit_input _ _ _ Hin) as [_ Hk1].
  rewrite <- (Hk1 "session_id"), <- (Hk1 "interview_status"),
    <- (Hk1 "current_question"), <- (Hk1 "interview_language"),
    <- (Hk1 "questions_asked"), <- (Hk1 "responses_received") by discriminate.
  assert (Hout : forall k, k ∉ channels -> st1 !! k = st !! k).
  { intros k Hk. apply Hk1. intros ->. apply Hk. in_list. }
  assert (Hlast : st' !! "last_updated" = Some (VDatetime now))
    by stored_scalar Hw "last_updated".
  assert (Hsid : st' !! "session_id"
                 = Some (default (VPy (PStr "unknown")) (st1 !! "session_id")))
    by stored_scalar Hw "session_id".
  assert (Hstat : st' !! "interview_status"
                  = Some (default (VPy (PStr "active")) (st1 !! "interview_status")))
    by stored_scalar Hw "interview_status".
  assert (Hq : st' !! "current_question"
               = Some (default (VPy (PInt 0)) (st1 !! "current_question")))
    by stored_scalar Hw "current_question".
  assert (Hlang : st' !! "interview_language"
                  = Some (default (VPy (PStr "english")) (st1 !! "interview_language")))
    by stored_scalar Hw "interview_language".
  assert (Hqa : st' !! "questions_asked"
                = Some (default (VPy (PList [])) (st1 !! "questions_asked")))
    by stored_scalar Hw "questions_asked".
  assert (Hrr : st' !! "responses_received"
                = Some (default (VPy (PList [])) (st1 !! "responses_received")))
    by stored_scalar Hw "responses_received".
  assert (Hpn : st' !! "participant_name"
                = Some (default (VPy PNone) (st1 !! "participant_name")))
    by stored_scalar Hw "participant_name".
  assert (Hstart : st' !! "start_time"
                   = Some (default (VPy PNone) (st1 !! "start_time")))
    by stored_scalar Hw "start_time".
  assert (Had : st' !! "application_details"
                = Some (default (VPy PNone) (st1 !! "application_details")))
    by stored_scalar Hw "application_details".
  split.
  { intros k Hk. unfold channels in Hk.
    apply elem_of_cons in Hk as [->|Hk].
    { pose proof (write_channels_same _ channels _ _ "messages" channels_NoDup
                    Hw ltac:(in_list)) as Hm.
      simpl in Hm. rewrite lookup_insert_eq in Hm. simpl in Hm.
      destruct Hm as (r & _ & ->). eauto. }
    repeat (apply elem_of_cons in Hk as [->|Hk]; [eauto|]).
    inversion Hk. }
  split.
  { intros k Hk. rewrite <- (Hout k Hk). eapply write_channels_other; eassumption. }
  repeat split; assumption.
Qed.

Lemma turn_fills_schema_witness :
  let st : AssistantState := {[ "messages" := VMsgs [HumanMessage "Hi"] ]} in
  let st' := match turn Sample.llm "t1" Sample.greeting_context st with
             | Ok st' => st' | Raise _ => ∅ end in
  st' !! "last_updated" = Some (VDatetime "t1") /\
  st' !! "session_id" = Some (VPy (PStr "unknown")) /\
  st' !! "interview_status" = Some (VPy (PStr "active")).
Proof.
  intros st st'.
  destruct (turn_fills_schema Sample.llm "t1" Sample.greeting_context st st')
    as (_ & _ & Hl & Hs & Ha & _).
  - apply res_ok_get. vm_compute. reflexivity.
  - split; [exact Hl|]. split; [exact Hs | exact Ha].
Defined.

(** ** White space *)

Lemma space_len_head a s :
  Py.space_len (String a s) = 0%nat -> Py.is_space a = false.
Proof. simpl. destruct (Py.is_space a); [discriminate|reflexivity]. Qed.

Lemma space_len_bound s :
  (Py.space_len s <= 3 /\ Py.space_len s <= String.length s)%nat.
Proof.
  destruct s as [|a [|b [|c s]]]; simpl;
    repeat match goal with |- context [if ?x then _ else _] => destruct x end;
    lia.
Qed.

Lemma space_len_reversed_bound s :
  (Py.space_len_reversed s <= 3
   /\ Py.space_len_reversed s <= String.length s)%nat.
Proof.
  destruct s as [|a [|b [|c s]]]; simpl;
    repeat match goal with |- context [if ?x then _ else _] => destruct x end;
    lia.
Qed.

(** A white-space character at the front stays one when the string goes
    on. *)
Lemma space_len_app u v :
  Py.space_len u <> 0%nat -> Py.space_len (u +:+ v) = Py.space_len u.
Proof.
  destruct u as [|a [|b [|c u]]]; rewrite ?app_cons, ?app_empty_l; simpl;
    [congruence| | |].
  - destruct (Py.is_space a); [reflexivity|congruence].
  - destruct (Py.is_space a); [reflexivity|].
    destruct (Py.is_space2 a b); [reflexivity|congruence].
  - reflexivity.
Qed.

Section DropSpaces.

Variable len : string -> nat.
Hypothesis len_bound : forall s, (len s <= 3 /\ len s <= String.length s)%nat.

Lemma drop_spaces_eq s :
  Py.drop_spaces len s
  = match len s with
    | O => s
    | S _ => Py.drop_spaces len (Py.str_drop (len s) s)
    end.
Proof.
  destruct (len_bound s) as [H3 Hl].
  destruct s as [|a s]; simpl in *.
  - destruct (len EmptyString); [reflexivity|lia].
  - destruct (len (String a s)) as [|[|[|[|k]]]] eqn:E; try reflexivity; try lia.
    + destruct s as [|b s]; simpl in *; [lia|reflexivity].
    + destruct s as [|b [|c s]]; simpl in *; try lia. reflexivity.
Qed.

Lemma drop_spaces_cases n : forall s,
  (String.length s <= n)%nat ->
  len (Py.drop_spaces len s) = 0%nat /\
  exists p, s = p +:+ Py.drop_spaces len s.
Proof.
  induction n as [|n IH]; intros s Hn.
  - destruct s; [|simpl in Hn; lia]. rewrite drop_spaces_eq.
    destruct (len_bound EmptyString) as [_ H0]. simpl in H0.
    destruct (len EmptyString) eqn:E; [|lia].
    split; [exact E|]. exists EmptyString. reflexivity.
  - rewrite drop_spaces_eq. destruct (len s) as [|k] eqn:E.
    + split; [exact E|]. exists EmptyString. reflexivity.
    + destruct (len_bound s) as [_ Hl]. rewrite E in Hl.
      assert (Hsplit : s = Py.str_take (S k) s +:+ Py.str_drop (S k) s).
      { clear. revert s. induction (S k) as [|j IHj]; intros s; [reflexivity|].
        destruct s as [|a s]; [reflexivity|]. simpl.
        now rewrite app_cons, <- IHj. }
      assert (Hlen : (String.length (Py.str_drop (S k) s) <= n)%nat).
      { assert (Hd : forall j t, (j <= String.length t)%nat ->
                       String.length (Py.str_drop j t) = (String.length t - j)%nat).
        { clear. induction j as [|j IHj]; intros t Hj; [simpl; lia|].
          destruct t as [|a t]; simpl in *; [lia|]. apply IHj. lia. }
        rewrite Hd by lia. lia. }
      destruct (IH _ Hlen) as (H0 & p & Hp). split; [exact H0|].
      exists (Py.str_take (S k) s +:+ p).
      rewrite app_assoc', <- Hp. exact Hsplit.
Qed.

Lemma drop_spaces_fixed s : len (Py.drop_spaces len s) = 0%nat.
Proof. apply (drop_spaces_cases (String.length s) s). lia. Qed.

Lemma drop_spaces_suffix s : exists p, s = p +:+ Py.drop_spaces len s.
Proof. apply (drop_spaces_cases (String.length s) s). lia. Qed.

Lemma drop_spaces_none s : len s = 0%nat -> Py.drop_spaces len s = s.
Proof. intros H. now rewrite drop_spaces_eq, H. Qed.

Lemma drop_spaces_idempotent s :
  Py.drop_spaces len (Py.drop_spaces len s) = Py.drop_spaces len s.
Proof. apply drop_spaces_none, drop_spaces_fixed. Qed.

End DropSpaces.

Lemma lstrip_fixed s : Py.space_len (Py.lstrip s) = 0%nat.
Proof. apply drop_spaces_fixed, space_len_bound. Qed.

(** What is left of a string stripped on the left starts with no white
    space. *)
Lemma lstrip_head s :
  Py.lstrip s = EmptyString \/
  exists a t, Py.lstrip s = String a t /\ Py.space_len (String a t) = 0%nat.
Proof.
  pose proof (lstrip_fixed s) as H.
  destruct (Py.lstrip s) as [|a t]; [auto|eauto].
Qed.

Lemma take_word_free t : Py.free_of " "%char (Py.take_word t) = true.
Proof.
  induction t as [|a t IH]; [reflexivity|].
  change (Py.take_word (String a t))
    with (match Py.space_len (String a t) with
          | O => String a (Py.take_word t)
          | S _ => EmptyString
          end).
  destruct (Py.space_len (String a t)) eqn:E; [|reflexivity].
  apply space_len_head in E. simpl. rewrite IH, andb_true_r.
  destruct (Ascii.eqb a " ") eqn:Ea; [|reflexivity].
  apply Ascii.eqb_eq in Ea. subst a. discriminate.
Qed.

Lemma first_word_nonempty s w : Py.first_word s = Some w -> w <> EmptyString.
Proof.
  unfold Py.first_word.
  destruct (lstrip_head s) as [->|(a & t & -> & Ha)]; [discriminate|].
  intros [= <-].
  change (match Py.space_len (String a t) with
          | O => String a (Py.take_word t)
          | S _ => EmptyString
          end <> EmptyString).
  rewrite Ha. discriminate.
Qed.

(** White space outside ASCII goes as Python has it: a no-break space
    (U+00A0), an em space (U+2003) and an ideographic space (U+3000) are
    stripped and split on like a blank, and a text of such characters only
    is blank to the transcript handler. *)
Lemma unicode_white_space :
  Py.strip "  Bye　 " = "Bye" /\
  blank (Some " ") = true /\
  blank (Some " .") = false /\
  Py.first_word " Jane Doe" = Some "Jane" /\
  Str.words "Jane Doe " = ["Jane"; "Doe"].
Proof. vm_compute. repeat split; reflexivity. Qed.

(** ** The greeting *)

(** The name that [proactive_instruction] greets. *)
Lemma proactive_instruction_ok (m : SessionMetadata) instructions :
  proactive_instruction m = Ok instructions ->
  exists name language,
    language_of (SessionManager.application_details m) = Ok language /\
    instructions
    = (if String.eqb language "arabic"
       then "قل مرحباً بسيطاً: 'مرحباً " +:+ name +:+ "'"
       else "Say a simple hello: 'Hello " +:+ name +:+ "'") /\
    (let given :=
       match SessionManager.participant_name m with
       | Some n => if Py.truthy_str n then n else "there"
       | None => "there"
       end in
     if negb (String.eqb given "there") && negb (Py.free_of " "%char given)
     then Py.first_word given = Some name
     else name = given).
Proof.
  unfold proactive_instruction.
  set (given := match SessionManager.participant_name m with
                | Some n => if Py.truthy_str n then n else "there"
                | None => "there"
                end).
  destruct (negb (String.eqb given "there") && negb (Py.free_of " "%char given)).
  - destruct (Py.first_word given) as [w|]; [|discriminate].
    rewrite bind_ok. destruct (language_of _) as [l|]; [|discriminate].
    rewrite bind_ok. intros H. exists w, l. split; [reflexivity|].
    split; [|reflexivity]. destruct (String.eqb l "arabic"); congruence.
  - rewrite bind_ok. destruct (language_of _) as [l|]; [|discriminate].
    rewrite bind_ok. intros H. exists given, l. split; [reflexivity|].
    split; [|reflexivity]. destruct (String.eqb l "arabic"); congruence.
Qed.

(** X6: the proactive greeting names the participant by one word: the name
    greeted is never empty and never holds a space; it is "there" when the
    participant has no name or an empty one, the name itself when it has no
    space, and its first word otherwise; the sentence is the Arabic one
    exactly when the language of the job is Arabic. *)
Theorem greeting_names_one_word :
  forall (m : SessionMetadata) instructions,
    proactive_instruction m = Ok instructions ->
    exists name language,
      language_of (SessionManager.application_details m) = Ok language /\
      instructions
      = (if String.eqb language "arabic"
         then "قل مرحباً بسيطاً: 'مرحباً " +:+ name +:+ "'"
         else "Say a simple hello: 'Hello " +:+ name +:+ "'") /\
      name <> EmptyString /\
      Py.free_of " "%char name = true /\
      (Py.truthy_opt (SessionManager.participant_name m) = false ->
       name = "there") /\
      (forall n, SessionManager.participant_name m = Some n ->
                 n <> EmptyString -> Py.free_of " "%char n = true -> name = n) /\
      (forall n, SessionManager.participant_name m = Some n ->
                 Py.free_of " "%char n = false ->
                 Py.first_word n = Some name).
Proof.
  intros m instructions H.
  destruct (proactive_instruction_ok m instructions H)
    as (name & language & Hl & Hi & Hn).
  exists name, language. split; [exact Hl|]. split; [exact Hi|].
  cbv zeta in Hn.
  destruct (SessionManager.participant_name m) as [n|] eqn:Hp.
  - destruct (Py.truthy_str n) eqn:Htn.
    + destruct (String.eqb n "there") eqn:Hthere.
      * apply String.eqb_eq in Hthere. subst n. simpl in Hn. subst name.
        repeat split; try discriminate; try reflexivity.
        -- intros n [= <-] _ _. reflexivity.
        -- intros n [= <-]. discriminate.
      * simpl in Hn. destruct (Py.free_of " "%char n) eqn:Hfree; simpl in Hn.
        -- subst name. repeat split; try assumption.
           ++ destruct n; discriminate.
           ++ simpl. rewrite Htn. discriminate.
           ++ intros n' [= <-] _ _. reflexivity.
           ++ intros n' [= <-]. congruence.
        -- assert (Hfw : Py.first_word n = Some name) by exact Hn.
           repeat split.
           ++ eapply first_word_nonempty; eassumption.
           ++ unfold Py.first_word in Hn.
              destruct (Py.lstrip n) as [|a t]; [discriminate|].
              injection Hn as <-. apply (take_word_free (String a t)).
           ++ simpl. rewrite Htn. discriminate.
           ++ intros n' [= <-] _ Hf. congruence.
           ++ intros n' [= <-] _. exact Hfw.
    + destruct n; [|discriminate]. simpl in Hn. subst name.
      repeat split; try discriminate; try reflexivity.
      * intros n [= <-] Hne. congruence.
      * intros n [= <-]. discriminate.
  - simpl in Hn. subst name.
    repeat split; try discriminate; reflexivity.
Qed.

Lemma greeting_names_one_word_witness :
  exists name language,
    language_of (SessionManager.application_details Sample.metadata) = Ok language /\
    proactive_instruction Sample.metadata
    = Ok (if String.eqb language "arabic"
          then "قل مرحباً بسيطاً: 'مرحباً " +:+ name +:+ "'"
          else "Say a simple hello: 'Hello " +:+ name +:+ "'") /\
    Py.first_word "Jane Doe" = Some name.
Proof.
  destruct (greeting_names_one_word Sample.metadata
              "Say a simple hello: 'Hello Jane'")
    as (name & language & Hl & Hi & _ & _ & _ & _ & Hw).
  - reflexivity.
  - exists name, language. split; [exact Hl|]. split.
    + rewrite <- Hi. reflexivity.
    + apply Hw; reflexivity.
Defined.

(** X7: a participant name made of whitespace only, with a space in it,
    stops the session at its start: the first word of the name is asked for,
    there is none, and [entrypoint] raises. *)
Theorem blank_name_stops_entrypoint :
  forall (G : Type) (execute : Request -> G -> option Data * G)
         (c : JobContext) (sur : Surroundings) (w : @World G) n,
    SessionManager.participant_name
      (get_or_create_session sur (ctx_room_name c)
         (resolve_application_id (ctx_room_name c))).2 = Some n ->
    Py.lstrip n = EmptyString ->
    Py.free_of " "%char n = false ->
    raises (proactive_instruction
              (get_or_create_session sur (ctx_room_name c)
                 (resolve_application_id (ctx_room_name c))).2) = true /\
    raises (entrypoint execute c sur w).1 = true.
Proof.
  intros G execute c sur w n Hn Hblank Hspace.
  set (m := (get_or_create_session sur _ _).2) in *.
  assert (Hp : raises (proactive_instruction m) = true).
  { unfold proactive_instruction. rewrite Hn.
    destruct n as [|a n']; [discriminate|]. simpl Py.truthy_str. cbv iota.
    assert (Hthere : String.eqb (String a n') "there" = false).
    { destruct (String.eqb (String a n') "there") eqn:E; [|reflexivity].
      apply String.eqb_eq in E. rewrite E in Hblank. discriminate. }
    rewrite Hthere, Hspace. simpl negb. simpl andb.
    unfold Py.first_word. rewrite Hblank. reflexivity. }
  split; [exact Hp|].
  rewrite (entrypoint_raises execute c sur w). fold m. rewrite Hp.
  apply orb_true_r.
Qed.

Lemma blank_name_stops_entrypoint_witness :
  let blank_named : SessionMetadata :=
    {| SessionManager.session_id := "s";
       SessionManager.user_id := None;
       SessionManager.start_time := "t";
       SessionManager.current_question := 0;
       SessionManager.interview_status := "active";
       SessionManager.participant_name := Some " ";
       SessionManager.room_id := None;
       SessionManager.application_details := PNone |} in
  let sur := {| env_access_key_id := Some "id";
                env_secret_access_key := Some "secret";
                env_livekit_url := Some "wss://livekit.example";
                env_livekit_api_key := Some "key";
                env_livekit_api_secret := Some "secret";
                env_region := None; env_bucket := None;
                get_or_create_session := fun _ _ => ("s", blank_named);
                now_stamp := "t"; capture_stamp := "t"; capture := NoAnswer;
                state_now := "t"; checkpoint_ok := true |} in
  raises (entrypoint RecordBackend.execute Sample.job_ctx sur
            (Sample.world RecordBackend.empty)).1 = true.
Proof.
  intros blank_named sur.
  apply (blank_name_stops_entrypoint _ RecordBackend.execute Sample.job_ctx sur
           (Sample.world RecordBackend.empty) " "); reflexivity.
Defined.

(** ** The entries of the transcript *)

Lemma reverse_involutive s : Py.reverse (Py.reverse s) = s.
Proof.
  unfold Py.reverse.
  now rewrite list_ascii_of_string_of_list_ascii, rev_involutive,
    string_of_list_ascii_of_string.
Qed.

Lemma list_ascii_of_string_app s t :
  list_ascii_of_string (s +:+ t)
  = list_ascii_of_string s ++ list_ascii_of_string t.
Proof.
  induction s as [|a s IH]; [reflexivity|]. rewrite app_cons. simpl.
  now rewrite IH.
Qed.

Lemma string_of_list_ascii_app l k :
  string_of_list_ascii (l ++ k)
  = string_of_list_ascii l +:+ string_of_list_ascii k.
Proof.
  induction l as [|a l IH]; [reflexivity|]. simpl. now rewrite IH, app_cons.
Qed.

Lemma reverse_app s t :
  Py.reverse (s +:+ t) = Py.reverse t +:+ Py.reverse s.
Proof.
  unfold Py.reverse.
  now rewrite list_ascii_of_string_app, rev_app_distr, string_of_list_ascii_app.
Qed.

Lemma rstrip_idempotent s : Py.rstrip (Py.rstrip s) = Py.rstrip s.
Proof.
  unfold Py.rstrip. rewrite reverse_involutive.
  now rewrite (drop_spaces_idempotent _ space_len_reversed_bound).
Qed.

(** What [rstrip] leaves is the front of the string. *)
Lemma rstrip_prefix s : exists q, s = Py.rstrip s +:+ q.
Proof.
  destruct (drop_spaces_suffix _ space_len_reversed_bound (Py.reverse s))
    as [p Hp].
  exists (Py.reverse p). unfold Py.rstrip. rewrite <- reverse_app, <- Hp.
  now rewrite reverse_involutive.
Qed.

Lemma strip_idempotent s : Py.strip (Py.strip s) = Py.strip s.
Proof.
  unfold Py.strip.
  assert (Hl : Py.lstrip (Py.rstrip (Py.lstrip s)) = Py.rstrip (Py.lstrip s)).
  { apply (drop_spaces_none _ space_len_bound).
    destruct (rstrip_prefix (Py.lstrip s)) as [q Hq].
    destruct (Py.space_len (Py.rstrip (Py.lstrip s))) as [|k] eqn:E;
      [reflexivity|].
    pose proof (lstrip_fixed s) as H0. rewrite Hq in H0.
    rewrite space_len_app in H0 by (rewrite E; discriminate).
    congruence. }
  rewrite Hl. apply rstrip_idempotent.
Qed.

Lemma str_drop_app s t : Py.str_drop (String.length s) (s +:+ t) = t.
Proof. induction s as [|a s IH]; [reflexivity|]. rewrite app_cons. exact IH. Qed.

Lemma length_app_string s t :
  String.length (s +:+ t) = (String.length s + String.length t)%nat.
Proof.
  induction s as [|a s IH]; [reflexivity|]. rewrite app_cons. simpl.
  now rewrite IH.
Qed.

Lemma endswith_app s t : Str.endswith (s +:+ t) t = true.
Proof.
  unfold Str.endswith. rewrite length_app_string.
  replace (String.length s + String.length t - String.length t)%nat
    with (String.length s) by lia.
  rewrite str_drop_app, String.eqb_refl, andb_true_r.
  apply Nat.leb_le. lia.
Qed.

Lemma transcript_entries_app t1 t2 :
  transcript_entries (t1 ++ t2) = transcript_entries t1 ++ transcript_entries t2.
Proof.
  induction t1 as [|e t1 IH]; [reflexivity|]. simpl.
  destruct e as [[]| | | | |]; simpl; now rewrite ?IH.
Qed.

Lemma completion_requests_app t1 t2 :
  completion_requests (t1 ++ t2)
  = completion_requests t1 ++ completion_requests t2.
Proof.
  induction t1 as [|e t1 IH]; [reflexivity|]. simpl.
  destruct e as [[]| | | | |]; simpl; now rewrite ?IH.
Qed.

Section TranscriptFacts.

Context {G : Type}.
Variable execute : Request -> G -> option Data * G.
Implicit Types (w : @World G) (s : Session) (sw : Session * @World G).

Lemma transcript_request_well_formed item timestamp s :
  linked s = true -> blank (text_content item) = false ->
  well_formed_entry (transcript_request item timestamp s).
Proof.
  unfold linked, blank, transcript_request, well_formed_entry.
  intros Hl Hb. apply orb_false_iff in Hb as [_ Hb].
  split; [|split; [|split; [|split]]].
  - destruct (interview_id s) as [[|a i]|]; simpl in *; discriminate.
  - intros E. rewrite E in Hb. discriminate.
  - apply strip_idempotent.
  - destruct (String.eqb (role item) "assistant"); auto.
  - apply endswith_app.
Qed.

Lemma step_entries sw e :
  let sw' := step execute sw e in
  transcript_entries (trace sw'.2) = transcript_entries (trace sw.2) \/
  exists item timestamp,
    linked sw.1 = true /\ blank (text_content item) = false /\
    transcript_entries (trace sw'.2)
    = transcript_entries (trace sw.2) ++ [transcript_request item timestamp sw.1].
Proof.
  destruct sw as [s w], e as [item ts|i|b|llm now input ack]; simpl.
  - unfold async_handler.
    destruct (negb (Py.truthy_opt (interview_id s))) eqn:Hl; simpl; [auto|].
    destruct (blank (text_content item)) eqn:Hb; simpl; [auto|].
    right. exists item, ts. apply negb_false_iff in Hl.
    rewrite transcript_entries_app. auto.
  - unfold async_handler_resume. destruct (in_flight s !! i); [|auto].
    destruct (execute _ _). auto.
  - left. rewrite cleanup_trace, !transcript_entries_app.
    destruct (linked s), (Py.truthy_str (video_url_to_save s)); simpl;
      now rewrite app_nil_r.
  - left. destruct (graph_run_trace llm now input ack (thread_id s) w)
      as (_ & [->|(b & ->)]); [reflexivity|].
    rewrite transcript_entries_app. apply app_nil_r.
Qed.

End TranscriptFacts.

(** X8: every transcript entry that a session requests, whatever happens to
    it, is for a non-empty record id, has a non-empty content without leading
    or trailing whitespace, is attributed to AI or CANDIDATE (never SYSTEM),
    and has a timestamp that ends in Z. *)
Theorem transcript_entries_well_formed :
  forall (G : Type) (execute : Request -> G -> option Data * G)
         (steps : list Step) (s : Session) (w : @World G),
    Forall well_formed_entry (transcript_entries (trace w)) ->
    Forall well_formed_entry
      (transcript_entries (trace (run execute steps (s, w)).2)).
Proof.
  intros G execute steps. induction steps as [|e steps IH]; intros s w H;
    [exact H|].
  simpl. destruct (step execute (s, w) e) as [s1 w1] eqn:E.
  apply IH.
  pose proof (step_entries execute (s, w) e) as Hs. rewrite E in Hs.
  simpl in Hs. destruct Hs as [->|(item & ts & Hl & Hb & ->)]; [exact H|].
  apply Forall_app. split; [exact H|]. constructor; [|constructor].
  now apply transcript_request_well_formed.
Qed.

Lemma transcript_entries_well_formed_witness :
  Forall well_formed_entry
    (transcript_entries
       (trace (run RecordBackend.execute
                 [ ItemAdded (Sample.assistant "  Welcome, Jane.  ") "2025-10-31T23:59:10";
                   ItemAdded (Sample.user "   ") "2025-10-31T23:59:12";
                   ItemAdded {| role := "system"; text_content := Some "note" |}
                     "2025-10-31T23:59:13";
                   Shutdown true ]
                 (Sample.linked_session, Sample.world RecordBackend.empty)).2)).
Proof.
  apply transcript_entries_well_formed. constructor.
Defined.

(** X9: a teardown sends the completion notice only for a record that the
    session held when the teardown began: a linked session gets one notice,
    for its own record id; an unlinked one gets none, also when the backup
    save of this very teardown links it; and the teardown always ends by
    releasing the recording manager, whose recording state is reset. *)
Theorem teardown_completion_notice :
  forall (G : Type) (execute : Request -> G -> option Data * G)
         (b : bool) (s : Session) (w : @World G),
    let r := cleanup execute b s w in
    completion_requests (trace r.2)
    = completion_requests (trace w)
      ++ (if linked s then [default EmptyString (interview_id s)] else []) /\
    last (trace r.2) = Some ManagerCleanup /\
    recording_id (recording_manager r.1) = None /\
    recording_url (recording_manager r.1) = None.
Proof.
  intros G execute b s w r. subst r. split; [|split].
  - rewrite cleanup_trace, !completion_requests_app.
    destruct (linked s), (Py.truthy_str (video_url_to_save s)); simpl;
      now rewrite ?app_nil_r.
  - rewrite cleanup_trace, !app_assoc. apply last_snoc.
  - unfold cleanup. destruct (if _ && _ then _ else _) as [i w2].
    split; reflexivity.
Qed.

(** ** The initial state in the checkpointer *)

Section CheckpointFacts.

Context {G : Type}.
Variable execute : Request -> G -> option Data * G.
Implicit Types (w : @World G) (s : Session).

Lemma setup_recording_checkpoints (c : JobContext) (sur : Surroundings)
    session_id w :
  checkpoints (setup_recording c sur session_id w).2 = checkpoints w.
Proof.
  unfold setup_recording.
  assert (Hs : forall egress,
             checkpoints (start_recording
                            (new_recording_manager c (env_region sur) (env_bucket sur))
                            egress (capture_stamp sur) (Some (ctx_room_name c))
                            (Some session_id) w).2 = checkpoints w).
  { intros egress. unfold start_recording. simpl.
    destruct (negb (Py.truthy_str (ctx_room_name c))) eqn:Hr.
    - apply negb_true_iff in Hr. now rewrite Hr.
    - apply negb_false_iff in Hr. rewrite Hr. destruct egress; reflexivity. }
  destruct (capture sur) as [egress_id|e|].
  - specialize (Hs (Ok egress_id)).
    destruct (start_recording _ _ _ _ _ w) as [[r m] w1]. simpl in *.
    destruct (Py.truthy_opt r); exact Hs.
  - specialize (Hs (Raise e)).
    destruct (start_recording _ _ _ _ _ w) as [[r m] w1]. simpl in *.
    destruct (Py.truthy_opt r); exact Hs.
  - specialize (Hs (Raise TimeoutError)).
    destruct (start_recording _ _ _ _ _ w) as [[r m] w1]. exact Hs.
Qed.

(** What an acknowledged [entrypoint] leaves in the checkpointer. *)
Lemma entrypoint_checkpoints (c : JobContext) (sur : Surroundings) w s w' :
  entrypoint execute c sur w = (Ok s, w') ->
  checkpoint_ok sur = true ->
  exists init,
    create_initial_session_state (state_now sur) (session_metadata s) = Ok init /\
    match commit (default ∅ (checkpoints w !! thread_id s)) init with
    | Ok st => checkpoints w' = <[thread_id s := st]> (checkpoints w)
    | Raise _ => checkpoints w' = checkpoints w
    end.
Proof.
  unfold entrypoint. intros H Hack.
  destruct (get_or_create_session sur _ _) as [sid m].
  destruct (recording_configuration sur) as [[]|e]; [|discriminate].
  pose proof (setup_recording_truthy c sur sid w) as Htruthy.
  pose proof (setup_recording_checkpoints c sur sid w) as Hcp1.
  destruct (setup_recording c sur sid w) as [[url mgr] w1]. simpl in *.
  rewrite Htruthy in H.
  pose proof (save_video_to_backend_sends execute (ctx_room_name c) (ctx_job_id c)
                url (env_region sur) (env_bucket sur) w1 Htruthy)
    as (_ & _ & Hcp2 & _).
  destruct (save_video_to_backend execute _ _ _ _ _ w1) as [iid w2]. simpl in *.
  destruct (create_initial_session_state _ _) as [initial|e] eqn:Hinit;
    [|discriminate].
  destruct (proactive_instruction _) as [instructions|e]; [|discriminate].
  injection H as <- <-. exists initial. split; [exact Hinit|].
  cbn [thread_id]. change (checkpoints (emit ?e ?x)) with (checkpoints x).
  change (checkpoints (emit ?e ?x)) with (checkpoints x).
  unfold aupdate_state. rewrite Hack, Hcp2, Hcp1.
  destruct (commit _ initial); [reflexivity|].
  change (checkpoints (emit ?e ?x)) with (checkpoints x). congruence.
Qed.

End CheckpointFacts.

(** X10: when the checkpointer acknowledges and the thread is new, a session
    that starts leaves exactly one stored state behind: it is stored under the
    thread id of the session, its [session_id] field is that same thread id,
    its only message is the trigger of the opening, and the states of all
    other threads are as they were. *)
Theorem entrypoint_stores_initial_state :
  forall (G : Type) (execute : Request -> G -> option Data * G)
         (c : JobContext) (sur : Surroundings) (w w' : @World G) (s : Session),
    entrypoint execute c sur w = (Ok s, w') ->
    checkpoint_ok sur = true ->
    checkpoints w !! thread_id s = None ->
    (exists st,
       checkpoints w' !! thread_id s = Some st /\
       st !! "session_id" = Some (VPy (PStr (thread_id s))) /\
       messages_of st = [HumanMessage "Start conversation"] /\
       st !! "interview_status" = Some (VPy (PStr "active"))) /\
    forall t, t <> thread_id s -> checkpoints w' !! t = checkpoints w !! t.
Proof.
  intros G execute c sur w w' s H Hack Hnew.
  destruct (entrypoint_checkpoints execute c sur w s w' H Hack)
    as (init & Hinit & Hcommit).
  pose proof (entrypoint_ok execute c sur w s w' H)
    as (_ & _ & _ & _ & _ & _ & _ & _ & Hsid & _).
  rewrite Hnew in Hcommit. simpl in Hcommit.
  assert (Hmsg : init !! "messages" = Some (VMsgs [HumanMessage "Start conversation"])
                 /\ init !! "session_id" = Some (VPy (PStr (thread_id s)))).
  { unfold create_initial_session_state in Hinit.
    destruct (language_of _); [|discriminate]. rewrite bind_ok in Hinit.
    destruct (if PyV.truthy _ then _ else _); [|discriminate].
    rewrite bind_ok in Hinit. injection Hinit as <-.
    split; [reflexivity|]. simpl.
    rewrite lookup_insert_ne, lookup_insert_eq by discriminate.
    now rewrite Hsid. }
  destruct Hmsg as [Hm Hs].
  destruct (commit_ok ∅ init [] _ ltac:(now rewrite lookup_empty) Hm) as [st Hst].
  rewrite Hst in Hcommit. split.
  - exists st. split; [rewrite Hcommit; apply lookup_insert_eq|].
    destruct (initial_state_committed _ _ _ _ Hinit Hst) as (Hmessages & Hstatus & _).
    split; [|auto].
    pose proof (write_channels_same init channels ∅ st "session_id"
                  channels_NoDup Hst ltac:(in_list)) as Hw.
    rewrite Hs in Hw. exact Hw.
  - intros t Ht. rewrite Hcommit. now apply lookup_insert_ne.
Qed.

Lemma entrypoint_stores_initial_state_witness :
  let r := entrypoint RecordBackend.execute Sample.job_ctx (Sample.sur NoAnswer true)
             (Sample.world RecordBackend.empty) in
  exists st,
    checkpoints r.2 !! "rec-1" = Some st /\
    st !! "session_id" = Some (VPy (PStr "rec-1")).
Proof.
  intros r.
  destruct (entrypoint_stores_initial_state _ RecordBackend.execute Sample.job_ctx
              (Sample.sur NoAnswer true) (Sample.world RecordBackend.empty) r.2
              (match r.1 with Ok s => s | Raise _ => Sample.unlinked end))
    as ((st & Hst & Hsid & _) & _).
  - reflexivity.
  - reflexivity.
  - reflexivity.
  - exists st. split; assumption.
Defined.

(** ** The URL of the recording *)

(** X11: the URL that [entrypoint] generates before the capture attempt is
    the URL of the capture itself when the two readings of the clock agree
    to the second: for a non-empty session id, recording setup then ends with
    the generated URL whatever the capture attempt does. *)
Theorem generated_url_predicts_capture_url :
  forall (G : Type) (c : JobContext) (sur : Surroundings) (session_id : string)
         (w : @World G),
    capture_stamp sur = now_stamp sur ->
    Py.truthy_str session_id = true ->
    (setup_recording c sur session_id w).1.1 = fallback_url sur session_id.
Proof.
  intros G c sur session_id w Hstamp Hsid.
  destruct (capture sur) as [egress_id|e|] eqn:Hc.
  - destruct (Py.truthy_str (ctx_room_name c)) eqn:Hroom.
    + rewrite (setup_recording_started c sur session_id w egress_id Hc Hroom).
      unfold fallback_url, path_session_id. now rewrite Hsid, Hstamp.
    + unfold setup_recording. rewrite generated_url_eq, Hc.
      unfold start_recording. simpl. rewrite Hroom. simpl. rewrite Hroom.
      reflexivity.
  - apply setup_recording_fallback. intros ?. rewrite Hc. discriminate.
  - apply setup_recording_fallback. intros ?. rewrite Hc. discriminate.
Qed.

Lemma generated_url_predicts_capture_url_witness :
  (setup_recording Sample.job_ctx
     (with_capture
        {| env_access_key_id := Some "id";
           env_secret_access_key := Some "secret";
           env_livekit_url := Some "wss://livekit.example";
           env_livekit_api_key := Some "key";
           env_livekit_api_secret := Some "secret";
           env_region := Some "eu-west-1"; env_bucket := None;
           get_or_create_session := fun _ _ => ("s", Sample.metadata);
           now_stamp := "20251031_235900"; capture_stamp := "20251031_235900";
           capture := NoAnswer; state_now := "t"; checkpoint_ok := true |}
        (Started "EG_1")) "interview-local-1"
     (Sample.world RecordBackend.empty)).1.1
  = "https://4wk-garage-media.s3.eu-west-1.amazonaws.com/interviews/interview-local-1/20251031_235900/recording.mp4".
Proof.
  rewrite generated_url_predicts_capture_url; reflexivity.
Defined.

(** X12: [save_video_to_backend] never registers an empty URL: with a
    non-empty URL it sends that URL, and without one (none given, or an empty
    string) it sends the URL of [recordings/{room}_{job}.mp4] in the
    configured bucket and region; either way it sends exactly one request,
    the creation of a record, and answers with a non-empty id or with
    nothing. *)
Theorem save_video_never_sends_empty_url :
  forall (G : Type) (execute : Request -> G -> option Data * G)
         (room job_id : string) (video_url region bucket : option string)
         (w : @World G),
    let r := save_video_to_backend execute room job_id video_url region bucket w in
    let url :=
      if Py.truthy_opt video_url then default EmptyString video_url
      else "https://" +:+ default "4wk-garage-media" bucket +:+ ".s3." +:+
           default "me-central-1" region +:+ ".amazonaws.com/recordings/" +:+
           room +:+ "_" +:+ job_id +:+ ".mp4" in
    Py.truthy_str url = true /\
    trace r.2
    = trace w ++ [Gateway (CreateInterview
                             (extract_interview_id_from_room_name room) room url
                             "VIDEO" "STARTED")] /\
    (r.1 = None \/ exists i, r.1 = Some i /\ i <> EmptyString).
Proof.
  intros G execute room job_id video_url region bucket w r url.
  assert (Hurl : url = if Py.truthy_opt video_url then default EmptyString video_url
                       else s3_url (getenv bucket "4wk-garage-media")
                              (getenv region "me-central-1")
                              ("recordings/" +:+ room +:+ "_" +:+ job_id +:+ ".mp4")).
  { subst url. destruct (Py.truthy_opt video_url); [reflexivity|].
    unfold s3_url, getenv.
    repeat (rewrite ?app_assoc', ?app_cons, ?app_empty_l; f_equal). }
  assert (Ht : Py.truthy_str url = true).
  { rewrite Hurl. destruct video_url as [[|a v]|]; reflexivity. }
  split; [exact Ht|]. split.
  - subst r. unfold save_video_to_backend. rewrite <- Hurl.
    unfold save_video_url_to_interview.
    destruct (create_interview_with_video_sends execute room url job_id w)
      as (Htr & _).
    destruct (create_interview_with_video execute room url job_id w) as [i w1].
    simpl in Htr. destruct (Py.truthy_opt i); exact Htr.
  - subst r. unfold save_video_to_backend.
    destruct (save_video_url_to_interview _ _ _ _ _) as [[i|] w1]; simpl; auto.
    destruct (Py.truthy_str i) eqn:Hi; simpl; [|auto].
    right. exists i. split; [reflexivity|]. intros ->. discriminate.
Qed.

(** ** Stopping a recording *)

(** X13: [stop_recording] stops what [start_recording] started.  After a
    start that returned a URL, with a non-empty egress id, it asks the egress
    API to stop that id, and only that id, and reports whether the API
    accepted; the manager keeps the returned URL.  After a start that
    returned nothing, and after [cleanup], it asks for nothing and reports
    failure. *)
Theorem stop_recording_stops_the_started_egress :
  forall (G : Type) (self : RecordingManager) (egress : Res string)
         (stamp : string) (room_name session_id : option string)
         (w w' : @World G) (started : RecordingManager) (url : string)
         (stop_egress : string -> Res unit),
    start_recording self egress stamp room_name session_id w
    = (Some url, started, w') ->
    (forall egress_id, egress = Ok egress_id -> egress_id <> EmptyString) ->
    (exists egress_id,
       egress = Ok egress_id /\
       stop_recording started stop_egress
       = (negb (raises (stop_egress egress_id)), [egress_id])) /\
    recording_url started = Some url /\
    stop_recording (manager_cleanup started w').1 stop_egress = (false, []) /\
    forall e,
      stop_recording
        (start_recording (manager_cleanup self w).1 (Raise e) stamp room_name
           session_id w).1.2 stop_egress = (false, []).
Proof.
  intros G self egress stamp room_name session_id w w' started url stop_egress
    H Hne.
  split; [|split; [|split; [reflexivity|]]].
  - unfold start_recording in H.
    destruct (match job_context self with Some _ => _ | None => _ end)
      as [r|]; [|discriminate].
    destruct (Py.truthy_str r); [|discriminate].
    destruct egress as [egress_id|e]; [|discriminate].
    exists egress_id. split; [reflexivity|].
    injection H as _ <- _. unfold stop_recording. simpl.
    specialize (Hne egress_id eq_refl).
    destruct egress_id as [|a i]; [congruence|]. simpl.
    destruct (stop_egress _); reflexivity.
  - unfold start_recording in H.
    destruct (match job_context self with Some _ => _ | None => _ end)
      as [r|]; [|discriminate].
    destruct (Py.truthy_str r); [|discriminate].
    destruct egress as [egress_id|e]; [|discriminate].
    injection H as <- <- _. reflexivity.
  - intros e. unfold start_recording.
    destruct (match job_context (manager_cleanup self w).1 with
              Some _ => _ | None => _ end) as [r|]; [|reflexivity].
    destruct (Py.truthy_str r); reflexivity.
Qed.

Lemma stop_recording_stops_the_started_egress_witness :
  let fresh := new_recording_manager Sample.job_ctx None None in
  let r := start_recording fresh (Ok "EG_1") "20251031_235900" None None
             (Sample.world RecordBackend.empty) in
  stop_recording r.1.2 (fun _ => Raise CollaboratorError) = (false, ["EG_1"]).
Proof.
  intros fresh r.
  destruct (stop_recording_stops_the_started_egress _ fresh (Ok "EG_1")
              "20251031_235900" None None (Sample.world RecordBackend.empty)
              r.2 r.1.2 (default EmptyString r.1.1)
              (fun _ => Raise CollaboratorError))
    as ((i & Hi & Hstop) & _).
  - reflexivity.
  - intros i [= <-]. discriminate.
  - injection Hi as <-. exact Hstop.
Defined.

(** ** graphql_client.py: the HTTP exchange *)

Ltac ends_in_none H :=
  simpl in H; rewrite ?bind_raise, ?bind_ok in H; simpl in H; congruence.

(** X14: [execute_query] answers with something other than [None] only in
    one way: the exchange returned status 200 with a body that is a
    dictionary without an [errors] key, and the answer is the [data] member
    of that body.  A body with an [errors] key gives [None] whatever its
    [data] holds. *)
Theorem execute_query_answers_data :
  forall (post : PyVal -> Res GraphQL.HttpResponse) (query : string)
         (variables v : PyVal),
    v <> PNone ->
    GraphQL.execute_query post query variables = v <->
    exists response d,
      post (GraphQL.payload query variables) = Ok response /\
      GraphQL.status response = 200%Z /\
      GraphQL.json response = Ok (PDict d) /\
      PyV.assoc "errors" d = None /\
      PyV.assoc "data" d = Some v.
Proof.
  intros post query variables v Hv. unfold GraphQL.execute_query. split.
  - intros H. destruct (post _) as [response|e]; [|congruence].
    destruct (GraphQL.json response) as [result|e] eqn:Hjson; [|congruence].
    destruct (GraphQL.status response =? 200)%Z eqn:Hstatus; [|ends_in_none H].
    simpl in H. destruct result as [| | | | |d]; try congruence.
    destruct (PyV.assoc "errors" d) eqn:Herrors; [congruence|].
    destruct (PyV.assoc "data" d) as [x|] eqn:Hdata; [|ends_in_none H].
    simpl in H. subst x. exists response, d.
    apply Z.eqb_eq in Hstatus. auto.
  - intros (response & d & -> & Hstatus & -> & -> & ->).
    rewrite Hstatus. reflexivity.
Qed.

Lemma execute_query_answers_data_witness :
  GraphQL.execute_query
    (fun _ => Ok {| GraphQL.status := 200;
                    GraphQL.json := Ok (PDict [("data", PDict [("x", PInt 1)])]) |})
    "query" PNone
  = PDict [("x", PInt 1)].
Proof.
  apply execute_query_answers_data; [discriminate|].
  eexists _, _. repeat split; reflexivity.
Defined.

Lemma subscript_dict d k :
  PyV.subscript (PDict d) k
  = match PyV.assoc k d with Some x => Ok x | None => Raise KeyError end.
Proof. reflexivity. Qed.

(** X15: [get_application_details] returns an application only when the
    answer holds, under [application], a dictionary whose [job] is a
    dictionary with a [title] and with a [company] dictionary that has a
    [name]: the line that logs job and company makes every other answer end
    in [None]. *)
Theorem application_details_need_job_and_company :
  forall (execute : string -> PyVal) (application_id : string) (app : PyVal),
    app <> PNone ->
    GraphQL.get_application_details execute application_id = app <->
    exists d a job company title name,
      execute application_id = PDict d /\
      PyV.assoc "application" d = Some (PDict a) /\
      app = PDict a /\
      PyV.assoc "job" a = Some (PDict job) /\
      PyV.assoc "title" job = Some title /\
      PyV.assoc "company" job = Some (PDict company) /\
      PyV.assoc "name" company = Some name.
Proof.
  intros execute application_id app Happ.
  unfold GraphQL.get_application_details, GraphQL.application_of_result. split.
  - intros H. destruct (PyV.truthy (execute application_id)) eqn:Ht;
      [|rewrite bind_ok, Ht in H; congruence].
    destruct (execute application_id) as [|b|z|s|l|d] eqn:Hresult;
      try (simpl in H; congruence).
    rewrite get_dict, bind_ok in H.
    destruct (PyV.assoc "application" d) as [found|] eqn:Hfound;
      [|simpl in H; congruence].
    simpl default in H.
    destruct (PyV.truthy found) eqn:Htf; [|congruence].
    rewrite (subscript_dict d "application"), Hfound, bind_ok in H.
    destruct found as [| | | | |a]; try (simpl in H; congruence).
    rewrite get_dict, bind_ok, (subscript_dict a "job") in H.
    destruct (PyV.assoc "job" a) as [job|] eqn:Hjob; [|simpl in H; congruence].
    rewrite !bind_ok in H.
    destruct job as [| | | | |job]; try (simpl in H; congruence).
    rewrite (subscript_dict job "title") in H.
    destruct (PyV.assoc "title" job) as [title|] eqn:Htitle;
      [|simpl in H; congruence].
    rewrite bind_ok, (subscript_dict job "company") in H.
    destruct (PyV.assoc "company" job) as [company|] eqn:Hcompany;
      [|simpl in H; congruence].
    rewrite bind_ok in H.
    destruct company as [| | | | |company]; try (simpl in H; congruence).
    rewrite (subscript_dict company "name") in H.
    destruct (PyV.assoc "name" company) as [name|] eqn:Hname;
      [|simpl in H; congruence].
    rewrite bind_ok in H. exists d, a, job, company, title, name.
    repeat split; auto.
  - intros (d & a & job & company & title & name
            & -> & Hfound & -> & Hjob & Htitle & Hcompany & Hname).
    assert (Ht : PyV.truthy (PDict d) = true) by now destruct d.
    assert (Hta : PyV.truthy (PDict a) = true) by now destruct a.
    rewrite Ht, get_dict, bind_ok, Hfound. simpl default.
    rewrite Hta, (subscript_dict d "application"), Hfound, bind_ok.
    rewrite get_dict, bind_ok, (subscript_dict a "job"), Hjob, !bind_ok.
    rewrite (subscript_dict job "title"), Htitle, bind_ok.
    rewrite (subscript_dict job "company"), Hcompany, bind_ok.
    rewrite (subscript_dict company "name"), Hname, bind_ok. reflexivity.
Qed.

Lemma application_details_need_job_and_company_witness :
  let a := [("applicantName", PStr "Lina");
            ("job", PDict [("title", PStr "Engineer");
                           ("company", PDict [("name", PStr "Acme")])])] in
  GraphQL.get_application_details (fun _ => PDict [("application", PDict a)]) "id"
  = PDict a.
Proof.
  intros a. apply application_details_need_job_and_company; [discriminate|].
  eexists _, _, _, _, _, _. repeat split; reflexivity.
Defined.

(** ** graphql_client.py: transcripts in bulk *)

Lemma bulk_input_ok interview_id entry input :
  GraphQL.bulk_input interview_id entry = Ok input ->
  exists c s t n,
    PyV.subscript entry "content" = Ok c /\
    PyV.subscript entry "speaker" = Ok s /\
    PyV.subscript entry "timestamp" = Ok t /\
    PyV.subscript entry "sequence_number" = Ok n /\
    input = PDict [ ("interviewId", PStr interview_id); ("content", c);
                    ("speaker", s); ("timestamp", t); ("sequenceNumber", n) ].
Proof.
  unfold GraphQL.bulk_input. intros H.
  destruct (PyV.subscript entry "content") as [c|]; [|discriminate].
  rewrite bind_ok in H.
  destruct (PyV.subscript entry "speaker") as [s|]; [|discriminate].
  rewrite bind_ok in H.
  destruct (PyV.subscript entry "timestamp") as [t|]; [|discriminate].
  rewrite bind_ok in H.
  destruct (PyV.subscript entry "sequence_number") as [n|]; [|discriminate].
  rewrite bind_ok in H. injection H as <-. exists c, s, t, n. auto.
Qed.

Lemma bulk_inputs_cases interview_id entries :
  (exists inputs,
     GraphQL.bulk_inputs interview_id entries = Ok inputs /\
     Forall2 (fun entry input => GraphQL.bulk_input interview_id entry = Ok input)
       entries inputs)
  \/ (raises (GraphQL.bulk_inputs interview_id entries) = true /\
      Exists (fun entry => raises (GraphQL.bulk_input interview_id entry) = true)
        entries).
Proof.
  induction entries as [|entry entries IH]; [left; exists []; split; [reflexivity|constructor]|].
  simpl. destruct (GraphQL.bulk_input interview_id entry) as [input|e] eqn:Hin.
  - rewrite bind_ok. destruct IH as [(inputs & -> & Hall)|[Hr Hex]].
    + left. exists (input :: inputs). rewrite bind_ok. split; [reflexivity|].
      constructor; assumption.
    + right. split; [|now apply Exists_cons_tl].
      destruct (GraphQL.bulk_inputs interview_id entries); [discriminate|reflexivity].
  - right. split; [reflexivity|]. apply Exists_cons_hd. now rewrite Hin.
Qed.

(** X16: [create_bulk_transcripts] is all or nothing.  Either every entry has
    the four keys, and then one request is sent whose inputs are the entries
    in their order, each with the record id added (for no entries, a request
    with no inputs), and success is reported only for an answer with a
    non-empty [createBulkTranscripts]; or some entry lacks a key, and then
    nothing is sent and failure is reported, also for the entries that were
    complete. *)
Theorem bulk_transcripts_all_or_nothing :
  forall (execute : list PyVal -> PyVal) (interview_id : string)
         (entries : list PyVal),
    let r := GraphQL.create_bulk_transcripts execute interview_id entries in
    (exists inputs,
       r.2 = [inputs] /\
       Forall2
         (fun entry input =>
            exists c s t n,
              PyV.subscript entry "content" = Ok c /\
              PyV.subscript entry "speaker" = Ok s /\
              PyV.subscript entry "timestamp" = Ok t /\
              PyV.subscript entry "sequence_number" = Ok n /\
              input = PDict [ ("interviewId", PStr interview_id); ("content", c);
                              ("speaker", s); ("timestamp", t);
                              ("sequenceNumber", n) ])
         entries inputs /\
       (r.1 = true ->
        exists d created,
          execute inputs = PDict d /\
          PyV.assoc "createBulkTranscripts" d = Some created /\
          PyV.truthy created = true))
    \/ (r = (false, []) /\
        Exists (fun entry => raises (GraphQL.bulk_input interview_id entry) = true)
          entries).
Proof.
  intros execute interview_id entries r. subst r.
  unfold GraphQL.create_bulk_transcripts.
  destruct (bulk_inputs_cases interview_id entries) as [(inputs & -> & Hall)|[Hr Hex]].
  - left. exists inputs. split; [|split].
    + destruct (if PyV.truthy (execute inputs) then _ else _); reflexivity.
    + eapply Forall2_impl; [exact Hall|]. intros entry input.
      apply bulk_input_ok.
    + destruct (PyV.truthy (execute inputs)) eqn:Ht;
        [|simpl; rewrite Ht; discriminate].
      destruct (execute inputs) as [|b|z|s|l|d] eqn:Hresult;
        try (simpl; discriminate).
      * unfold PyV.get.
        destruct (PyV.assoc "createBulkTranscripts" d) as [created|] eqn:Hcreated;
          [|simpl; discriminate].
        simpl. intros Hc. apply andb_true_iff in Hc as [Hc _].
        exists d, created. auto.
  - right. split; [|exact Hex].
    destruct (GraphQL.bulk_inputs interview_id entries); [discriminate|reflexivity].
Qed.

(** ** v1/session_manager.py: the checkpointer *)

Lemma returned_memory ops : forall self,
  Checkpointing._checkpointer self = Some Checkpointing.MemorySaver ->
  Checkpointing._checkpointer_context self = None ->
  Checkpointing.returned ops self
  = replicate (length (List.filter Checkpointing.is_get ops))
      Checkpointing.MemorySaver.
Proof.
  induction ops as [|[b|] ops IH]; intros self Hc Hx; [reflexivity| |].
  - simpl. unfold Checkpointing.get_checkpointer. rewrite Hc. f_equal.
    now apply IH.
  - simpl. unfold Checkpointing.close_session. rewrite Hc, Hx. now apply IH.
Qed.

(** X17: the fallback to memory is permanent.  Once [get_checkpointer] has
    failed to set up the Postgres saver, every later call returns the memory
    saver, whether or not the database would answer by then and whether or
    not [close_session] is called in between: [close_session] resets only a
    manager that holds an entered context. *)
Theorem memory_fallback_is_permanent :
  forall (self : Checkpointing.InterviewSessionManager)
         (ops : list Checkpointing.Op),
    Checkpointing._checkpointer self = None ->
    Checkpointing.returned (Checkpointing.Get false :: ops) self
    = replicate (S (length (List.filter Checkpointing.is_get ops)))
        Checkpointing.MemorySaver.
Proof.
  intros self ops Hc. simpl. unfold Checkpointing.get_checkpointer.
  rewrite Hc. f_equal. now apply returned_memory.
Qed.

Lemma memory_fallback_is_permanent_witness :
  Checkpointing.returned
    [Checkpointing.Get false; Checkpointing.Close; Checkpointing.Get true]
    {| Checkpointing.postgres_config :=
         {| Checkpointing.host := "localhost"; Checkpointing.port := 5432;
            Checkpointing.dbname := "livekit_sessions";
            Checkpointing.user := "postgres";
            Checkpointing.password := EmptyString |};
       Checkpointing._checkpointer := None;
       Checkpointing._checkpointer_context := None |}
  = [Checkpointing.MemorySaver; Checkpointing.MemorySaver].
Proof.
  apply (memory_fallback_is_permanent _
           [Checkpointing.Close; Checkpointing.Get true]).
  reflexivity.
Defined.

Lemma returned_postgres ops : forall self url b,
  Checkpointing._checkpointer self = Some (Checkpointing.AsyncPostgresSaver url) ->
  Checkpointing._checkpointer_context self = Some url ->
  forallb Checkpointing.is_get ops = true ->
  Checkpointing.returned (ops ++ [Checkpointing.Close; Checkpointing.Get b]) self
  = replicate (length ops) (Checkpointing.AsyncPostgresSaver url)
    ++ [if b then Checkpointing.AsyncPostgresSaver
                    (Checkpointing.get_postgres_url self)
        else Checkpointing.MemorySaver].
Proof.
  induction ops as [|[b'|] ops IH]; intros self url b Hc Hx Hops.
  - simpl. unfold Checkpointing.close_session. rewrite Hc, Hx.
    unfold Checkpointing.get_checkpointer. simpl. destruct b; reflexivity.
  - simpl in *. unfold Checkpointing.get_checkpointer. rewrite Hc. f_equal.
    now apply IH.
  - discriminate.
Qed.

(** X18: a Postgres saver is chosen once and kept until [close_session].
    After a set-up that succeeded, every call of [get_checkpointer] returns
    the saver of the manager's connection URL without looking at the database
    again; [close_session] drops it, and the next call decides anew. *)
Theorem postgres_saver_kept_until_close :
  forall (self : Checkpointing.InterviewSessionManager)
         (ops : list Checkpointing.Op) (b : bool),
    Checkpointing._checkpointer self = None ->
    forallb Checkpointing.is_get ops = true ->
    Checkpointing.returned
      (Checkpointing.Get true :: ops
       ++ [Checkpointing.Close; Checkpointing.Get b]) self
    = replicate (S (length ops))
        (Checkpointing.AsyncPostgresSaver (Checkpointing.get_postgres_url self))
      ++ [if b then Checkpointing.AsyncPostgresSaver
                      (Checkpointing.get_postgres_url self)
          else Checkpointing.MemorySaver].
Proof.
  intros self ops b Hc Hops.
  change (Checkpointing.returned (Checkpointing.Get true :: ?l) self)
    with (let '(c, self') := Checkpointing.get_checkpointer true self in
          c :: Checkpointing.returned l self').
  unfold Checkpointing.get_checkpointer. rewrite Hc.
  rewrite (returned_postgres ops _ (Checkpointing.get_postgres_url self) b);
    [reflexivity|reflexivity|reflexivity|exact Hops].
Qed.

Lemma postgres_saver_kept_until_close_witness :
  let self :=
    {| Checkpointing.postgres_config :=
         {| Checkpointing.host := "localhost"; Checkpointing.port := 5432;
            Checkpointing.dbname := "livekit_sessions";
            Checkpointing.user := "postgres";
            Checkpointing.password := "pw" |};
       Checkpointing._checkpointer := None;
       Checkpointing._checkpointer_context := None |} in
  let saver :=
    Checkpointing.AsyncPostgresSaver
      "postgresql://postgres:pw@localhost:5432/livekit_sessions" in
  Checkpointing.returned
    [Checkpointing.Get true; Checkpointing.Get false; Checkpointing.Close;
     Checkpointing.Get false] self
  = [saver; saver; Checkpointing.MemorySaver].
Proof.
  intros self saver.
  apply (postgres_saver_kept_until_close self [Checkpointing.Get false] false);
    reflexivity.
Defined.

(** ** arabic_turn_detector.py *)

(** X19: the threshold and the supported languages of the detector.  Every
    language for which [unlikely_threshold] answers is one that
    [supports_language] accepts, and the threshold answered is never 0 (a
    configured 0 is replaced by 0.3); an English language tag is accepted but
    has no threshold. *)
Theorem threshold_only_for_supported_languages :
  forall (configured : option ArabicTurnDetector.Q) (language : option string),
    let detector := ArabicTurnDetector.init configured in
    match ArabicTurnDetector.unlikely_threshold detector language with
    | Some t =>
        ArabicTurnDetector.supports_language language = true /\
        QArith_base.Qnum t <> 0%Z /\
        (configured = Some t \/ t = ArabicTurnDetector.q 3)
    | None =>
        exists l, language = Some l /\ l <> EmptyString /\
                  Py.startswith l "ar" = false /\
                  ArabicTurnDetector.supports_language language
                  = Py.startswith l "en"
    end.
Proof.
  intros configured language detector.
  assert (Ht : QArith_base.Qnum (ArabicTurnDetector._unlikely_threshold detector)
               <> 0%Z /\
               (configured = Some (ArabicTurnDetector._unlikely_threshold detector)
                \/ ArabicTurnDetector._unlikely_threshold detector
                   = ArabicTurnDetector.q 3)).
  { subst detector. unfold ArabicTurnDetector.init. simpl.
    destruct configured as [x|]; [|split; [discriminate|auto]].
    destruct (QArith_base.Qnum x =? 0)%Z eqn:Hx; [split; [discriminate|auto]|].
    apply Z.eqb_neq in Hx. auto. }
  clearbody detector.
  unfold ArabicTurnDetector.unlikely_threshold,
    ArabicTurnDetector.supports_language.
  destruct language as [l|]; [|simpl; tauto].
  destruct l as [|a l]; [simpl; tauto|].
  change (Py.truthy_opt (Some (String a l))) with true. cbv [negb].
  unfold ArabicTurnDetector.supported_langs.
  change (default EmptyString (Some (String a l))) with (String a l).
  cbn [existsb].
  destruct (Py.startswith (String a l) "ar") eqn:Har; [cbn [orb]; tauto|].
  exists (String a l). rewrite orb_false_r. repeat split; congruence.
Qed.

Lemma score_range content :
  In (ArabicTurnDetector.score content)
    [ArabicTurnDetector.q 4; ArabicTurnDetector.q 6; ArabicTurnDetector.q 7;
     ArabicTurnDetector.q 8].
Proof.
  unfold ArabicTurnDetector.score.
  repeat match goal with |- context [if ?c then _ else _] => destruct c end;
    simpl; tauto.
Qed.

Lemma predict_on_messages_last
    (earlier : list ArabicTurnDetector.ChatItem)
    (last_message : ArabicTurnDetector.ChatItem) :
  ArabicTurnDetector.predict_on_messages (earlier ++ [last_message])
  = ArabicTurnDetector.predict_on_messages [last_message].
Proof. unfold ArabicTurnDetector.predict_on_messages. now rewrite last_snoc. Qed.

Lemma predict_on_messages_range (messages : list ArabicTurnDetector.ChatItem) :
  In (ArabicTurnDetector.predict_on_messages messages)
    [ArabicTurnDetector.q 4; ArabicTurnDetector.q 5; ArabicTurnDetector.q 6;
     ArabicTurnDetector.q 7; ArabicTurnDetector.q 8].
Proof.
  unfold ArabicTurnDetector.predict_on_messages.
  destruct (last messages) as [m|]; [|simpl; tauto].
  cbv zeta. destruct (negb _); [simpl; tauto|].
  destruct (PyV.strip _) as [content|e]; [|simpl; tauto].
  pose proof (score_range content) as Hr. simpl in Hr. simpl. tauto.
Qed.

Lemma predict_on_messages_not_str (m : ArabicTurnDetector.ChatItem) :
  is_str (ArabicTurnDetector.item_content m) = false ->
  ArabicTurnDetector.predict_on_messages [m] = ArabicTurnDetector.q 5.
Proof.
  unfold ArabicTurnDetector.predict_on_messages. simpl.
  destruct (ArabicTurnDetector.item_content m) as [|b|z|s|l|d]; intros H.
  - reflexivity.
  - destruct b; reflexivity.
  - simpl. destruct (z =? 0)%Z; reflexivity.
  - discriminate.
  - destruct l; reflexivity.
  - destruct d; reflexivity.
Qed.

(** X20: the prediction of the detector is one of 0.4, 0.5, 0.6, 0.7 and 0.8
    for every chat context.  When the context gives its messages as a list
    (through [messages], [_messages] or [get_messages()]), the prediction
    depends on the last message only, and it is the neutral 0.5 whenever the
    content of that message is not a string (a list of parts, for one).  When
    what the context gives is no list (a bound method, for one), or
    [get_messages()] raises, the prediction is the neutral 0.5. *)
Theorem prediction_reads_last_message_only :
  forall (chat_ctx : ArabicTurnDetector.ChatContext),
    let p := ArabicTurnDetector.predict_end_of_turn chat_ctx in
    In p [ArabicTurnDetector.q 4; ArabicTurnDetector.q 5; ArabicTurnDetector.q 6;
          ArabicTurnDetector.q 7; ArabicTurnDetector.q 8] /\
    (forall (earlier : list ArabicTurnDetector.ChatItem)
            (last_message : ArabicTurnDetector.ChatItem),
        ArabicTurnDetector.messages_of_context chat_ctx
        = Ok (ArabicTurnDetector.MessageList (earlier ++ [last_message])) ->
        p = ArabicTurnDetector.predict_end_of_turn
              (ArabicTurnDetector.HasMessages
                 (ArabicTurnDetector.MessageList [last_message])) /\
        p = ArabicTurnDetector.predict_on_messages (earlier ++ [last_message]) /\
        (is_str (ArabicTurnDetector.item_content last_message) = false ->
         p = ArabicTurnDetector.q 5)) /\
    (forall truthy,
        ArabicTurnDetector.messages_of_context chat_ctx
        = Ok (ArabicTurnDetector.NotAList truthy) ->
        p = ArabicTurnDetector.q 5) /\
    (forall e,
        ArabicTurnDetector.messages_of_context chat_ctx = Raise e ->
        p = ArabicTurnDetector.q 5).
Proof.
  intros chat_ctx p. subst p. unfold ArabicTurnDetector.predict_end_of_turn.
  destruct (ArabicTurnDetector.messages_of_context chat_ctx) as [[l|t]|e].
  - split; [apply predict_on_messages_range|].
    split; [|split; discriminate].
    intros earlier last_message [= ->]. simpl.
    rewrite predict_on_messages_last. split; [reflexivity|].
    split; [reflexivity|]. apply predict_on_messages_not_str.
  - split; [simpl; tauto|]. split; [discriminate|]. split; reflexivity.
  - split; [simpl; tauto|]. split; [discriminate|]. split; reflexivity.
Qed.

(** X21: when the chat context gives its messages as a list, a last message
    of white space only is not taken for an empty one: empty content scores
    the neutral 0.5, but non-empty content that strips to nothing is scored
    as a short reply, 0.6. *)
Theorem blank_content_scores_as_short_reply :
  forall (chat_ctx : ArabicTurnDetector.ChatContext)
         (earlier : list ArabicTurnDetector.ChatItem)
         (last_message : ArabicTurnDetector.ChatItem) (content : string),
    ArabicTurnDetector.messages_of_context chat_ctx
    = Ok (ArabicTurnDetector.MessageList (earlier ++ [last_message])) ->
    ArabicTurnDetector.item_content last_message = PStr content ->
    Py.strip content = EmptyString ->
    ArabicTurnDetector.predict_end_of_turn chat_ctx
    = if String.eqb content EmptyString then ArabicTurnDetector.q 5
      else ArabicTurnDetector.q 6.
Proof.
  intros chat_ctx earlier last_message content Hm Hc Hstrip.
  unfold ArabicTurnDetector.predict_end_of_turn. rewrite Hm.
  rewrite predict_on_messages_last.
  unfold ArabicTurnDetector.predict_on_messages. simpl.
  rewrite Hc. destruct content as [|a s]; [reflexivity|].
  change (PyV.truthy (PStr (String a s))) with true. cbv [negb].
  unfold PyV.strip. rewrite Hstrip. reflexivity.
Qed.

Lemma blank_content_scores_as_short_reply_witness :
  ArabicTurnDetector.predict_end_of_turn
    (ArabicTurnDetector.HasPrivateMessages
       (ArabicTurnDetector.MessageList
          ([ArabicTurnDetector.IsStr "ماذا تفعل؟"]
           ++ [ArabicTurnDetector.HasText (PStr "  ")])))
  = ArabicTurnDetector.q 6.
Proof.
  apply (blank_content_scores_as_short_reply
           (ArabicTurnDetector.HasPrivateMessages
              (ArabicTurnDetector.MessageList
                 ([ArabicTurnDetector.IsStr "ماذا تفعل؟"]
                  ++ [ArabicTurnDetector.HasText (PStr "  ")])))
           [ArabicTurnDetector.IsStr "ماذا تفعل؟"]
           (ArabicTurnDetector.HasText (PStr "  ")) "  "); reflexivity.
Defined.
